(** * Afams Mini Accounting backend: authentication and per-user data isolation

    A shallow embedding of [server.js] and of the Mongoose schemas under
    [models/], with the theorems that relate the embedded handlers to the
    specification of the authentication and data-isolation layer.

    Layout: JavaScript values and string helpers; exceptions as an error
    monad; the [jsonwebtoken] calls of the token service; the Mongoose
    operations the handlers use (casting, validation, queries); the three
    schemas; the Express handlers; then the lemmas and theorems. *)

From Stdlib Require Import ZArith String Ascii List Lia Bool Sorted.
From Stdlib Require OrderedTypeEx.
From stdpp Require Import base option list gmap strings.

Set Warnings "-register-all".
Open Scope string_scope.
Open Scope Z_scope.

(** ** JavaScript values *)

Module Js.

(** A JavaScript value: parsed JSON, as [express.json()] hands it to a
    handler, or an ObjectId instance in its 24-digit text form, as the
    server hands one to Mongoose. A number is written by its value, an
    integer; numbers with a fraction are not among the values written
    here, and what is added is rounded as a double is ([toDouble]).
    A string is the sequence of the bytes of its UTF-8 form. *)
Inductive json : Type :=
| JNull
| JBool (b : bool)
| JNum (n : Z)
| JStr (s : string)
| JOid (id : string)
| JArr (l : list json)
| JObj (l : list (string * json)).

#[global] Instance json_eq_dec : EqDecision json.
Proof.
  refine (fix go (x y : json) {struct x} : Decision (x = y) :=
            match x, y with
            | JNull, JNull => left eq_refl
            | JBool a, JBool b => cast_if (decide (a = b))
            | JNum a, JNum b => cast_if (decide (a = b))
            | JStr a, JStr b => cast_if (decide (a = b))
            | JOid a, JOid b => cast_if (decide (a = b))
            | JArr l, JArr l' => cast_if (@list_eq_dec _ go l l')
            | JObj l, JObj l' => cast_if (@list_eq_dec _ (@prod_eq_dec _ _ _ go) l l')
            | _, _ => right _
            end); congruence.
Defined.

(** A request body or any other plain object: property name to value. A
    missing key is JavaScript's [undefined]. *)
Abbreviation object := (gmap string json).

(** [!v] is [negb (truthy v)]: a missing property, [null], [false], [0] and
    the empty string are falsy. *)
Definition truthy (v : option json) : bool :=
  match v with
  | None | Some JNull | Some (JBool false) | Some (JNum 0)
  | Some (JStr EmptyString) => false
  | Some _ => true
  end.

Definition isUpper (c : ascii) : bool :=
  (Nat.leb 65 (nat_of_ascii c) && Nat.leb (nat_of_ascii c) 90)%bool.

Definition lowerChar (c : ascii) : ascii :=
  if isUpper c then ascii_of_nat (nat_of_ascii c + 32) else c.

(** [String.prototype.toLowerCase] on a string of ASCII characters. *)
Fixpoint asciiLowerCase (s : string) : string :=
  match s with
  | EmptyString => EmptyString
  | String c s' => String (lowerChar c) (asciiLowerCase s')
  end.

(** A byte of an ASCII character; the other bytes are those of the
    characters that UTF-8 writes with more than one byte. *)
Definition isAscii (c : ascii) : bool := Nat.ltb (nat_of_ascii c) 128.

(** [s.startsWith(p)]. *)
Definition startsWith (p s : string) : bool := String.prefix p s.

(** [s.split(c)] for a one-character separator. *)
Fixpoint split (c : ascii) (s : string) : list string :=
  match s with
  | EmptyString => [EmptyString]
  | String a s' =>
      if Ascii.eqb a c then EmptyString :: split c s'
      else match split c s' with
           | x :: xs => String a x :: xs
           | [] => [String a EmptyString]
           end
  end.

Definition isSpace (c : ascii) : bool :=
  match nat_of_ascii c with
  | 9%nat | 10%nat | 11%nat | 12%nat | 13%nat | 32%nat => true
  | _ => false
  end.

Fixpoint trimStart (s : string) : string :=
  match s with
  | EmptyString => EmptyString
  | String c s' => if isSpace c then trimStart s' else s
  end.

Fixpoint trimEnd (s : string) : string :=
  match s with
  | EmptyString => EmptyString
  | String c s' =>
      match trimEnd s' with
      | EmptyString => if isSpace c then EmptyString else String c EmptyString
      | t => String c t
      end
  end.

(** [s.trim()] on a string of ASCII characters. *)
Definition asciiTrim (s : string) : string := trimEnd (trimStart s).

Definition isDigit (c : ascii) : bool :=
  (Nat.leb 48 (nat_of_ascii c) && Nat.leb (nat_of_ascii c) 57)%bool.

Definition isHexDigit (c : ascii) : bool :=
  (isDigit c
   || (Nat.leb 65 (nat_of_ascii c) && Nat.leb (nat_of_ascii c) 70)
   || (Nat.leb 97 (nat_of_ascii c) && Nat.leb (nat_of_ascii c) 102))%bool.

Fixpoint allChars (p : ascii -> bool) (s : string) : bool :=
  match s with
  | EmptyString => true
  | String c s' => (p c && allChars p s')%bool
  end.

(** The value of a run of decimal digits, most significant first. *)
Fixpoint digitsFrom (acc : Z) (s : string) : option Z :=
  match s with
  | EmptyString => Some acc
  | String c s' =>
      if isDigit c then digitsFrom (10 * acc + (Z.of_nat (nat_of_ascii c) - 48)) s'
      else None
  end.

Definition parseDigits (s : string) : option Z :=
  match s with
  | EmptyString => None
  | _ => digitsFrom 0 s
  end.

Definition digitChar (d : Z) : ascii := ascii_of_nat (Z.to_nat (48 + d)).

Fixpoint showDigits (fuel : nat) (n : Z) (acc : string) : string :=
  match fuel with
  | O => acc
  | S fuel' =>
      let acc' := String (digitChar (n mod 10)) acc in
      if n <? 10 then acc' else showDigits fuel' (n / 10) acc'
  end.

(** The decimal digits of an integer [n]: [String(n)] as long as
    JavaScript writes all the digits, which it does below [1e21]. *)
Definition showZ (n : Z) : string :=
  if n <? 0 then String "-" (showDigits (S (Z.to_nat (Z.log2 (- n)))) (- n) EmptyString)
  else showDigits (S (Z.to_nat (Z.log2 n))) n EmptyString.

(** The integer [z] as a double: rounded to 53 significant bits, to the
    nearest and, half way, to the even one; [None] stands for an
    infinity, which the rounding gives from [2^1024] on. *)
Definition toDouble (z : Z) : option Z :=
  let a := Z.abs z in
  if a <? 2 ^ 53 then Some z
  else
    let e := Z.log2 a - 52 in
    let q := a / 2 ^ e in
    let r := a mod 2 ^ e in
    let half := 2 ^ (e - 1) in
    let q' := if (half <? r) || ((r =? half) && Z.odd q) then q + 1 else q in
    let m := q' * 2 ^ e in
    if 2 ^ 1024 <=? m then None else Some (Z.sgn z * m).

(** [a + b] on two numbers; [None] is a value that is not finite, which
    stays so whatever is added. *)
Definition plus (a b : option Z) : option Z :=
  match a, b with
  | Some x, Some y => toDouble (x + y)
  | _, _ => None
  end.

End Js.
Export Js.

(** ** Exceptions

    A JavaScript call either returns or throws; [await] on a rejected promise
    throws as well. [try { .. } catch] is a [match] on the result. *)

Inductive exn : Type :=
| JsonWebTokenError (msg : string)
| TokenExpiredError
| NotBeforeError
| MongooseError (msg : string)
| TypeError (msg : string)
| CastError (path : string)
| ValidationError (paths : list string)
| MongoServerError (code : Z).

Inductive result (A : Type) : Type :=
| Ok (a : A)
| Throw (e : exn).
Arguments Ok {A} a.
Arguments Throw {A} e.

Definition bind {A B : Type} (m : result A) (k : A -> result B) : result B :=
  match m with
  | Ok a => k a
  | Throw e => Throw e
  end.

Notation "'let*' x := m 'in' k" := (bind m (fun x => k))
  (at level 10, x pattern, m at level 100, k at level 200).

Definition ofOption {A : Type} (e : exn) (o : option A) : result A :=
  match o with
  | Some a => Ok a
  | None => Throw e
  end.

(** ** Stored values and the platform *)

(** An ObjectId, in the text form the driver prints it in. *)
Definition ObjectId : Type := string.

(** A value as the document store holds it. Dates are milliseconds since
    the epoch. *)
Inductive bson : Type :=
| BNull
| BBool (b : bool)
| BNum (n : Z)
| BStr (s : string)
| BDate (ms : Z)
| BOid (id : ObjectId).

#[global] Instance bson_eq_dec : EqDecision bson.
Proof. solve_decision. Defined.

(** A stored document: path to value. *)
Abbreviation Doc := (gmap string bson).

(** The schema types the three models use. *)
Inductive SchemaType : Type := TString | TNumber | TDate | TBoolean | TObjectId.

(** The payload of a token, as far as the server and [jwt.verify] read
    it: [{ userId, iat, nbf, exp }], times in seconds. A claim that the
    payload does not have is [None]; [userId] is whatever value the
    payload gives it, a string in every token [generateToken] signs. *)
Record Claims : Type := mkClaims {
  userId : option json;
  iat : option Z;
  nbf : option Z;
  exp : option Z
}.

#[global] Instance Claims_eq_dec : EqDecision Claims.
Proof. solve_decision. Defined.

(** What the handlers take from the JavaScript runtime and from the npm
    packages, and what this development does not look inside: the keyed
    hash and the base64url/JSON coding of [jws], [bcryptjs], the parsers
    of ObjectIds, numbers and dates, Mongoose's treatment of arrays
    and objects where a schema expects a scalar (nested [_id], query and
    update operators), and the string functions of the runtime on
    strings with characters outside ASCII. *)
Class Platform : Type := {
  (** [hmac alg key input]: the signature segment of [jws.sign]. *)
  hmac : string -> string -> string -> string;
  (** the header segment for an algorithm, and the algorithm of a header
      segment *)
  encodeHeader : string -> string;
  decodeHeader : string -> option string;
  (** the payload segment for a claim set, and back; [None] for a segment
      that does not decode to a payload [jwt.verify] goes on with *)
  encodePayload : Claims -> string;
  decodePayload : string -> option Claims;
  (** [bcrypt.hash(plain, salt)] and [bcrypt.compare(plain, digest)] *)
  bcryptHash : string -> string;
  bcryptCompare : string -> string -> bool;
  (** the ObjectId a string stands for, in its canonical text form;
      [None] when the driver refuses the string *)
  parseObjectId : string -> option ObjectId;
  (** [Number(s)], [None] for [NaN] *)
  parseNumber : string -> option Z;
  (** [new Date(s).valueOf()], [None] for an invalid date *)
  parseDate : string -> option Z;
  (** the cast of an array or object to a schema type, [None] when it fails *)
  castComposite : SchemaType -> json -> option bson;
  (** an array or object as a query condition on a path of a schema type *)
  queryComposite : SchemaType -> json -> option (bson -> bool);
  (** a [$]-operator of an update document, as a change of the document *)
  updateOperator : string -> json -> option (Doc -> Doc);
  (** [s.toLowerCase()], [s.trim()] and [s.length] for a string [s] that
      has a character outside ASCII *)
  unicodeLowerCase : string -> string;
  unicodeTrim : string -> string;
  unicodeLength : string -> Z;
  (** lower-casing never empties a string *)
  unicodeLowerCase_text : forall s, unicodeLowerCase s = "" -> s = "";
  (** [String(n)] for an integer [n] from [1e21] on, where JavaScript
      writes an exponent *)
  exponentText : Z -> string;
  (** the [ms] package on a time span that is written otherwise than as
      an integer with a short unit in lower case (a decimal point, a long
      or upper-case unit, a blank before the unit): the milliseconds,
      rounded down, [None] when the package does not read the span *)
  msWritten : string -> option Z
}.

(** ** Strings of the runtime *)

Section Strings.
Context `{Platform}.

(** [s.toLowerCase()]. *)
Definition toLowerCase (s : string) : string :=
  if allChars isAscii s then asciiLowerCase s else unicodeLowerCase s.

(** [s.trim()]. *)
Definition trim (s : string) : string :=
  if allChars isAscii s then asciiTrim s else unicodeTrim s.

(** [s.length], in UTF-16 code units: one for each ASCII character. *)
Definition lengthOf (s : string) : Z :=
  if allChars isAscii s then Z.of_nat (String.length s) else unicodeLength s.

(** [String(n)] for a number whose value is the integer [n]. *)
Definition numberText (n : Z) : string :=
  if Z.abs n <? 10 ^ 21 then showZ n else exponentText n.

(** [String(b)]. *)
Definition boolText (b : bool) : string := if b then "true" else "false".

(** [String(v)] for an array or an object [v], and the text of a value
    as an element of [l.join(",")]: [null] counts as the empty string, a
    nested array is joined in turn, and an object is written by
    [Object.prototype.toString] unless a property of its own hides that
    method, the property of a parsed body being no function. *)
Fixpoint elementText (v : json) : result string :=
  match v with
  | JNull => Ok ""
  | JBool b => Ok (boolText b)
  | JNum n => Ok (numberText n)
  | JStr s => Ok s
  | JOid id => Ok id
  | JArr l =>
      (fix join (l : list json) : result string :=
         match l with
         | [] => Ok ""
         | x :: rest =>
             match rest with
             | [] => elementText x
             | _ :: _ =>
                 let* first := elementText x in
                 let* others := join rest in
                 Ok (first ++ "," ++ others)
             end
         end) l
  | JObj props =>
      if existsb (fun kv => String.eqb (fst kv) "toString") props
      then Throw (TypeError "Cannot convert object to primitive value")
      else Ok "[object Object]"
  end.

End Strings.

(** ** jsonwebtoken *)

Module Jwt.
Section Jwt.
Context `{Platform}.

Fixpoint spanDigits (s : string) : string * string :=
  match s with
  | EmptyString => (EmptyString, EmptyString)
  | String c s' =>
      if isDigit c then let '(d, u) := spanDigits s' in (String c d, u)
      else (EmptyString, s)
  end.

Definition unitMs (u : string) : option Z :=
  if String.eqb u "" then Some 1
  else if String.eqb u "ms" then Some 1
  else if String.eqb u "s" then Some 1000
  else if String.eqb u "m" then Some 60000
  else if String.eqb u "h" then Some 3600000
  else if String.eqb u "d" then Some 86400000
  else if String.eqb u "w" then Some 604800000
  else if String.eqb u "y" then Some 31557600000
  else None.

(** The [ms] package on a time span: on an integer with an optional
    short unit, the span in milliseconds; on what is written otherwise,
    what the package makes of it. *)
Definition ms (s : string) : option Z :=
  let '(neg, body) :=
    match s with
    | String "-" s' => (true, s')
    | _ => (false, s)
    end in
  let '(d, u) := spanDigits body in
  match parseDigits d, unitMs u with
  | Some n, Some k => Some (if neg : bool then - (n * k) else n * k)
  | _, _ => msWritten s
  end.

Definition hsAlgorithms : list string := ["HS256"; "HS384"; "HS512"].

Definition noSecret (secret : option string) : bool :=
  match secret with
  | None | Some EmptyString => true
  | Some _ => false
  end.

(** [jwt.sign({ userId }, secret, { expiresIn })] at clock [now]
    (milliseconds): [iat] is the clock in seconds and [exp] is
    [Math.floor(iat + ms(expiresIn) / 1000)]. *)
Definition sign (uid : string) (secret : option string) (expiresIn : string)
    (now : Z) : result string :=
  match secret with
  | None | Some EmptyString =>
      Throw (JsonWebTokenError "secretOrPrivateKey must have a value")
  | Some key =>
      match ms expiresIn with
      | None => Throw (JsonWebTokenError "invalid expiresIn option")
      | Some span =>
          let timestamp := now / 1000 in
          let payload :=
            {| userId := Some (JStr uid); iat := Some timestamp; nbf := None;
               exp := Some (timestamp + span / 1000) |} in
          let input := encodeHeader "HS256" ++ "." ++ encodePayload payload in
          Ok (input ++ "." ++ hmac "HS256" key input)
      end
  end.

(** [jwt.verify(token, secret)] at clock [now], in the order of the
    package's checks. [token] is [None] for [undefined]. *)
Definition verify (token : option string) (secret : option string) (now : Z)
    : result Claims :=
  match token with
  | None | Some EmptyString => Throw (JsonWebTokenError "jwt must be provided")
  | Some jwtString =>
      match split "." jwtString with
      | [h; p; s] =>
          match decodeHeader h, decodePayload p with
          | Some alg, Some payload =>
              if String.eqb (trim s) "" then
                Throw (JsonWebTokenError
                         (if noSecret secret then "invalid algorithm"
                          else "jwt signature is required"))
              else
                match secret with
                | None | Some EmptyString =>
                    Throw (JsonWebTokenError "secret or public key must be provided")
                | Some key =>
                    if negb (bool_decide (alg ∈ hsAlgorithms)) then
                      Throw (JsonWebTokenError "invalid algorithm")
                    else if negb (String.eqb s (hmac alg key (h ++ "." ++ p))) then
                      Throw (JsonWebTokenError "invalid signature")
                    else if from_option (fun n => now / 1000 <? n) false (nbf payload) then
                      Throw NotBeforeError
                    else
                      match exp payload with
                      | Some e =>
                          if e <=? now / 1000 then Throw TokenExpiredError
                          else Ok payload
                      | None => Ok payload
                      end
                end
          | _, _ => Throw (JsonWebTokenError "invalid token")
          end
      | _ => Throw (JsonWebTokenError "jwt malformed")
      end
  end.

End Jwt.
End Jwt.

(** ** Mongoose

    Schemas as data, and the operations of a model over a collection held
    as the list of its documents in insertion order. *)

Module Mongoose.

(** One path of a schema and the options the models use. [prequired] is
    evaluated on the document ([required: function () { .. }]);
    [pdefault] is given the clock ([default: Date.now]). *)
Record SchemaPath : Type := mkPath {
  pname : string;
  ptype : SchemaType;
  prequired : Doc -> bool;
  penum : option (list string);
  pmin : option Z;
  ptrim : bool;
  plowercase : bool;
  pdefault : option (Z -> bson)
}.

(** A schema: its paths, its unique indexes next to the one on [_id], and
    its [pre('save')] hook as a function of the clock. *)
Record Schema : Type := mkSchema {
  paths : list SchemaPath;
  uniqueIndexes : list (list string);
  preSave : Z -> Doc -> Doc
}.

Definition field (name : string) (ty : SchemaType) : SchemaPath :=
  mkPath name ty (fun _ => false) None None false false None.

Definition requiredIf (f : Doc -> bool) (p : SchemaPath) : SchemaPath :=
  mkPath (pname p) (ptype p) f (penum p) (pmin p) (ptrim p) (plowercase p) (pdefault p).

Definition required : SchemaPath -> SchemaPath := requiredIf (fun _ => true).

Definition enum (values : list string) (p : SchemaPath) : SchemaPath :=
  mkPath (pname p) (ptype p) (prequired p) (Some values) (pmin p) (ptrim p)
    (plowercase p) (pdefault p).

Definition min (m : Z) (p : SchemaPath) : SchemaPath :=
  mkPath (pname p) (ptype p) (prequired p) (penum p) (Some m) (ptrim p)
    (plowercase p) (pdefault p).

Definition trimmed (p : SchemaPath) : SchemaPath :=
  mkPath (pname p) (ptype p) (prequired p) (penum p) (pmin p) true
    (plowercase p) (pdefault p).

Definition withDefault (d : Z -> bson) (p : SchemaPath) : SchemaPath :=
  mkPath (pname p) (ptype p) (prequired p) (penum p) (pmin p) (ptrim p)
    (plowercase p) (Some d).

(** The [_id] path every schema has. *)
Definition idPath : SchemaPath := field "_id" TObjectId.

Definition lookupPath (sch : Schema) (name : string) : option SchemaPath :=
  if String.eqb name "_id" then Some idPath
  else List.find (fun p => String.eqb (pname p) name) (paths sch).

Definition hexChar (d : N) : ascii :=
  ascii_of_N (if (d <? 10)%N then 48 + d else 87 + d)%N.

Fixpoint hexDigits (k : nat) (n : N) (acc : string) : string :=
  match k with
  | O => acc
  | S k' => hexDigits k' (n / 16)%N (String (hexChar (n mod 16)%N) acc)
  end.

(** The [n]-th identifier of the generator behind [new ObjectId()]. *)
Definition mkObjectId (n : N) : ObjectId := hexDigits 24 n EmptyString.

Definition docId (d : Doc) : option ObjectId :=
  match d !! "_id" with
  | Some (BOid id) => Some id
  | _ => None
  end.

(** The order of the store on values: by type first (null, numbers,
    strings, ObjectIds, booleans, dates), then by value. A missing path
    sorts as [null]. *)
Definition typeRank (b : bson) : Z :=
  match b with
  | BNull => 0
  | BNum _ => 1
  | BStr _ => 2
  | BOid _ => 3
  | BBool _ => 4
  | BDate _ => 5
  end.

Definition compareBson (a b : bson) : comparison :=
  match a, b with
  | BNum x, BNum y => x ?= y
  | BStr x, BStr y => String.compare x y
  | BOid x, BOid y => String.compare x y
  | BBool x, BBool y => Bool.compare x y
  | BDate x, BDate y => x ?= y
  | _, _ => typeRank a ?= typeRank b
  end.

(** [a] does not come after [b] under the sort keys [{ k: 1 | -1, .. }]. *)
Fixpoint sortsBefore (keys : list (string * Z)) (a b : Doc) : bool :=
  match keys with
  | [] => true
  | (k, dir) :: rest =>
      match compareBson (default BNull (a !! k)) (default BNull (b !! k)) with
      | Eq => sortsBefore rest a b
      | Lt => 0 <? dir
      | Gt => dir <? 0
      end
  end.

Fixpoint insertSorted (keys : list (string * Z)) (d : Doc) (l : list Doc) : list Doc :=
  match l with
  | [] => [d]
  | d' :: rest =>
      if sortsBefore keys d d' then d :: l else d' :: insertSorted keys d rest
  end.

(** [query.sort(keys)]. *)
Definition sort (keys : list (string * Z)) (l : list Doc) : list Doc :=
  fold_right (insertSorted keys) [] l.

Section Mongoose.
Context `{Platform}.

Definition applySetters (p : SchemaPath) (s : string) : string :=
  let s1 := if plowercase p then toLowerCase s else s in
  if ptrim p then trim s1 else s1.

(** The time values a [Date] holds: up to 8.64e15 milliseconds either
    side of the epoch; [new Date(n)] is an invalid date beyond. *)
Definition isTimeValue (n : Z) : bool := Z.abs n <=? 8640000000000000.

(** The cast of a value to the type of a path; [None] is a CastError and
    [Some BNull] is [null], which every type lets through. *)
Definition castValue (p : SchemaPath) (v : json) : option bson :=
  match v with
  | JNull => Some BNull
  | JArr _ | JObj _ => castComposite (ptype p) v
  | _ =>
      match ptype p, v with
      | TString, JStr s => Some (BStr (applySetters p s))
      | TString, JNum n => Some (BStr (applySetters p (numberText n)))
      | TString, JBool b => Some (BStr (applySetters p (boolText b)))
      | TString, JOid id => Some (BStr (applySetters p id))
      | TNumber, JNum n => Some (BNum n)
      | TNumber, JStr s =>
          if String.eqb s "" then Some BNull else BNum <$> parseNumber s
      | TNumber, JBool b => Some (BNum (if b then 1 else 0))
      | TDate, JNum n => if isTimeValue n then Some (BDate n) else None
      | TDate, JStr s =>
          if String.eqb s "" then Some BNull else BDate <$> parseDate s
      | TBoolean, JBool b => Some (BBool b)
      | TBoolean, JNum 1 => Some (BBool true)
      | TBoolean, JNum 0 => Some (BBool false)
      | TBoolean, JStr s =>
          if bool_decide (s ∈ ["true"; "1"; "yes"]) then Some (BBool true)
          else if bool_decide (s ∈ ["false"; "0"; "no"]) then Some (BBool false)
          else None
      | TObjectId, JOid id => Some (BOid id)
      | TObjectId, JStr s => BOid <$> parseObjectId s
      | TObjectId, JNum n => BOid <$> parseObjectId (numberText n)
      | TObjectId, JBool b => BOid <$> parseObjectId (boolText b)
      | _, _ => None
      end
  end.

(** A document under construction: the paths set so far and the paths
    whose value did not cast, which [save] reports. *)
Record Document : Type := mkDocument {
  fields : Doc;
  castErrors : list string
}.

Definition setPath (p : SchemaPath) (now : Z) (obj : object) (d : Document) : Document :=
  match obj !! pname p with
  | Some v =>
      match castValue p v with
      | Some b => mkDocument (<[pname p := b]> (fields d)) (castErrors d)
      | None => mkDocument (fields d) (castErrors d ++ [pname p])%list
      end
  | None =>
      match pdefault p with
      | Some dflt => mkDocument (<[pname p := dflt now]> (fields d)) (castErrors d)
      | None => d
      end
  end.

(** [new Model(obj)]: [_id] is the one of [obj] when it has one and a
    generated one otherwise; each path of the schema takes the cast of its
    value in [obj] or its default; other keys of [obj] are dropped. *)
Definition construct (sch : Schema) (now : Z) (fresh : ObjectId) (obj : object)
    : Document :=
  let start :=
    match obj !! "_id" with
    | Some _ => setPath idPath now obj (mkDocument ∅ [])
    | None => mkDocument {[ "_id" := BOid fresh ]} []
    end in
  fold_left (fun d p => setPath p now obj d) (paths sch) start.

Definition failsRequired (p : SchemaPath) (d : Doc) : bool :=
  (prequired p d &&
   match d !! pname p with
   | None | Some BNull => true
   | Some (BStr s) => String.eqb s ""
   | Some _ => false
   end)%bool.

Definition failsEnum (p : SchemaPath) (d : Doc) : bool :=
  match penum p, d !! pname p with
  | Some values, Some (BStr s) => negb (bool_decide (s ∈ values))
  | Some _, Some _ => true
  | _, _ => false
  end.

Definition failsMin (p : SchemaPath) (d : Doc) : bool :=
  match pmin p, d !! pname p with
  | Some m, Some (BNum n) => n <? m
  | _, _ => false
  end.

(** The paths a document fails on: the failed casts, then the paths whose
    [required], [enum] or [min] validator fails. *)
Definition validate (sch : Schema) (d : Document) : list string :=
  (castErrors d ++
   (pname <$> List.filter
      (fun p => failsRequired p (fields d) || failsEnum p (fields d) || failsMin p (fields d))%bool
      (paths sch)))%list.

Definition indexKey (idx : list string) (d : Doc) : list (option bson) :=
  (fun k => d !! k) <$> idx.

Definition duplicateKey (sch : Schema) (d : Doc) (coll : list Doc) : bool :=
  existsb (fun idx => existsb (fun d' => bool_decide (indexKey idx d' = indexKey idx d)) coll)
    (["_id"] :: uniqueIndexes sch).

(** What the driver inserts for a document: the document, with a
    generated [_id] in the place of one that is [null]. *)
Definition inserted (pk : ObjectId) (doc : Doc) : Doc :=
  match doc !! "_id" with
  | Some BNull => <["_id" := BOid pk]> doc
  | _ => doc
  end.

(** [doc.save()] for a new document: validation, the [pre('save')] hook,
    then the insert, which the unique indexes can refuse (E11000). A
    document without [_id] is not saved; one whose [_id] is [null] is,
    and keeps its [null], while the stored record gets the identifier
    [pk] the driver generates. The result is the document and the
    collection after. *)
Definition save (sch : Schema) (now : Z) (pk : ObjectId) (d : Document) (coll : list Doc)
    : result (Doc * list Doc) :=
  match validate sch d with
  | _ :: _ as errs => Throw (ValidationError errs)
  | [] =>
      let doc := preSave sch now (fields d) in
      match doc !! "_id" with
      | None => Throw (MongooseError "document must have an _id before saving")
      | Some _ =>
          if duplicateKey sch (inserted pk doc) coll then Throw (MongoServerError 11000)
          else Ok (doc, (coll ++ [inserted pk doc])%list)
      end
  end.

(** A query value on a path outside the schema is not cast. *)
Definition rawValue (v : json) : option bson :=
  match v with
  | JNull => Some BNull
  | JBool b => Some (BBool b)
  | JNum n => Some (BNum n)
  | JStr s => Some (BStr s)
  | JOid id => Some (BOid id)
  | JArr _ | JObj _ => None
  end.

Definition equals (k : string) (b : bson) (d : Doc) : bool :=
  match b with
  | BNull => bool_decide (d !! k = None) || bool_decide (d !! k = Some BNull)
  | _ => bool_decide (d !! k = Some b)
  end.

(** One condition [{ k: v }] of a filter, cast by the schema. *)
Definition castCondition (sch : Schema) (k : string) (v : json) : result (Doc -> bool) :=
  match v with
  | JArr _ | JObj _ =>
      match queryComposite (from_option ptype TString (lookupPath sch k)) v with
      | Some cond => Ok (fun d => cond (default BNull (d !! k)))
      | None => Throw (CastError k)
      end
  | _ =>
      match from_option (fun p => castValue p v) (rawValue v) (lookupPath sch k) with
      | Some b => Ok (equals k b)
      | None => Throw (CastError k)
      end
  end.

(** A filter object: the conjunction of its conditions. *)
Fixpoint castFilter (sch : Schema) (filter : list (string * json)) : result (Doc -> bool) :=
  match filter with
  | [] => Ok (fun _ => true)
  | (k, v) :: rest =>
      let* c := castCondition sch k v in
      let* cs := castFilter sch rest in
      Ok (fun d => c d && cs d)
  end.

(** [Model.find(filter)]. *)
Definition find (sch : Schema) (filter : list (string * json)) (coll : list Doc)
    : result (list Doc) :=
  let* cond := castFilter sch filter in
  Ok (List.filter cond coll).

(** [Model.findOne(filter)]. *)
Definition findOne (sch : Schema) (filter : list (string * json)) (coll : list Doc)
    : result (option Doc) :=
  let* cond := castFilter sch filter in
  Ok (List.find cond coll).

(** [Model.findById(id)], which is [findOne({ _id: id })] with [null]
    for an [id] that is [undefined]. *)
Definition findById (sch : Schema) (id : option json) (coll : list Doc)
    : result (option Doc) :=
  findOne sch [("_id", default JNull id)] coll.

Fixpoint removeFirst (cond : Doc -> bool) (coll : list Doc) : list Doc :=
  match coll with
  | [] => []
  | d :: rest => if cond d then rest else d :: removeFirst cond rest
  end.

Fixpoint replaceFirst (cond : Doc -> bool) (d' : Doc) (coll : list Doc) : list Doc :=
  match coll with
  | [] => []
  | d :: rest => if cond d then d' :: rest else d :: replaceFirst cond d' rest
  end.

(** [Model.findOneAndDelete(filter)]: the deleted document, if one
    matched, and the collection after. *)
Definition findOneAndDelete (sch : Schema) (filter : list (string * json))
    (coll : list Doc) : result (option Doc * list Doc) :=
  let* cond := castFilter sch filter in
  Ok (List.find cond coll, removeFirst cond coll).

(** One key of an update document: a [$]-operator, a path of the schema
    (set to the cast of its value), or a key that strict mode drops. *)
Definition castUpdateKey (sch : Schema) (k : string) (v : json) : result (Doc -> Doc) :=
  if startsWith "$" k then ofOption (CastError k) (updateOperator k v)
  else
    match lookupPath sch k with
    | Some p =>
        match castValue p v with
        | Some b => Ok (fun d => <[k := b]> d)
        | None => Throw (CastError k)
        end
    | None => Ok (fun d => d)
    end.

(** The keys of an update document, one after the other: the change
    they cast to. *)
Fixpoint castUpdateKeys (sch : Schema) (l : list (string * json)) : result (Doc -> Doc) :=
  match l with
  | [] => Ok (fun d => d)
  | (k, v) :: rest =>
      let* f := castUpdateKey sch k v in
      let* g := castUpdateKeys sch rest in
      Ok (fun d => g (f d))
  end.

(** The cast of an update document to the change it makes. *)
Definition castUpdate (sch : Schema) (update : object) : result (Doc -> Doc) :=
  castUpdateKeys sch (map_to_list update).

(** [Model.findOneAndUpdate(filter, update, { new: true })]: the document
    after the update, if one matched, and the collection after. No
    validator runs; the store refuses a change of [_id]. *)
Definition findOneAndUpdate (sch : Schema) (filter : list (string * json))
    (update : object) (coll : list Doc) : result (option Doc * list Doc) :=
  let* cond := castFilter sch filter in
  let* change := castUpdate sch update in
  match List.find cond coll with
  | None => Ok (None, coll)
  | Some d =>
      let d' := change d in
      if bool_decide (d' !! "_id" = d !! "_id") then Ok (Some d', replaceFirst cond d' coll)
      else Throw (MongoServerError 66)
  end.

End Mongoose.
End Mongoose.
Export Mongoose.

(** ** The models *)

Definition dateNow : Z -> bson := BDate.

Definition touchUpdatedAt (now : Z) (d : Doc) : Doc := <["updatedAt" := BDate now]> d.

(** [models/Transaction.js]. *)
Definition transactionSchema : Schema :=
  mkSchema
    [ required (field "userId" TObjectId);
      required (enum ["income"; "expense"] (field "type" TString));
      required (field "date" TDate);
      required (field "category" TString);
      required (field "description" TString);
      min 0 (required (field "amount" TNumber));
      requiredIf (fun this => bool_decide (this !! "type" = Some (BStr "income")))
        (field "customerName" TString);
      withDefault (fun _ => BStr "") (field "invoiceNumber" TString);
      withDefault dateNow (field "createdAt" TDate);
      withDefault dateNow (field "updatedAt" TDate) ]
    []
    touchUpdatedAt.

(** [models/BalanceItem.js]. *)
Definition balanceItemSchema : Schema :=
  mkSchema
    [ required (field "userId" TObjectId);
      required (enum ["asset"; "liability"; "equity"] (field "type" TString));
      required (field "date" TDate);
      required (field "category" TString);
      required (field "description" TString);
      min 0 (required (field "amount" TNumber));
      withDefault dateNow (field "createdAt" TDate);
      withDefault dateNow (field "updatedAt" TDate) ]
    []
    touchUpdatedAt.

(** [models/Category.js]. *)
Definition categorySchema : Schema :=
  mkSchema
    [ required (field "userId" TObjectId);
      required (enum ["income"; "expense"] (field "type" TString));
      trimmed (required (field "name" TString));
      withDefault (fun _ => BBool false) (field "isDefault" TBoolean);
      withDefault dateNow (field "createdAt" TDate) ]
    [ ["userId"; "type"; "name"] ]
    (fun _ d => d).

(** ** The server *)

(** [process.env], as far as the server reads it. *)
Record Env : Type := mkEnv {
  JWT_SECRET : option string;
  JWT_EXPIRES_IN : option string
}.

(** The document store: the four collections and the state of the
    ObjectId generator, which [tick] advances. *)
Record DB : Type := mkDB {
  users : list Doc;
  transactions : list Doc;
  balanceItems : list Doc;
  categories : list Doc;
  nextId : N
}.

Definition newObjectId (db : DB) : ObjectId := mkObjectId (nextId db).

Definition withUsers (db : DB) (l : list Doc) : DB :=
  mkDB l (transactions db) (balanceItems db) (categories db) (nextId db).

Definition withTransactions (db : DB) (l : list Doc) : DB :=
  mkDB (users db) l (balanceItems db) (categories db) (nextId db).

Definition withBalanceItems (db : DB) (l : list Doc) : DB :=
  mkDB (users db) (transactions db) l (categories db) (nextId db).

Definition withCategories (db : DB) (l : list Doc) : DB :=
  mkDB (users db) (transactions db) (balanceItems db) l (nextId db).

Definition tick (db : DB) : DB :=
  mkDB (users db) (transactions db) (balanceItems db) (categories db) (N.succ (nextId db)).

(** What a handler reads of the request. *)
Record Request : Type := mkRequest {
  authorization : option string;
  params_id : string;
  body : object
}.

(** What [authenticate] attaches to the request: [req.userId], [req.user]. *)
Record AuthContext : Type := mkAuth {
  reqUserId : string;
  reqUser : Doc
}.

Inductive Data : Type :=
| DataDoc (d : Doc)
| DataDocs (l : list Doc)
| DataLogin (token : string) (id : ObjectId) (email : option bson)
| DataCategories (income expense : list (option bson))
| DataDashboard (userId : option json) (totals : list (string * option Z))
    (transactionCount balanceItemCount : nat).

(** [res.status(status).json({ success, message, data })]. *)
Record Response : Type := mkResponse {
  status : Z;
  success : bool;
  message : option string;
  data : option Data
}.

#[global] Instance Data_eq_dec : EqDecision Data.
Proof. solve_decision. Defined.

#[global] Instance Response_eq_dec : EqDecision Response.
Proof. solve_decision. Defined.

#[global] Instance DB_eq_dec : EqDecision DB.
Proof. solve_decision. Defined.

Definition failure (code : Z) (msg : string) : Response :=
  mkResponse code false (Some msg) None.

Definition serverError : Response := failure 500 "Terjadi kesalahan pada server".

(** The [catch] of the handlers: whatever was thrown, a 500 with the
    generic message, the store as it was. *)
Definition catch500 (db : DB) (m : result (Response * DB)) : Response * DB :=
  match m with
  | Ok r => r
  | Throw _ => (serverError, db)
  end.

(** An object literal; a property whose value is [undefined] is as good
    as absent. *)
Definition literal (props : list (string * option json)) : object :=
  fold_right (fun '(k, v) o => match v with Some x => <[k := x]> o | None => o end)
    ∅ props.

(** [req.userId] as a query condition: [undefined] reaches the store as
    [null]. *)
Abbreviation condition userId :=
  (match userId with Some id => id | None => JNull end) (only parsing).

(** [{ ...obj, userId: req.userId }]: the property is set over what the
    object has, an [undefined] value leaving the path unset. *)
Abbreviation stamped userId obj :=
  (match userId with Some id => <["userId" := id]> obj | None => delete "userId" obj end)
  (only parsing).

Section Server.
Context `{Platform}.

(** [v.toLowerCase()]: a TypeError on what is not a string. *)
Definition toLowerCaseOf (v : option json) : result string :=
  match v with
  | Some (JStr s) => Ok (toLowerCase s)
  | _ => Throw (TypeError "toLowerCase is not a function")
  end.

(** Modelled from the spec: [models/User.js] is not among the sources. A
    user has a unique email, a password stored as its bcrypt digest
    (hashed when the document is saved) and a creation time. The schema
    leaves the email as the handler gives it: the specification puts the
    lower-casing into [register] and the lookup by email. *)
Definition userSchema : Schema :=
  mkSchema
    [ required (field "email" TString);
      required (field "password" TString);
      withDefault dateNow (field "createdAt" TDate) ]
    [ ["email"] ]
    (fun _ d =>
       match d !! "password" with
       | Some (BStr p) => <["password" := BStr (bcryptHash p)]> d
       | _ => d
       end).

(** Modelled from the spec: [user.comparePassword(candidate)] of the same
    file, [bcrypt.compare] against the stored digest; bcrypt throws on a
    candidate that is not a string. *)
Definition comparePassword (user : Doc) (candidate : option json) : result bool :=
  match candidate, user !! "password" with
  | Some (JStr p), Some (BStr digest) => Ok (bcryptCompare p digest)
  | _, _ => Throw (TypeError "Illegal arguments")
  end.

(** [process.env.JWT_EXPIRES_IN || '7d']. *)
Definition expiresIn (env : Env) : string :=
  match JWT_EXPIRES_IN env with
  | None | Some EmptyString => "7d"
  | Some span => span
  end.

Definition generateToken (env : Env) (now : Z) (userId : ObjectId) : result string :=
  Jwt.sign userId (JWT_SECRET env) (expiresIn env) now.

Definition verifyToken (env : Env) (now : Z) (token : option string) : option Claims :=
  match Jwt.verify token (JWT_SECRET env) now with
  | Ok decoded => Some decoded
  | Throw _ => None
  end.

(** The outcome of the middleware: a response sent, or [next()] with the
    identity attached. [Next ctx] is [next()] with a [userId] claim that
    is a string, as in every token [generateToken] signs; [NextWith] is
    [next()] with any other claim, [req.userId] being [undefined] when
    the payload has none. *)
Inductive Guard : Type :=
| Rejected (res : Response)
| Next (ctx : AuthContext)
| NextWith (userId : option json) (user : Doc).

(** [req.user = user; req.userId = decoded.userId; next()]. *)
Definition attach (userId : option json) (user : Doc) : Guard :=
  match userId with
  | Some (JStr id) => Next (mkAuth id user)
  | _ => NextWith userId user
  end.

Definition authenticate (env : Env) (now : Z) (db : DB) (req : Request) : Guard :=
  match authorization req with
  | None => Rejected (failure 401 "Token tidak valid")
  | Some authHeader =>
      if (String.eqb authHeader "" || negb (startsWith "Bearer " authHeader))%bool then
        Rejected (failure 401 "Token tidak valid")
      else
        let token := split " " authHeader !! 1%nat in
        match verifyToken env now token with
        | None => Rejected (failure 401 "Token tidak valid")
        | Some decoded =>
            match findById userSchema (userId decoded) (users db) with
            | Ok None => Rejected (failure 401 "User tidak ditemukan")
            | Ok (Some user) => attach (userId decoded) user
            | Throw _ => Rejected (failure 401 "Token tidak valid")
            end
        end
  end.

(** [app.METHOD(path, authenticate, handler)]: the handler reads
    [req.userId]. *)
Definition protected (handler : option json -> Z -> DB -> Request -> Response * DB)
    (env : Env) (now : Z) (db : DB) (req : Request) : Response * DB :=
  match authenticate env now db req with
  | Rejected res => (res, db)
  | Next ctx => handler (Some (JStr (reqUserId ctx))) now db req
  | NextWith userId _ => handler userId now db req
  end.

Definition defaultIncomeCategories : list string :=
  ["Penjualan"; "Jasa"; "Komisi"; "Lainnya"].

Definition defaultExpenseCategories : list string :=
  ["Supplier Cost"; "Transport"; "Office Expense"; "Other"].

(** [Category.create(obj)]. *)
Definition createCategory (now : Z) (obj : object) (db : DB) : result DB :=
  let* (_, coll) :=
    save categorySchema now (newObjectId db)
      (construct categorySchema now (newObjectId db) obj) (categories db) in
  Ok (tick (withCategories db coll)).

(** One of the two loops of [createDefaultCategories]: the store after
    the creations that went through, and what stopped the loop, if
    anything did. *)
Fixpoint createDefaults (now : Z) (userId : ObjectId) (type : string)
    (names : list string) (db : DB) : DB * option exn :=
  match names with
  | [] => (db, None)
  | name :: rest =>
      match createCategory now
              (literal [("userId", Some (JOid userId)); ("type", Some (JStr type));
                        ("name", Some (JStr name)); ("isDefault", Some (JBool true))]) db with
      | Ok db' => createDefaults now userId type rest db'
      | Throw e => (db, Some e)
      end
  end.

Definition createDefaultCategories (now : Z) (userId : ObjectId) (db : DB) : DB :=
  match createDefaults now userId "income" defaultIncomeCategories db with
  | (db1, Some _) => db1
  | (db1, None) => fst (createDefaults now userId "expense" defaultExpenseCategories db1)
  end.

(** [x < bound] for a value [x] and a number [bound]: [x] is converted
    to a number, an array or an object through its text, and [NaN] is
    below nothing. *)
Definition below (x : json) (bound : Z) : result bool :=
  match x with
  | JNum n => Ok (n <? bound)
  | JNull | JBool false => Ok (0 <? bound)
  | JBool true => Ok (1 <? bound)
  | JStr s | JOid s => Ok (from_option (fun n => n <? bound) false (parseNumber s))
  | JArr _ | JObj _ =>
      let* text := elementText x in
      Ok (from_option (fun n => n <? bound) false (parseNumber text))
  end.

(** [password.length < 4]. A value without a [length] gives [undefined],
    which is not below 4; the [length] of a string counts its UTF-16
    units; an object has the [length] its last property of that name
    gives it. *)
Definition lengthBelow (v : option json) (bound : Z) : result bool :=
  match v with
  | Some (JStr s) => Ok (lengthOf s <? bound)
  | Some (JArr l) => Ok (Z.of_nat (List.length l) <? bound)
  | Some (JObj props) =>
      match snd <$> List.find (fun kv => String.eqb (fst kv) "length") (rev props) with
      | Some x => below x bound
      | None => Ok false
      end
  | _ => Ok false
  end.

(** [app.post('/register', ..)]. *)
Definition post_register (now : Z) (db : DB) (req : Request) : Response * DB :=
  catch500 db
    (let email := body req !! "email" in
     let password := body req !! "password" in
     if (negb (truthy email) || negb (truthy password))%bool then
       Ok (failure 400 "Email dan password harus diisi", db)
     else
       let* short := lengthBelow password 4 in
       if short then Ok (failure 400 "Password minimal 4 karakter", db)
       else
         let* lookedUp := toLowerCaseOf email in
         let* existingUser := findOne userSchema [("email", JStr lookedUp)] (users db) in
         match existingUser with
         | Some _ => Ok (failure 400 "Email sudah terdaftar", db)
         | None =>
             let* written := toLowerCaseOf email in
             let user :=
               construct userSchema now (newObjectId db)
                 (literal [("email", Some (JStr written)); ("password", password)]) in
             let* (saved, coll) := save userSchema now (newObjectId db) user (users db) in
             let* id := ofOption (TypeError "_id") (docId saved) in
             let db' := createDefaultCategories now id (tick (withUsers db coll)) in
             Ok (mkResponse 201 true (Some "Pendaftaran berhasil. Silakan login.") None, db')
         end).

(** [app.post('/login', ..)]. *)
Definition post_login (env : Env) (now : Z) (db : DB) (req : Request) : Response * DB :=
  catch500 db
    (let email := body req !! "email" in
     let password := body req !! "password" in
     if (negb (truthy email) || negb (truthy password))%bool then
       Ok (failure 400 "Email dan password harus diisi", db)
     else
       let* lower := toLowerCaseOf email in
       let* found := findOne userSchema [("email", JStr lower)] (users db) in
       match found with
       | None => Ok (failure 401 "Email atau password salah", db)
       | Some user =>
           let* isPasswordValid := comparePassword user password in
           if negb isPasswordValid then Ok (failure 401 "Email atau password salah", db)
           else
             let* id := ofOption (TypeError "_id") (docId user) in
             let* token := generateToken env now id in
             Ok (mkResponse 200 true (Some "Login berhasil")
                   (Some (DataLogin token id (user !! "email"))), db)
       end).

(** [app.post('/transactions', authenticate, ..)], after the guard. *)
Definition post_transactions (userId : option json) (now : Z) (db : DB) (req : Request)
    : Response * DB :=
  catch500 db
    (let transactionData := stamped userId (body req) in
     let transaction := construct transactionSchema now (newObjectId db) transactionData in
     let* (saved, coll) :=
       save transactionSchema now (newObjectId db) transaction (transactions db) in
     Ok (mkResponse 201 true (Some "Transaksi berhasil ditambahkan") (Some (DataDoc saved)),
         tick (withTransactions db coll))).

(** [app.put('/transactions/:id', authenticate, ..)], after the guard. *)
Definition put_transactions_id (userId : option json) (now : Z) (db : DB) (req : Request)
    : Response * DB :=
  catch500 db
    (let* (transaction, coll) :=
       findOneAndUpdate transactionSchema
         [("_id", JStr (params_id req)); ("userId", condition userId)]
         (<["updatedAt" := JNum now]> (body req))
         (transactions db) in
     match transaction with
     | None => Ok (failure 404 "Transaksi tidak ditemukan", db)
     | Some updated =>
         Ok (mkResponse 200 true (Some "Transaksi berhasil diupdate") (Some (DataDoc updated)),
             withTransactions db coll)
     end).

(** [app.delete('/transactions/:id', authenticate, ..)], after the guard. *)
Definition delete_transactions_id (userId : option json) (now : Z) (db : DB) (req : Request)
    : Response * DB :=
  catch500 db
    (let* (transaction, coll) :=
       findOneAndDelete transactionSchema
         [("_id", JStr (params_id req)); ("userId", condition userId)]
         (transactions db) in
     match transaction with
     | None => Ok (failure 404 "Transaksi tidak ditemukan", db)
     | Some _ =>
         Ok (mkResponse 200 true (Some "Transaksi berhasil dihapus") None,
             withTransactions db coll)
     end).

(** [app.post('/balance-items', authenticate, ..)], after the guard. *)
Definition post_balance_items (userId : option json) (now : Z) (db : DB) (req : Request)
    : Response * DB :=
  catch500 db
    (let balanceItemData := stamped userId (body req) in
     let balanceItem := construct balanceItemSchema now (newObjectId db) balanceItemData in
     let* (saved, coll) :=
       save balanceItemSchema now (newObjectId db) balanceItem (balanceItems db) in
     Ok (mkResponse 201 true (Some "Item neraca berhasil ditambahkan") (Some (DataDoc saved)),
         tick (withBalanceItems db coll))).

(** [app.post('/categories', authenticate, ..)], after the guard. *)
Definition post_categories (userId : option json) (now : Z) (db : DB) (req : Request)
    : Response * DB :=
  catch500 db
    (match body req !! "type", body req !! "name" with
     | Some type, Some name =>
         if (negb (truthy (Some type)) || negb (truthy (Some name)))%bool then
           Ok (failure 400 "Type dan name harus diisi", db)
         else
           let* existingCategory :=
             findOne categorySchema
               [("userId", condition userId); ("type", type); ("name", name)]
               (categories db) in
           match existingCategory with
           | Some _ => Ok (failure 400 "Kategori sudah ada", db)
           | None =>
               let category :=
                 construct categorySchema now (newObjectId db)
                   (literal [("userId", userId); ("type", Some type);
                             ("name", Some name); ("isDefault", Some (JBool false))]) in
               let* (saved, coll) :=
                 save categorySchema now (newObjectId db) category (categories db) in
               Ok (mkResponse 201 true (Some "Kategori berhasil ditambahkan")
                     (Some (DataDoc saved)),
                   tick (withCategories db coll))
           end
     | _, _ => Ok (failure 400 "Type dan name harus diisi", db)
     end).

(** [app.delete('/categories/:id', authenticate, ..)], after the guard. *)
Definition delete_categories_id (userId : option json) (now : Z) (db : DB) (req : Request)
    : Response * DB :=
  catch500 db
    (let* (category, coll) :=
       findOneAndDelete categorySchema
         [("_id", JStr (params_id req)); ("userId", condition userId);
          ("isDefault", JBool false)]
         (categories db) in
     match category with
     | None => Ok (failure 404 "Kategori tidak ditemukan atau tidak dapat dihapus", db)
     | Some _ =>
         Ok (mkResponse 200 true (Some "Kategori berhasil dihapus") None,
             withCategories db coll)
     end).

(** [x.amount] as the number [sum + x.amount] adds: the stored number as
    a double, [null] as [0]; [None] is [NaN], what a document without an
    amount gives. *)
Definition amount (d : Doc) : option Z :=
  match d !! "amount" with
  | Some (BNum a) => toDouble a
  | Some BNull => Some 0
  | _ => None
  end.

(** [list.filter(x => x.type === type).reduce((sum, x) => sum + x.amount, 0)],
    each sum rounded as the runtime rounds it; [None] is a sum that is
    no finite number. *)
Definition total (type : string) (l : list Doc) : option Z :=
  fold_left (fun sum d => plus sum (amount d))
    (List.filter (fun d => bool_decide (d !! "type" = Some (BStr type))) l)
    (Some 0).

(** [a - b], rounded likewise. *)
Definition minus (a b : option Z) : option Z :=
  match a, b with
  | Some x, Some y => toDouble (x - y)
  | _, _ => None
  end.

(** [app.get('/dashboard', authenticate, ..)], after the guard. *)
Definition get_dashboard (userId : option json) (now : Z) (db : DB) (req : Request)
    : Response * DB :=
  catch500 db
    (let* txs := find transactionSchema [("userId", condition userId)] (transactions db) in
     let* items :=
       find balanceItemSchema [("userId", condition userId)] (balanceItems db) in
     let totalIncome := total "income" txs in
     let totalExpense := total "expense" txs in
     Ok (mkResponse 200 true (Some "Dashboard data berhasil diambil")
           (Some (DataDashboard userId
                    [("totalIncome", totalIncome);
                     ("totalExpense", totalExpense);
                     ("profit", minus totalIncome totalExpense);
                     ("totalAssets", total "asset" items);
                     ("totalLiabilities", total "liability" items);
                     ("totalEquity", total "equity" items)]
                    (List.length txs) (List.length items))),
         db)).

(** [app.get('/transactions', authenticate, ..)], after the guard. *)
Definition get_transactions (userId : option json) (now : Z) (db : DB) (req : Request)
    : Response * DB :=
  catch500 db
    (let* found := find transactionSchema [("userId", condition userId)] (transactions db) in
     Ok (mkResponse 200 true None
           (Some (DataDocs (sort [("date", -1); ("createdAt", -1)] found))),
         db)).

(** [app.get('/balance-items', authenticate, ..)], after the guard. *)
Definition get_balance_items (userId : option json) (now : Z) (db : DB) (req : Request)
    : Response * DB :=
  catch500 db
    (let* found := find balanceItemSchema [("userId", condition userId)] (balanceItems db) in
     Ok (mkResponse 200 true None
           (Some (DataDocs (sort [("date", -1); ("createdAt", -1)] found))),
         db)).

(** [app.get('/categories', authenticate, ..)], after the guard. *)
Definition get_categories (userId : option json) (now : Z) (db : DB) (req : Request)
    : Response * DB :=
  catch500 db
    (let* found := find categorySchema [("userId", condition userId)] (categories db) in
     let sorted := sort [("type", 1); ("name", 1)] found in
     let names type :=
       (fun c => c !! "name") <$>
         List.filter (fun c => bool_decide (c !! "type" = Some (BStr type))) sorted in
     Ok (mkResponse 200 true None (Some (DataCategories (names "income") (names "expense"))),
         db)).

(** The routes of the application that reach the store. *)
Inductive Route : Type :=
| PostRegister
| PostLogin
| GetDashboard
| GetTransactions
| PostTransactions
| PutTransactionsId
| DeleteTransactionsId
| GetBalanceItems
| PostBalanceItems
| GetCategories
| PostCategories
| DeleteCategoriesId.

(** One request served: the response and the store after it. *)
Definition serve (env : Env) (route : Route) (now : Z) (db : DB) (req : Request)
    : Response * DB :=
  match route with
  | PostRegister => post_register now db req
  | PostLogin => post_login env now db req
  | GetDashboard => protected get_dashboard env now db req
  | GetTransactions => protected get_transactions env now db req
  | PostTransactions => protected post_transactions env now db req
  | PutTransactionsId => protected put_transactions_id env now db req
  | DeleteTransactionsId => protected delete_transactions_id env now db req
  | GetBalanceItems => protected get_balance_items env now db req
  | PostBalanceItems => protected post_balance_items env now db req
  | GetCategories => protected get_categories env now db req
  | PostCategories => protected post_categories env now db req
  | DeleteCategoriesId => protected delete_categories_id env now db req
  end.

(** Requests served one after the other, each at its route and clock:
    the store after the last. *)
Fixpoint serveAll (env : Env) (trace : list (Route * Z * Request)) (db : DB) : DB :=
  match trace with
  | [] => db
  | (route, now, req) :: rest => serveAll env rest (snd (serve env route now db req))
  end.

End Server.

(** ** The contracts of the specification *)

Section Contract.
Context `{Platform}.

(** A segment of a token: not blank, and without the separator. *)
Definition isSegment (s : string) : bool :=
  (negb (String.eqb (trim s) "") && allChars (fun c => negb (Ascii.eqb c ".")) s)%bool.

(** The platform codes the claim set [c] under [key] as [jws] does: three
    segments, and header and payload decode to what was encoded. *)
Definition codesFaithfully (key : string) (c : Claims) : bool :=
  let h := encodeHeader "HS256" in
  let p := encodePayload c in
  (isSegment h && isSegment p && isSegment (hmac "HS256" key (h ++ "." ++ p))
   && bool_decide (decodeHeader h = Some "HS256")
   && bool_decide (decodePayload p = Some c))%bool.

(** The claim set [generateToken] signs for [uid] at clock [now] when the
    configured lifetime is [span] milliseconds. *)
Definition issuedClaims (uid : string) (now span : Z) : Claims :=
  mkClaims (Some (JStr uid)) (Some (now / 1000)) None (Some (now / 1000 + span / 1000)).

(** The failures of verification the specification names: malformed
    input, bad signature, expired token. *)
Inductive VerifyFailure (env : Env) (now : Z) : string -> Prop :=
| Malformed (t : string) :
    List.length (split "." t) ≠ 3%nat ->
    VerifyFailure env now t
| Undecodable (t h p s : string) :
    split "." t = [h; p; s] ->
    decodeHeader h = None ∨ decodePayload p = None ->
    VerifyFailure env now t
| BadSignature (t h p s : string) :
    split "." t = [h; p; s] ->
    (forall alg key, decodeHeader h = Some alg -> JWT_SECRET env = Some key ->
                     s ≠ hmac alg key (h ++ "." ++ p)) ->
    VerifyFailure env now t
| Expired (t h p s : string) (c : Claims) (e : Z) :
    split "." t = [h; p; s] ->
    decodePayload p = Some c ->
    exp c = Some e ->
    e <= now / 1000 ->
    VerifyFailure env now t.

Definition invalidToken : Response := failure 401 "Token tidak valid".
Definition userNotFound : Response := failure 401 "User tidak ditemukan".

(** The stored users a [userId] claim stands for, as the lookup by
    identifier reads the claim: a string, a number or a boolean names
    the user whose identifier its text is; a claim that is [null], or
    that the payload does not have, names a record without identifier;
    an array or an object is a condition on the identifier, if the store
    takes it for one. [None] for a claim that is none of these. *)
Definition named (claim : option json) : option (Doc -> bool) :=
  match claim with
  | None | Some JNull =>
      Some (fun u => bool_decide (u !! "_id" = None) || bool_decide (u !! "_id" = Some BNull))
  | Some (JArr _ as v) | Some (JObj _ as v) =>
      (fun cond (u : Doc) => cond (default BNull (u !! "_id"))) <$> queryComposite TObjectId v
  | Some v =>
      match castValue idPath v with
      | Some (BOid id) => Some (fun u => bool_decide (u !! "_id" = Some (BOid id)))
      | _ => None
      end
  end.

(** The stored user a claim refers to: the first it stands for. *)
Definition referenced (db : DB) (claim : option json) : option Doc :=
  named claim ≫= fun stands => List.find stands (users db).

(** The four steps of the specification's Authorization Guard, in its
    words: (1) missing header or wrong scheme, (2) [verify] returns None,
    (3) the referenced user is not in the Credential Store, (4) otherwise
    the identity is attached and the request proceeds. *)
Definition guardContract (env : Env) (now : Z) (db : DB) (req : Request) : Guard :=
  match authorization req with
  | None => Rejected invalidToken
  | Some header =>
      if negb (startsWith "Bearer " header) then Rejected invalidToken
      else
        match verifyToken env now (split " " header !! 1%nat) with
        | None => Rejected invalidToken
        | Some claims =>
            match referenced db (userId claims) with
            | None => Rejected userNotFound
            | Some user => attach (userId claims) user
            end
        end
  end.

(** The same steps, with the step the code has between (2) and (3): a
    [userId] claim that stands for no identifier makes the lookup throw,
    and the guard answers as for an invalid token. *)
Definition guardContractAmended (env : Env) (now : Z) (db : DB) (req : Request) : Guard :=
  match authorization req with
  | None => Rejected invalidToken
  | Some header =>
      if negb (startsWith "Bearer " header) then Rejected invalidToken
      else
        match verifyToken env now (split " " header !! 1%nat) with
        | None => Rejected invalidToken
        | Some claims =>
            match named (userId claims) with
            | None => Rejected invalidToken
            | Some stands =>
                match List.find stands (users db) with
                | None => Rejected userNotFound
                | Some user => attach (userId claims) user
                end
            end
        end
  end.

(** The identifier of the authenticated caller: the [_id] of [req.user]. *)
Definition callerId (ctx : AuthContext) : option bson := reqUser ctx !! "_id".

(** The record [d] is the one the path identifier names, and it is the
    caller's. A string that is no identifier names no record. *)
Definition ownedBy (ctx : AuthContext) (pathId : string) (d : Doc) : Prop :=
  match parseObjectId pathId with
  | Some id => d !! "_id" = Some (BOid id) ∧ d !! "userId" = callerId ctx
  | None => False
  end.

#[global] Instance ownedBy_dec (ctx : AuthContext) (pathId : string) (d : Doc) :
  Decision (ownedBy ctx pathId d).
Proof. unfold ownedBy. destruct (parseObjectId pathId); apply _. Defined.

(** The collection a create route writes to. *)
Definition created (route : Route) (db : DB) : list Doc :=
  match route with
  | PostTransactions => transactions db
  | PostBalanceItems => balanceItems db
  | PostCategories => categories db
  | _ => []
  end.

Definition isCreate (route : Route) : bool :=
  match route with
  | PostTransactions | PostBalanceItems | PostCategories => true
  | _ => false
  end.

(** What the guard hands to the handler when it lets the request
    through: [req.userId] and [req.user]. *)
Definition attached (g : Guard) : option (option json * Doc) :=
  match g with
  | Rejected _ => None
  | Next ctx => Some (Some (JStr (reqUserId ctx)), reqUser ctx)
  | NextWith userId user => Some (userId, user)
  end.

(** The [userId] path of the three resource schemas, and [req.userId]
    as that path holds it: the caller's identifier in a stored record. *)
Definition userIdPath : SchemaPath := required (field "userId" TObjectId).

Definition stamp (userId : option json) : option bson := userId ≫= castValue userIdPath.

(** [req.userId] is a string, a number or a boolean: a value that names
    the caller by identifier, as in every token [generateToken] signs. *)
Definition plain (userId : option json) : bool :=
  match userId with
  | Some (JStr _) | Some (JNum _) | Some (JBool _) | Some (JOid _) => true
  | _ => false
  end.

(** Values of a payload: a string that is not empty, a string or
    nothing, one of the strings of an [enum], a time in milliseconds, an
    amount that is not negative. *)
Definition isText (v : option json) : bool :=
  match v with
  | Some (JStr s) => negb (String.eqb s "")
  | _ => false
  end.

Definition isTextOrAbsent (v : option json) : bool :=
  match v with
  | None | Some (JStr _) => true
  | _ => false
  end.

Definition isOneOf (values : list string) (v : option json) : bool :=
  match v with
  | Some (JStr s) => bool_decide (s ∈ values)
  | _ => false
  end.

Definition isTime (v : option json) : bool :=
  match v with
  | Some (JNum n) => isTimeValue n
  | _ => false
  end.

Definition isAmount (v : option json) : bool :=
  match v with
  | Some (JNum a) => 0 <=? a
  | _ => false
  end.

(** A payload that a create route takes: each required path with a
    value of its type that its validators pass (a type of the [enum], a
    time as a number of milliseconds, strings that are not empty, a
    whole amount from 0 on), [customerName] with an income, the name of
    a category not blank, and the paths the server fills in ([_id],
    [invoiceNumber], [createdAt], [updatedAt]) left to it or, for the
    invoice number, given as a string. The [userId] of the payload is
    free. *)
Definition wellFormed (route : Route) (b : object) : bool :=
  match route with
  | PostTransactions =>
      bool_decide (b !! "_id" = None) &&
      isOneOf ["income"; "expense"] (b !! "type") && isTime (b !! "date") &&
      isText (b !! "category") && isText (b !! "description") && isAmount (b !! "amount") &&
      (if bool_decide (b !! "type" = Some (JStr "income")) then isText (b !! "customerName")
       else isTextOrAbsent (b !! "customerName")) &&
      isTextOrAbsent (b !! "invoiceNumber") &&
      bool_decide (b !! "createdAt" = None) && bool_decide (b !! "updatedAt" = None)
  | PostBalanceItems =>
      bool_decide (b !! "_id" = None) &&
      isOneOf ["asset"; "liability"; "equity"] (b !! "type") && isTime (b !! "date") &&
      isText (b !! "category") && isText (b !! "description") && isAmount (b !! "amount") &&
      bool_decide (b !! "createdAt" = None) && bool_decide (b !! "updatedAt" = None)
  | PostCategories =>
      isOneOf ["income"; "expense"] (b !! "type") &&
      match b !! "name" with
      | Some (JStr n) => negb (String.eqb (trim n) "")
      | _ => false
      end
  | _ => false
  end.

(** The store has room for the record a create route would add: no
    record of the collection has the identifier the generator gives
    next, and the caller has no category of the type and name asked for. *)
Definition vacant (route : Route) (userId : option json) (db : DB) (b : object) : Prop :=
  Forall (fun d : Doc => d !! "_id" ≠ Some (BOid (newObjectId db))) (created route db) ∧
  match route, b !! "type", b !! "name" with
  | PostCategories, Some (JStr t), Some (JStr n) =>
      Forall (fun d : Doc =>
                ¬ (d !! "userId" = stamp userId ∧ d !! "type" = Some (BStr t) ∧
                   d !! "name" = Some (BStr (trim n))))
        (categories db)
  | _, _, _ => True
  end.

#[global] Instance vacant_dec (route : Route) (userId : option json) (db : DB) (b : object) :
  Decision (vacant route userId db b).
Proof. unfold vacant. repeat case_match; apply _. Defined.

(** The routes that address one record by its identifier, the collection
    they look in, and their not-found response. *)
Definition byIdentifier (route : Route) : bool :=
  match route with
  | PutTransactionsId | DeleteTransactionsId | DeleteCategoriesId => true
  | _ => false
  end.

Definition addressed (route : Route) (db : DB) : list Doc :=
  match route with
  | PutTransactionsId | DeleteTransactionsId => transactions db
  | DeleteCategoriesId => categories db
  | _ => []
  end.

Definition notFound (route : Route) : Response :=
  match route with
  | DeleteCategoriesId => failure 404 "Kategori tidak ditemukan atau tidak dapat dihapus"
  | _ => failure 404 "Transaksi tidak ditemukan"
  end.

(** The not-found rule as the specification words it, for a route that
    addresses a record by identifier: when the caller owns no record
    under the identifier, the answer is the route's 404 and the store is
    as it was. *)
Definition answersNotFound (env : Env) (route : Route) (now : Z) (db : DB)
    (req : Request) (ctx : AuthContext) : Prop :=
  authenticate env now db req = Next ctx ->
  (forall d, d ∈ addressed route db -> ¬ ownedBy ctx (params_id req) d) ->
  serve env route now db req = (notFound route, db).

(** The update document of [PUT /transactions/:id] casts against the
    schema. *)
Definition updateCasts (now : Z) (req : Request) : Prop :=
  exists change,
    castUpdate transactionSchema (<["updatedAt" := JNum now]> (body req)) = Ok change.

End Contract.

(** ** What the caller sees and may touch *)

(** The records of a collection that carry the caller's identifier. *)
Definition ownedRecords (ctx : AuthContext) (l : list Doc) : list Doc :=
  List.filter (fun d => bool_decide (d !! "userId" = callerId ctx)) l.

(** The routes that only read. *)
Definition isRead (route : Route) : bool :=
  match route with
  | GetDashboard | GetTransactions | GetBalanceItems | GetCategories => true
  | _ => false
  end.

(** The two routes that list a collection, and the collection they list. *)
Definition isList (route : Route) : bool :=
  match route with
  | GetTransactions | GetBalanceItems => true
  | _ => false
  end.

Definition listed (route : Route) (db : DB) : list Doc :=
  match route with
  | GetTransactions => transactions db
  | GetBalanceItems => balanceItems db
  | _ => []
  end.

(** [a] is not dated before [b], and not created before it when both carry
    the same date. *)
Definition notOlder (a b : Doc) : Prop :=
  forall x y, a !! "date" = Some (BDate x) -> b !! "date" = Some (BDate y) ->
    y <= x ∧
    (x = y -> forall u v, a !! "createdAt" = Some (BDate u) ->
                          b !! "createdAt" = Some (BDate v) -> v <= u).

(** The amount of a record as a number, [null] counting for nothing. *)
Definition amountOf (d : Doc) : Z :=
  match d !! "amount" with
  | Some (BNum a) => a
  | _ => 0
  end.

Definition hasAmount (d : Doc) : bool :=
  match d !! "amount" with
  | Some (BNum _) | Some BNull => true
  | _ => false
  end.

(** The sum of the amounts of the records of one type. *)
Definition sumAmounts (type : string) (l : list Doc) : Z :=
  foldr (fun d s => amountOf d + s) 0
    (List.filter (fun d => bool_decide (d !! "type" = Some (BStr type))) l).

(** The amounts of the records, added up without their signs: while
    this stays below [2 ^ 53], every sum of amounts of the records is a
    whole number that the runtime adds without rounding. *)
Definition magnitude (l : list Doc) : Z :=
  foldr (fun d s => Z.abs (amountOf d) + s) 0 l.

(** The names of the categories of one type, as [GET /categories] lists
    them. *)
Definition namesOf (type : string) (l : list Doc) : list (option bson) :=
  (fun c => c !! "name") <$>
    List.filter (fun c => bool_decide (c !! "type" = Some (BStr type))) l.

(** [x] does not come after [y] in the order of the store on values, a
    missing name counting as [null]. *)
Definition notAfter (x y : option bson) : Prop :=
  compareBson (default BNull x) (default BNull y) ≠ Gt.

(** The records of a collection that do not carry the caller's
    identifier. *)
Definition foreignRecords (ctx : AuthContext) (l : list Doc) : list Doc :=
  List.filter (fun d => negb (bool_decide (d !! "userId" = callerId ctx))) l.

(** The path [k] of [d] is set, and neither [null] nor the empty string:
    what [required: true] asks for. *)
Definition present (d : Doc) (k : string) : Prop :=
  exists v, d !! k = Some v ∧ v ≠ BNull ∧ v ≠ BStr "".

(** The values the [enum] of the [type] path admits, per create route. *)
Definition allowedTypes (route : Route) : list string :=
  match route with
  | PostTransactions | PostCategories => ["income"; "expense"]
  | PostBalanceItems => ["asset"; "liability"; "equity"]
  | _ => []
  end.

(** A default category of the user [uid]: flagged as default, and named
    as one of the defaults of its type. *)
Definition isDefaultCategoryOf (uid : ObjectId) (c : Doc) : Prop :=
  c !! "userId" = Some (BOid uid) ∧
  c !! "isDefault" = Some (BBool true) ∧
  ((c !! "type" = Some (BStr "income") ∧
    exists n, n ∈ defaultIncomeCategories ∧ c !! "name" = Some (BStr n)) ∨
   (c !! "type" = Some (BStr "expense") ∧
    exists n, n ∈ defaultExpenseCategories ∧ c !! "name" = Some (BStr n))).

#[global] Instance Route_eq_dec : EqDecision Route.
Proof. solve_decision. Defined.

(** The two routes that delete a record, the record they may delete, the
    store without it and their answer. *)
Definition isDelete (route : Route) : bool :=
  match route with
  | DeleteTransactionsId | DeleteCategoriesId => true
  | _ => false
  end.

Section Deleting.
Context `{Platform}.

Definition deletable (ctx : AuthContext) (route : Route) (pathId : string) (d : Doc) : Prop :=
  ownedBy ctx pathId d ∧
  (route = DeleteCategoriesId -> d !! "isDefault" = Some (BBool false)).

End Deleting.

Definition withAddressed (route : Route) (db : DB) (l : list Doc) : DB :=
  match route with
  | DeleteCategoriesId => withCategories db l
  | _ => withTransactions db l
  end.

Definition deleted (route : Route) : Response :=
  match route with
  | DeleteCategoriesId => mkResponse 200 true (Some "Kategori berhasil dihapus") None
  | _ => mkResponse 200 true (Some "Transaksi berhasil dihapus") None
  end.

(** No two documents of the collection agree on the paths of the index. *)
Definition uniqueOn (idx : list string) (coll : list Doc) : Prop :=
  NoDup (indexKey idx <$> coll).

(** The unique indexes of the three models: [_id] in each collection
    and, in the categories, owner, type and name together. *)
Definition indexesHold (db : DB) : Prop :=
  uniqueOn ["_id"] (transactions db) ∧
  uniqueOn ["_id"] (balanceItems db) ∧
  uniqueOn ["_id"] (categories db) ∧
  uniqueOn ["userId"; "type"; "name"] (categories db).
(** ** A platform to run the handlers on

    The theorems below hold for every platform. The examples need one to
    compute with: a keyed checksum for the MAC, a readable text coding of
    the claims, identifiers of 24 hex digits, and parsers for decimal
    numbers only. *)

Module Example.

Definition checksum (s : string) : Z :=
  fold_left (fun acc c => (acc * 31 + Z.of_nat (nat_of_ascii c)) mod 4294967296)
    (list_ascii_of_string s) 7.

Definition exampleHmac (alg key input : string) : string :=
  showZ (checksum (alg ++ ":" ++ key ++ ":" ++ input)).

(** 24 hex digits, lower-cased. *)
Definition exampleParseObjectId (s : string) : option ObjectId :=
  if (Nat.eqb (String.length s) 24 && allChars isHexDigit s)%bool then Some (asciiLowerCase s)
  else None.

Definition exampleDecodeHeader (h : string) : option string :=
  if bool_decide (h ∈ ["HS256"; "HS384"; "HS512"; "RS256"; "none"]) then Some h else None.

(** The text of a [userId] claim: [-] for a payload without one, a
    string after [@], a number after [#]. *)
Definition claimText (v : option json) : string :=
  match v with
  | None => "-"
  | Some (JStr s) => "@" ++ s
  | Some (JNum n) => "#" ++ showZ n
  | Some (JBool true) => "true"
  | Some (JBool false) => "false"
  | Some _ => "null"
  end.

Definition readClaim (s : string) : option (option json) :=
  match s with
  | String "@" id => Some (Some (JStr id))
  | String "#" digits => (fun n => Some (JNum n)) <$> parseDigits digits
  | _ =>
      if String.eqb s "-" then Some None
      else if String.eqb s "null" then Some (Some JNull)
      else if String.eqb s "true" then Some (Some (JBool true))
      else if String.eqb s "false" then Some (Some (JBool false))
      else None
  end.

(** The text of a time claim, empty for a payload without it. *)
Definition readTime (s : string) : option (option Z) :=
  if String.eqb s "" then Some None else Some <$> parseDigits s.

Definition exampleEncodePayload (c : Claims) : string :=
  claimText (userId c) ++ "_" ++ from_option showZ "" (iat c) ++ "_" ++
  from_option showZ "" (nbf c) ++ "_" ++ from_option showZ "" (exp c).

Definition exampleDecodePayload (p : string) : option Claims :=
  match split "_" p with
  | [u; i; n; e] =>
      match readClaim u, readTime i, readTime n, readTime e with
      | Some u', Some i', Some n', Some e' => Some (mkClaims u' i' n' e')
      | _, _, _, _ => None
      end
  | _ => None
  end.

(** On text outside ASCII the example leaves a string as it is and
    counts its bytes. *)
#[local] Instance examplePlatform : Platform.
Proof.
  refine {|
    hmac := exampleHmac;
    encodeHeader := fun alg => alg;
    decodeHeader := exampleDecodeHeader;
    encodePayload := exampleEncodePayload;
    decodePayload := exampleDecodePayload;
    bcryptHash := fun p => "$2a$10$" ++ showZ (checksum p);
    bcryptCompare := fun p digest => String.eqb ("$2a$10$" ++ showZ (checksum p)) digest;
    parseObjectId := exampleParseObjectId;
    parseNumber := parseDigits;
    parseDate := parseDigits;
    castComposite := fun _ _ => None;
    queryComposite := fun _ _ => None;
    updateOperator := fun _ _ => None;
    unicodeLowerCase := fun s => s;
    unicodeTrim := fun s => s;
    unicodeLength := fun s => Z.of_nat (String.length s);
    unicodeLowerCase_text := _;
    exponentText := showZ;
    msWritten := fun _ => None
  |}.
  intros s Hs. exact Hs.
Defined.

Definition env0 : Env := mkEnv (Some "s3cret") None.

Definition emptyDB : DB := mkDB [] [] [] [] 1.

Definition request (auth : option string) (id : string) (props : list (string * option json))
    : Request :=
  mkRequest auth id (literal props).

(** Two users, registered one after the other on an empty store. *)
Definition dbAlice : DB :=
  snd (post_register 1000 emptyDB
         (request None "" [("email", Some (JStr "Alice@Example.com"));
                           ("password", Some (JStr "wonderland"))])).

Definition dbTwoUsers : DB :=
  snd (post_register 2000 dbAlice
         (request None "" [("email", Some (JStr "bob@example.com"));
                           ("password", Some (JStr "builder"))])).

Definition aliceId : ObjectId := "000000000000000000000001".
Definition bobId : ObjectId := "00000000000000000000000a".

Definition tokenOf (now : Z) (id : ObjectId) : string :=
  match generateToken env0 now id with
  | Ok t => t
  | Throw _ => ""
  end.

Definition bearer (token : string) : option string := Some ("Bearer " ++ token).

Definition aliceAuth : option string := bearer (tokenOf 5000 aliceId).
Definition bobAuth : option string := bearer (tokenOf 5000 bobId).

(** An expense of Alice, recorded at time 6000. *)
Definition expenseProps : list (string * option json) :=
  [("type", Some (JStr "expense")); ("date", Some (JNum 5500));
   ("category", Some (JStr "Transport")); ("description", Some (JStr "Taxi"));
   ("amount", Some (JNum 40))].

Definition dbWithExpense : DB :=
  snd (serve env0 PostTransactions 6000 dbTwoUsers (request aliceAuth "" expenseProps)).

Definition expenseId : ObjectId := "000000000000000000000013".

(** The first default category of Alice. *)
Definition penjualanId : ObjectId := "000000000000000000000002".

(** A token under the server's secret whose [userId] is no identifier. *)
Definition strayAuth : option string := bearer (tokenOf 5000 "xyz").

(** A token under the server's secret for a payload as it is, and one
    whose payload has no [userId]. *)
Definition signed (c : Claims) : string :=
  let input := encodeHeader "HS256" ++ "." ++ encodePayload c in
  input ++ "." ++ hmac "HS256" "s3cret" input.

Definition anonymousAuth : option string :=
  bearer (signed (mkClaims None (Some 5) None (Some 604805))).

(** The identity the guard attaches for a header, [req.user] empty when it
    attaches none. *)
Definition contextOf (now : Z) (db : DB) (auth : option string) : AuthContext :=
  match authenticate env0 now db (request auth "" []) with
  | Next ctx => ctx
  | _ => mkAuth "" ∅
  end.

(** A ledger on the store of the two users: an expense and an income of
    Alice, an expense of Bob, an asset of Alice and a category of her
    own, named with blanks around it. *)
Definition incomeProps : list (string * option json) :=
  [("type", Some (JStr "income")); ("date", Some (JNum 5600));
   ("category", Some (JStr "Penjualan")); ("description", Some (JStr "Invoice 7"));
   ("amount", Some (JNum 100)); ("customerName", Some (JStr "Budi"))].

Definition bobExpenseProps : list (string * option json) :=
  [("type", Some (JStr "expense")); ("date", Some (JNum 5700));
   ("category", Some (JStr "Other")); ("description", Some (JStr "Paper"));
   ("amount", Some (JNum 7))].

Definition assetProps : list (string * option json) :=
  [("type", Some (JStr "asset")); ("date", Some (JNum 5650));
   ("category", Some (JStr "Kas")); ("description", Some (JStr "Cash"));
   ("amount", Some (JNum 500))].

Definition pajakProps : list (string * option json) :=
  [("type", Some (JStr "expense")); ("name", Some (JStr " Pajak "))].

Definition ledger : list (Route * Z * Request) :=
  [(PostTransactions, 6000, request aliceAuth "" expenseProps);
   (PostTransactions, 6100, request aliceAuth "" incomeProps);
   (PostTransactions, 6200, request bobAuth "" bobExpenseProps);
   (PostBalanceItems, 6300, request aliceAuth "" assetProps);
   (PostCategories, 6400, request aliceAuth "" pajakProps)].

Definition dbLedger : DB := serveAll env0 ledger dbTwoUsers.

(** Alice and Bob, as the guard attaches them at time 7000. *)
Definition alice : AuthContext := contextOf 7000 dbLedger aliceAuth.
Definition bob : AuthContext := contextOf 7000 dbLedger bobAuth.

(** The two registrations and the ledger, from the empty store. *)
Definition history : list (Route * Z * Request) :=
  ((PostRegister, 1000, request None "" [("email", Some (JStr "Alice@Example.com"));
                                         ("password", Some (JStr "wonderland"))])
   :: (PostRegister, 2000, request None "" [("email", Some (JStr "bob@example.com"));
                                            ("password", Some (JStr "builder"))])
   :: ledger)%list.
End Example.

(** * Lemmas and theorems *)

(** ** Strings *)

Lemma append_cons (x : ascii) (a b : string) : String x a ++ b = String x (a ++ b).
Proof. reflexivity. Qed.

Lemma append_assoc (a b c : string) : (a ++ b) ++ c = a ++ (b ++ c).
Proof.
  induction a as [|x a IH]; [reflexivity |].
  rewrite !append_cons. now f_equal.
Qed.

(** A string without the separator is one piece. *)
Lemma split_piece (sep : ascii) (s : string) :
  allChars (fun c => negb (Ascii.eqb c sep)) s = true -> split sep s = [s].
Proof.
  induction s as [|a s IH]; simpl; [reflexivity |].
  intros [Ha Hs]%andb_prop. rewrite (negb_true_iff _) in Ha.
  rewrite Ha, (IH Hs). reflexivity.
Qed.

(** Splitting after a first piece without the separator. *)
Lemma split_append (sep : ascii) (a b : string) :
  allChars (fun c => negb (Ascii.eqb c sep)) a = true ->
  split sep (a ++ String sep b) = a :: split sep b.
Proof.
  induction a as [|x a IH].
  - intros _. change ("" ++ String sep b) with (String sep b). simpl.
    now rewrite Ascii.eqb_refl.
  - rewrite append_cons. simpl. intros [Hx Ha]%andb_prop.
    rewrite (negb_true_iff _) in Hx. rewrite Hx, (IH Ha). reflexivity.
Qed.

Lemma split_three (a b c : string) :
  allChars (fun x => negb (Ascii.eqb x ".")) a = true ->
  allChars (fun x => negb (Ascii.eqb x ".")) b = true ->
  allChars (fun x => negb (Ascii.eqb x ".")) c = true ->
  split "." ((a ++ "." ++ b) ++ "." ++ c) = [a; b; c].
Proof.
  intros Ha Hb Hc. rewrite append_assoc.
  change ("." ++ b) with (String "." b).
  change (String "." b ++ "." ++ c) with (String "." (b ++ String "." c)).
  rewrite (split_append _ _ _ Ha). rewrite (split_append _ _ _ Hb).
  now rewrite (split_piece _ _ Hc).
Qed.

(** Lower-casing never empties a string. *)
Lemma toLowerCase_text `{Platform} (s : string) : toLowerCase s = "" -> s = "".
Proof.
  unfold toLowerCase. destruct (allChars isAscii s).
  - now destruct s.
  - apply unicodeLowerCase_text.
Qed.

(** ** The token service *)

Section TokenService.
Context `{Platform}.

(** What [jwt.verify] does on a token of three pieces. *)
Lemma verify_three_pieces (t h p s : string) (secret : option string) (now : Z) :
  split "." t = [h; p; s] ->
  Jwt.verify (Some t) secret now =
  match decodeHeader h, decodePayload p with
  | Some alg, Some payload =>
      if String.eqb (trim s) "" then
        Throw (JsonWebTokenError
                 (if Jwt.noSecret secret then "invalid algorithm"
                  else "jwt signature is required"))
      else
        match secret with
        | None | Some EmptyString =>
            Throw (JsonWebTokenError "secret or public key must be provided")
        | Some key =>
            if negb (bool_decide (alg ∈ Jwt.hsAlgorithms)) then
              Throw (JsonWebTokenError "invalid algorithm")
            else if negb (String.eqb s (hmac alg key (h ++ "." ++ p))) then
              Throw (JsonWebTokenError "invalid signature")
            else if from_option (fun n => now / 1000 <? n) false (nbf payload) then
              Throw NotBeforeError
            else
              match exp payload with
              | Some e => if e <=? now / 1000 then Throw TokenExpiredError else Ok payload
              | None => Ok payload
              end
        end
  | _, _ => Throw (JsonWebTokenError "invalid token")
  end.
Proof.
  intros Hs. unfold Jwt.verify.
  destruct t as [|a t]; [discriminate Hs |].
  cbv beta iota. rewrite Hs. reflexivity.
Qed.

Lemma isSegment_pieces (s : string) :
  isSegment s = true ->
  String.eqb (trim s) "" = false ∧ allChars (fun c => negb (Ascii.eqb c ".")) s = true.
Proof.
  unfold isSegment. intros [H1 H2]%andb_prop. split; [|exact H2].
  now apply negb_true_iff.
Qed.

(** What [generateToken] returns under a configured secret and a
    lifetime that parses. *)
Lemma generateToken_issues (env : Env) (now span : Z) (uid key : string) :
  JWT_SECRET env = Some key -> key ≠ "" ->
  Jwt.ms (expiresIn env) = Some span ->
  generateToken env now uid =
  Ok ((encodeHeader "HS256" ++ "." ++ encodePayload (issuedClaims uid now span))
      ++ "." ++ hmac "HS256" key
                  (encodeHeader "HS256" ++ "." ++ encodePayload (issuedClaims uid now span))).
Proof.
  intros Hsecret Hkey Hspan. unfold generateToken, Jwt.sign.
  rewrite Hsecret, Hspan. destruct key; [congruence | reflexivity].
Qed.

(** A token of the server verifies, to the claims it was issued with, as
    long as the clock has not reached its expiry. *)
Lemma token_valid_until_expiry (env : Env) (now now' span : Z) (uid key : string) :
  JWT_SECRET env = Some key -> key ≠ "" ->
  Jwt.ms (expiresIn env) = Some span ->
  codesFaithfully key (issuedClaims uid now span) = true ->
  now' / 1000 < now / 1000 + span / 1000 ->
  exists token,
    generateToken env now uid = Ok token ∧
    verifyToken env now' (Some token) = Some (issuedClaims uid now span).
Proof.
  intros Hsecret Hkey Hspan Hcodec Hlive.
  eexists. split; [exact (generateToken_issues _ _ _ _ _ Hsecret Hkey Hspan) |].
  unfold codesFaithfully in Hcodec.
  apply andb_prop in Hcodec as [Hcodec Hp%bool_decide_eq_true].
  apply andb_prop in Hcodec as [Hcodec Hh%bool_decide_eq_true].
  apply andb_prop in Hcodec as [Hcodec [Hsig Hsig']%isSegment_pieces].
  apply andb_prop in Hcodec as [[_ Hseg1]%isSegment_pieces [_ Hseg2]%isSegment_pieces].
  unfold verifyToken.
  rewrite (verify_three_pieces _ _ _ _ _ _ (split_three _ _ _ Hseg1 Hseg2 Hsig')).
  rewrite Hh, Hp, Hsig, Hsecret. destruct key as [|k key]; [congruence |].
  rewrite String.eqb_refl. cbn [negb issuedClaims exp nbf from_option].
  rewrite bool_decide_eq_true_2 by (unfold Jwt.hsAlgorithms; set_solver).
  cbn [negb]. destruct (Z.leb_spec (now / 1000 + span / 1000) (now' / 1000)); [lia |].
  reflexivity.
Qed.

(** C5. Round trip of the token service: under a configured secret and a
    lifetime of at least one second, on a platform that codes the issued
    claims faithfully, [generateToken] returns a token for every user
    identifier, and [verifyToken] on that token at the same clock returns
    claims whose [userId] is that identifier. *)
Theorem token_round_trip (env : Env) (now span : Z) (uid key : string)
    (Hsecret : JWT_SECRET env = Some key) (Hkey : key ≠ "")
    (Hspan : Jwt.ms (expiresIn env) = Some span) (Hlife : 1000 <= span)
    (Hcodec : codesFaithfully key (issuedClaims uid now span) = true) :
  exists token claims,
    generateToken env now uid = Ok token ∧
    verifyToken env now (Some token) = Some claims ∧
    userId claims = Some (JStr uid).
Proof.
  destruct (token_valid_until_expiry env now now span uid key) as (token & Hgen & Hver);
    try assumption.
  - assert (1 <= span / 1000) by (apply Z.div_le_lower_bound; lia). lia.
  - exists token, (issuedClaims uid now span). auto.
Qed.

(** Each failure the specification names makes [jwt.verify] throw. *)
Lemma verify_throws_on_failure (env : Env) (now : Z) (t : string) :
  VerifyFailure env now t ->
  exists e, Jwt.verify (Some t) (JWT_SECRET env) now = Throw e.
Proof.
  intros Hfail.
  destruct Hfail as [t Hlen | t h p s Hs Hdec | t h p s Hs Hsig | t h p s c e Hs Hp He Hle].
  - unfold Jwt.verify. destruct t as [|a t]; [eauto |].
    destruct (split "." (String a t)) as [|x1 [|x2 [|x3 [|x4 l]]]]; eauto.
    now contradict Hlen.
  - rewrite (verify_three_pieces _ _ _ _ _ _ Hs).
    destruct Hdec as [-> | ->]; [eauto |]. destruct (decodeHeader h); eauto.
  - rewrite (verify_three_pieces _ _ _ _ _ _ Hs).
    destruct (decodeHeader h) as [alg|] eqn:Hh; [|eauto].
    destruct (decodePayload p); [|eauto].
    destruct (String.eqb (trim s) ""); [eauto |].
    destruct (JWT_SECRET env) as [[|k key]|] eqn:Hk; [eauto | | eauto].
    destruct (negb (bool_decide (alg ∈ Jwt.hsAlgorithms))); [eauto |].
    destruct (String.eqb s (hmac alg (String k key) (h ++ "." ++ p))) eqn:Heq; [|eauto].
    apply String.eqb_eq in Heq. now destruct (Hsig alg (String k key)).
  - rewrite (verify_three_pieces _ _ _ _ _ _ Hs), Hp.
    destruct (decodeHeader h) as [alg|]; [|eauto].
    destruct (String.eqb (trim s) ""); [eauto |].
    destruct (JWT_SECRET env) as [[|k key]|]; [eauto | | eauto].
    destruct (negb (bool_decide (alg ∈ Jwt.hsAlgorithms))); [eauto |].
    destruct (negb (String.eqb s (hmac alg (String k key) (h ++ "." ++ p)))); [eauto |].
    destruct (from_option _ false (nbf c)); [eauto |].
    rewrite He. destruct (Z.leb_spec e (now / 1000)); [eauto | lia].
Qed.

(** The [catch] of [verifyToken]: whatever [jwt.verify] throws, [null]. *)
Lemma verifyToken_catches (env : Env) (now : Z) (token : option string) (e : exn) :
  Jwt.verify token (JWT_SECRET env) now = Throw e -> verifyToken env now token = None.
Proof. intros He. unfold verifyToken. now rewrite He. Qed.

(** C6. Verification never raises: on a token that is malformed, does
    not decode, is wrongly signed or has its expiry behind the clock,
    [jwt.verify] throws and [verifyToken] returns [None]. *)
Theorem verifyToken_failure_is_none (env : Env) (now : Z) (t : string)
    (Hfail : VerifyFailure env now t) :
  verifyToken env now (Some t) = None ∧
  exists e, Jwt.verify (Some t) (JWT_SECRET env) now = Throw e.
Proof.
  destruct (verify_throws_on_failure env now t Hfail) as [e He].
  split; [exact (verifyToken_catches _ _ _ _ He) | eauto].
Qed.

(** Past its lifetime, a token of the server no longer verifies. *)
Lemma verifyToken_after_ttl (env : Env) (now now' span : Z) (uid key token : string) :
  JWT_SECRET env = Some key -> key ≠ "" ->
  Jwt.ms (expiresIn env) = Some span ->
  codesFaithfully key (issuedClaims uid now span) = true ->
  generateToken env now uid = Ok token ->
  now / 1000 + span / 1000 <= now' / 1000 ->
  verifyToken env now' (Some token) = None.
Proof.
  intros Hsecret Hkey Hspan Hcodec Hgen Hpast.
  rewrite (generateToken_issues _ _ _ _ _ Hsecret Hkey Hspan) in Hgen.
  injection Hgen as <-.
  unfold codesFaithfully in Hcodec.
  apply andb_prop in Hcodec as [Hcodec Hp%bool_decide_eq_true].
  apply andb_prop in Hcodec as [Hcodec _].
  apply andb_prop in Hcodec as [Hcodec [_ Hsig]%isSegment_pieces].
  apply andb_prop in Hcodec as [[_ Hseg1]%isSegment_pieces [_ Hseg2]%isSegment_pieces].
  destruct (verify_throws_on_failure env now' _
              (Expired env now' _ _ _ _ _ _ (split_three _ _ _ Hseg1 Hseg2 Hsig) Hp eq_refl Hpast))
    as [e He].
  exact (verifyToken_catches _ _ _ _ He).
Qed.

End TokenService.

(** ** Queries *)

Lemma find_ext {A : Type} (f g : A -> bool) (l : list A) :
  (forall x, f x = g x) -> List.find f l = List.find g l.
Proof.
  intros Hfg. induction l as [|x l IH]; simpl; [reflexivity |].
  now rewrite Hfg, IH.
Qed.

Lemma find_none_of {A : Type} (f : A -> bool) (l : list A) :
  (forall x, x ∈ l -> f x = false) -> List.find f l = None.
Proof.
  induction l as [|x l IH]; simpl; intros Hall; [reflexivity |].
  rewrite (Hall x) by set_solver. apply IH. intros y Hy. apply Hall. set_solver.
Qed.

Lemma find_some_of {A : Type} (f : A -> bool) (l : list A) (x : A) :
  x ∈ l -> f x = true -> exists y, List.find f l = Some y.
Proof.
  induction l as [|z l IH]; simpl; intros Hx Hf; [set_solver |].
  destruct (f z) eqn:Hz; [eauto |].
  apply IH; [|exact Hf]. apply elem_of_cons in Hx as [-> | Hx]; [congruence | exact Hx].
Qed.

Lemma find_elem {A : Type} (f : A -> bool) (l : list A) (x : A) :
  List.find f l = Some x -> x ∈ l ∧ f x = true.
Proof.
  intros [Hin Hf]%List.find_some. split; [|exact Hf]. now apply list_elem_of_In.
Qed.

Lemma removeFirst_none (cond : Doc -> bool) (coll : list Doc) :
  List.find cond coll = None -> removeFirst cond coll = coll.
Proof.
  induction coll as [|d coll IH]; simpl; [reflexivity |].
  destruct (cond d); [discriminate |]. intros Hnone. now rewrite IH.
Qed.

Lemma removeFirst_keeps (cond : Doc -> bool) (coll : list Doc) (d : Doc) :
  d ∈ coll -> cond d = false -> d ∈ removeFirst cond coll.
Proof.
  induction coll as [|x coll IH]; simpl; intros Hd Hc; [exact Hd |].
  apply elem_of_cons in Hd as [-> | Hd].
  - rewrite Hc. set_solver.
  - destruct (cond x); [exact Hd |]. apply elem_of_cons. right. now apply IH.
Qed.

Section Queries.
Context `{Platform}.

(** A string as a condition on a path of type ObjectId: the cast throws
    unless the string is a well-formed identifier. *)
Lemma castCondition_oid (sch : Schema) (k s : string) (p : SchemaPath) :
  lookupPath sch k = Some p -> ptype p = TObjectId ->
  castCondition sch k (JStr s) =
  match parseObjectId s with
  | Some id => Ok (equals k (BOid id))
  | None => Throw (CastError k)
  end.
Proof.
  intros Hp Hty. unfold castCondition. rewrite Hp. cbn [from_option].
  unfold castValue. rewrite Hty. now destruct (parseObjectId s).
Qed.

Lemma castCondition_id (sch : Schema) (s : string) :
  castCondition sch "_id" (JStr s) =
  match parseObjectId s with
  | Some id => Ok (equals "_id" (BOid id))
  | None => Throw (CastError "_id")
  end.
Proof. now apply (castCondition_oid sch "_id" s idPath). Qed.

(** The filter [{ _id: id, userId: uid }] followed by further conditions. *)
Lemma castFilter_owned (sch : Schema) (id uid : string) (p : SchemaPath)
    (rest : list (string * json)) :
  lookupPath sch "userId" = Some p -> ptype p = TObjectId ->
  castFilter sch (("_id", JStr id) :: ("userId", JStr uid) :: rest) =
  match parseObjectId id with
  | Some id' =>
      match parseObjectId uid with
      | Some uid' =>
          let* cs := castFilter sch rest in
          Ok (fun d => equals "_id" (BOid id') d && (equals "userId" (BOid uid') d && cs d))
      | None => Throw (CastError "userId")
      end
  | None => Throw (CastError "_id")
  end.
Proof.
  intros Hp Hty. cbn [castFilter].
  rewrite castCondition_id, (castCondition_oid sch "userId" uid p Hp Hty).
  destruct (parseObjectId id); [|reflexivity].
  destruct (parseObjectId uid); [|reflexivity].
  cbn [bind]. destruct (castFilter sch rest); reflexivity.
Qed.

Lemma equals_oid (k : string) (id : ObjectId) (d : Doc) :
  equals k (BOid id) d = true <-> d !! k = Some (BOid id).
Proof. unfold equals. apply bool_decide_eq_true. Qed.

(** [findById] on a string: a throw on a malformed identifier, else the
    first document with this identifier. *)
Lemma findById_string (sch : Schema) (s : string) (coll : list Doc) :
  findById sch (Some (JStr s)) coll =
  match parseObjectId s with
  | Some id => Ok (List.find (fun d => bool_decide (d !! "_id" = Some (BOid id))) coll)
  | None => Throw (CastError "_id")
  end.
Proof.
  unfold findById, findOne. cbn [castFilter default from_option id].
  rewrite castCondition_id.
  destruct (parseObjectId s); [|reflexivity]. cbn [bind]. f_equal.
  apply find_ext. intros d. unfold equals. now rewrite andb_true_r.
Qed.

(** The cast of a string, a number or a boolean to an identifier gives
    an identifier or fails. *)
Lemma castValue_identifier (p : SchemaPath) (v : json) (b : bson) :
  ptype p = TObjectId -> plain (Some v) = true -> castValue p v = Some b ->
  exists id, b = BOid id.
Proof.
  intros Hty Hplain. unfold castValue. rewrite Hty.
  destruct v as [| flag | n | s | id | l | props]; try discriminate Hplain.
  - destruct (parseObjectId (boolText flag)); [|discriminate]. intros [= <-]. eauto.
  - destruct (parseObjectId (numberText n)); [|discriminate]. intros [= <-]. eauto.
  - destruct (parseObjectId s); [|discriminate]. intros [= <-]. eauto.
  - intros [= <-]. eauto.
Qed.

(** [findById] on a claim: the first document the claim stands for, and
    a throw on a claim that stands for no identifier. *)
Lemma findById_claim (sch : Schema) (claim : option json) (coll : list Doc) :
  findById sch claim coll =
  match named claim with
  | Some stands => Ok (List.find stands coll)
  | None => Throw (CastError "_id")
  end.
Proof.
  unfold findById, findOne. cbn [castFilter].
  assert (Hnull : castCondition sch "_id" JNull = Ok (equals "_id" BNull)) by reflexivity.
  destruct claim as [v|]; cbn [default from_option id named].
  2:{ rewrite Hnull. cbn [bind]. f_equal. apply find_ext. intros d.
      unfold equals. now rewrite andb_true_r. }
  destruct v as [| flag | n | s | oid | l | props].
  - rewrite Hnull. cbn [bind]. f_equal. apply find_ext. intros d.
    unfold equals. now rewrite andb_true_r.
  - unfold castCondition. cbn [lookupPath String.eqb Ascii.eqb Bool.eqb from_option].
    destruct (castValue idPath (JBool flag)) as [b|] eqn:Hcast; [|reflexivity].
    destruct (castValue_identifier idPath (JBool flag) b eq_refl eq_refl Hcast) as [id ->].
    cbn [bind]. f_equal. apply find_ext. intros d. unfold equals. now rewrite andb_true_r.
  - unfold castCondition. cbn [lookupPath String.eqb Ascii.eqb Bool.eqb from_option].
    destruct (castValue idPath (JNum n)) as [b|] eqn:Hcast; [|reflexivity].
    destruct (castValue_identifier idPath (JNum n) b eq_refl eq_refl Hcast) as [id ->].
    cbn [bind]. f_equal. apply find_ext. intros d. unfold equals. now rewrite andb_true_r.
  - unfold castCondition. cbn [lookupPath String.eqb Ascii.eqb Bool.eqb from_option].
    destruct (castValue idPath (JStr s)) as [b|] eqn:Hcast; [|reflexivity].
    destruct (castValue_identifier idPath (JStr s) b eq_refl eq_refl Hcast) as [id ->].
    cbn [bind]. f_equal. apply find_ext. intros d. unfold equals. now rewrite andb_true_r.
  - unfold castCondition. cbn [lookupPath String.eqb Ascii.eqb Bool.eqb from_option].
    destruct (castValue idPath (JOid oid)) as [b|] eqn:Hcast; [|reflexivity].
    destruct (castValue_identifier idPath (JOid oid) b eq_refl eq_refl Hcast) as [id ->].
    cbn [bind]. f_equal. apply find_ext. intros d. unfold equals. now rewrite andb_true_r.
  - unfold castCondition. cbn [lookupPath String.eqb Ascii.eqb Bool.eqb from_option idPath
                                 field ptype fmap option_fmap option_map].
    destruct (queryComposite TObjectId (JArr l)); cbn [option_map bind]; [|reflexivity].
    f_equal. apply find_ext. intros d. now rewrite andb_true_r.
  - unfold castCondition. cbn [lookupPath String.eqb Ascii.eqb Bool.eqb from_option idPath
                                 field ptype fmap option_fmap option_map].
    destruct (queryComposite TObjectId (JObj props)); cbn [option_map bind]; [|reflexivity].
    f_equal. apply find_ext. intros d. now rewrite andb_true_r.
Qed.

End Queries.

(** ** The authorization guard *)

Section GuardProperties.
Context `{Platform}.

(** C4. The guard follows the steps of the contract, with the step the
    code adds: (1) a missing header or one that does not start with the
    Bearer scheme is answered 401 "Token tidak valid"; (2) so is a token
    that [verifyToken] turns down; (2') so is a verified token whose
    [userId] claim stands for no identifier: a string, number or boolean
    that the identifier parser refuses, an array or object that the store
    takes for no condition; (3) a verified token whose [userId] stands
    for no stored user is answered 401 "User tidak ditemukan", a claim
    that is [null] or that the payload does not have standing for a
    record without identifier; (4) otherwise [userId], as the payload
    has it, and the first user it stands for are attached and the
    request goes on to the handler. *)
Theorem authenticate_follows_contract (env : Env) (now : Z) (db : DB) (req : Request) :
  authenticate env now db req = guardContractAmended env now db req.
Proof.
  unfold authenticate, guardContractAmended, invalidToken, userNotFound.
  destruct (authorization req) as [header|]; [|reflexivity].
  assert (Hhdr : (String.eqb header "" || negb (startsWith "Bearer " header))%bool
                 = negb (startsWith "Bearer " header)).
  { destruct header; reflexivity. }
  rewrite Hhdr. destruct (negb (startsWith "Bearer " header)); [reflexivity |].
  destruct (verifyToken env now (split " " header !! 1%nat)) as [claims|]; [|reflexivity].
  rewrite findById_claim.
  destruct (named (userId claims)) as [stands|]; [|reflexivity].
  destruct (List.find stands (users db)); reflexivity.
Qed.

(** What a handler knows of the identity the guard attached. *)
Lemma authenticate_next (env : Env) (now : Z) (db : DB) (req : Request) (ctx : AuthContext) :
  authenticate env now db req = Next ctx ->
  exists id,
    parseObjectId (reqUserId ctx) = Some id ∧
    reqUser ctx ∈ users db ∧
    callerId ctx = Some (BOid id).
Proof.
  unfold authenticate.
  destruct (authorization req) as [header|]; [|discriminate].
  destruct (_ || _)%bool; [discriminate |].
  destruct (verifyToken env now (split " " header !! 1%nat)) as [claims|]; [|discriminate].
  unfold attach.
  destruct (userId claims) as [[| flag | n | s | oid | l | props]|];
    try (destruct (findById userSchema _ (users db)) as [[user|]|]; discriminate).
  rewrite findById_string.
  destruct (parseObjectId s) as [id|] eqn:Hparse; [|discriminate].
  destruct (List.find _ (users db)) as [user|] eqn:Hfind; [|discriminate].
  intros [= <-]. apply find_elem in Hfind as [Hin Hid%bool_decide_eq_true].
  exists id. unfold callerId. cbn [reqUserId reqUser]. auto.
Qed.

(** What a handler knows of [req.userId] and [req.user], whatever the
    claim: the user is a stored one and, when the claim is a string, a
    number or a boolean, the one whose identifier the claim gives. *)
Lemma authenticate_attached (env : Env) (now : Z) (db : DB) (req : Request)
    (claim : option json) (user : Doc) :
  attached (authenticate env now db req) = Some (claim, user) ->
  user ∈ users db ∧
  (plain claim = true ->
   exists id, stamp claim = Some (BOid id) ∧ user !! "_id" = Some (BOid id)).
Proof.
  rewrite authenticate_follows_contract. unfold guardContractAmended.
  destruct (authorization req) as [header|]; [|discriminate].
  destruct (negb _); [discriminate |].
  destruct (verifyToken env now (split " " header !! 1%nat)) as [claims|]; [|discriminate].
  destruct (named (userId claims)) as [stands|] eqn:Hnamed; [|discriminate].
  destruct (List.find stands (users db)) as [found|] eqn:Hfind; [|discriminate].
  assert (Hattach : attached (attach (userId claims) found) = Some (userId claims, found)).
  { unfold attach. destruct (userId claims) as [[]|]; reflexivity. }
  rewrite Hattach. intros [= <- <-].
  apply find_elem in Hfind as [Hin Hstands]. split; [exact Hin |].
  intros Hplain. destruct (userId claims) as [v|]; [|discriminate Hplain].
  assert (Hcast : castValue userIdPath v = castValue idPath v).
  { unfold castValue. now destruct v. }
  cbn [stamp mbind option_bind]. rewrite Hcast.
  destruct v as [| flag | n | s | oid | l | props]; try discriminate Hplain;
    cbn [named] in Hnamed;
    (destruct (castValue idPath _) as [[| | | | |id]|]; try discriminate Hnamed;
     injection Hnamed as <-; exists id; split; [reflexivity |];
     now apply bool_decide_eq_true in Hstands).
Qed.

End GuardProperties.

(** ** Routes that address a record by its identifier *)

Section ByIdentifier.
Context `{Platform}.

Lemma transaction_filter (id uid : string) :
  castFilter transactionSchema [("_id", JStr id); ("userId", JStr uid)] =
  match parseObjectId id with
  | Some id' =>
      match parseObjectId uid with
      | Some uid' =>
          Ok (fun d => equals "_id" (BOid id') d && (equals "userId" (BOid uid') d && true))
      | None => Throw (CastError "userId")
      end
  | None => Throw (CastError "_id")
  end.
Proof.
  now rewrite (castFilter_owned transactionSchema id uid
                 (required (field "userId" TObjectId)) [] eq_refl eq_refl).
Qed.

Lemma category_filter (id uid : string) :
  castFilter categorySchema
    [("_id", JStr id); ("userId", JStr uid); ("isDefault", JBool false)] =
  match parseObjectId id with
  | Some id' =>
      match parseObjectId uid with
      | Some uid' =>
          Ok (fun d => equals "_id" (BOid id') d
                       && (equals "userId" (BOid uid') d
                           && (equals "isDefault" (BBool false) d && true)))
      | None => Throw (CastError "userId")
      end
  | None => Throw (CastError "_id")
  end.
Proof.
  now rewrite (castFilter_owned categorySchema id uid
                 (required (field "userId" TObjectId)) _ eq_refl eq_refl).
Qed.

(** No record of the caller under this identifier: the owner filter
    matches nothing. *)
Lemma owner_filter_misses (ctx : AuthContext) (pathId : string) (id uid : ObjectId)
    (coll : list Doc) (more : Doc -> bool) :
  parseObjectId pathId = Some id ->
  callerId ctx = Some (BOid uid) ->
  (forall d, d ∈ coll -> ¬ ownedBy ctx pathId d) ->
  List.find (fun d => equals "_id" (BOid id) d && (equals "userId" (BOid uid) d && more d))
    coll = None.
Proof.
  intros Hid Hcaller Hnone. apply find_none_of. intros d Hd.
  destruct (equals "_id" _ d) eqn:Hd1; [|reflexivity].
  destruct (equals "userId" _ d) eqn:Hd2; [|reflexivity].
  destruct (Hnone d Hd). unfold ownedBy. rewrite Hid, Hcaller.
  split; now apply equals_oid.
Qed.

(** The update document casts when evaluating its cast returns. *)
Lemma updateCasts_evaluated (now : Z) (req : Request) :
  match castUpdate transactionSchema (<["updatedAt" := JNum now]> (body req)) with
  | Ok _ => true
  | Throw _ => false
  end = true ->
  updateCasts now req.
Proof.
  unfold updateCasts. destruct (castUpdate _ _) as [change|]; [eauto | discriminate].
Qed.

(** C10. After the guard, [PUT] and [DELETE /transactions/:id] with a
    path identifier that is not a well-formed ObjectId (the parser
    refuses it) answer 500 with the generic message, and leave the store
    as it was: the cast of the filter throws and the handler's [catch]
    takes it. *)
Theorem malformed_id_is_server_error (env : Env) (now : Z) (db : DB) (req : Request)
    (ctx : AuthContext)
    (Hauth : authenticate env now db req = Next ctx)
    (Hid : parseObjectId (params_id req) = None) :
  serve env PutTransactionsId now db req = (serverError, db) ∧
  serve env DeleteTransactionsId now db req = (serverError, db) ∧
  status serverError = 500.
Proof.
  unfold serve, protected. rewrite Hauth.
  unfold put_transactions_id, delete_transactions_id, findOneAndUpdate, findOneAndDelete.
  rewrite transaction_filter, Hid. auto.
Qed.

(** C3, amended. After the guard, a [PUT] or [DELETE /transactions/:id]
    or a [DELETE /categories/:id] whose path identifier is well formed
    (and, for [PUT], whose update document casts) and under which the
    caller owns no record answers 404 with the route's not-found message
    and leaves the store as it was, whether no record has the identifier
    or another user's record has it. *)
Theorem foreign_or_absent_is_not_found (env : Env) (route : Route) (now : Z) (db : DB)
    (req : Request) (ctx : AuthContext) (id : ObjectId)
    (Hroute : byIdentifier route = true)
    (Hauth : authenticate env now db req = Next ctx)
    (Hid : parseObjectId (params_id req) = Some id)
    (Hupdate : route = PutTransactionsId -> updateCasts now req)
    (Hnone : forall d, d ∈ addressed route db -> ¬ ownedBy ctx (params_id req) d) :
  serve env route now db req = (notFound route, db) ∧ status (notFound route) = 404.
Proof.
  destruct (authenticate_next _ _ _ _ _ Hauth) as (uid & Huid & _ & Hcaller).
  destruct route; try discriminate Hroute; unfold serve, protected; rewrite Hauth;
    (split; [|reflexivity]).
  - destruct (Hupdate eq_refl) as [change Hchange].
    unfold put_transactions_id, findOneAndUpdate.
    rewrite transaction_filter, Hid, Huid. cbn [bind]. rewrite Hchange. cbn [bind].
    now rewrite (owner_filter_misses ctx _ _ _ _ _ Hid Hcaller Hnone).
  - unfold delete_transactions_id, findOneAndDelete.
    rewrite transaction_filter, Hid, Huid. cbn [bind].
    now rewrite (owner_filter_misses ctx _ _ _ _ _ Hid Hcaller Hnone).
  - unfold delete_categories_id, findOneAndDelete.
    rewrite category_filter, Hid, Huid. cbn [bind].
    now rewrite (owner_filter_misses ctx _ _ _ _ _ Hid Hcaller Hnone).
Qed.

End ByIdentifier.

(** ** Routes that create a record *)

Section Creation.
Context `{Platform}.

Lemma setPath_other (p : SchemaPath) (now : Z) (obj : object) (d : Document) (k : string) :
  pname p ≠ k -> fields (setPath p now obj d) !! k = fields d !! k.
Proof.
  intros Hk. unfold setPath.
  destruct (obj !! pname p) as [v|].
  - destruct (castValue p v); cbn [fields]; [now apply lookup_insert_ne | reflexivity].
  - destruct (pdefault p); cbn [fields]; [now apply lookup_insert_ne | reflexivity].
Qed.

Lemma setPaths_other (ps : list SchemaPath) (now : Z) (obj : object) (d : Document)
    (k : string) :
  Forall (fun p => pname p ≠ k) ps ->
  fields (fold_left (fun d p => setPath p now obj d) ps d) !! k = fields d !! k.
Proof.
  intros Hps. revert d. induction Hps as [|p ps Hp _ IH]; intros d; [reflexivity |].
  cbn [fold_left]. rewrite IH. now apply setPath_other.
Qed.

Lemma setPath_cast (p : SchemaPath) (now : Z) (obj : object) (d : Document)
    (v : json) (b : bson) :
  obj !! pname p = Some v -> castValue p v = Some b ->
  fields (setPath p now obj d) !! pname p = Some b.
Proof.
  intros Hv Hb. unfold setPath. rewrite Hv, Hb. cbn [fields]. apply lookup_insert_eq.
Qed.

(** A path the object has no value for and the schema no default for
    stays unset. *)
Lemma setPath_absent (p : SchemaPath) (now : Z) (obj : object) (d : Document) :
  obj !! pname p = None -> pdefault p = None -> setPath p now obj d = d.
Proof. intros Hv Hd. unfold setPath. now rewrite Hv, Hd. Qed.

(** The paths a new document starts with: its [_id] alone. *)
Lemma construct_start (now : Z) (fresh : ObjectId) (obj : object) (k : string) :
  k ≠ "_id" ->
  fields (match obj !! "_id" with
          | Some _ => setPath idPath now obj (mkDocument ∅ [])
          | None => mkDocument {[ "_id" := BOid fresh ]} []
          end) !! k = None.
Proof.
  intros Hk. destruct (obj !! "_id") as [v|] eqn:Hid.
  - rewrite setPath_other by (cbn; congruence). apply lookup_empty.
  - cbn [fields]. apply lookup_singleton_ne. congruence.
Qed.

(** The [userId] of a new document of a schema that starts with the
    [userId] path and has no other path of that name: the cast of the
    object's [userId], unset when the object has none or the cast fails. *)
Lemma construct_userId (sch : Schema) (now : Z) (fresh : ObjectId) (obj : object)
    (rest : list SchemaPath) :
  paths sch = userIdPath :: rest ->
  Forall (fun p => pname p ≠ "userId") rest ->
  fields (construct sch now fresh obj) !! "userId" = obj !! "userId" ≫= castValue userIdPath.
Proof.
  intros Hpaths Hrest. unfold construct. rewrite Hpaths. cbn [fold_left].
  rewrite (setPaths_other _ _ _ _ _ Hrest). unfold setPath.
  change (pname userIdPath) with "userId". change (pdefault userIdPath) with (@None (Z -> bson)).
  destruct (obj !! "userId") as [v|]; cbn [mbind option_bind].
  - destruct (castValue userIdPath v); cbn [fields]; [apply lookup_insert_eq |].
    now apply construct_start.
  - now apply construct_start.
Qed.

(** What the driver inserts differs from the document in [_id] at most,
    and not at all when the document has an identifier. *)
Lemma inserted_other (pk : ObjectId) (doc : Doc) (k : string) :
  k ≠ "_id" -> inserted pk doc !! k = doc !! k.
Proof.
  intros Hk. unfold inserted. destruct (doc !! "_id") as [[]|]; try reflexivity.
  apply lookup_insert_ne. congruence.
Qed.

Lemma inserted_id (pk : ObjectId) (doc : Doc) (id : ObjectId) :
  doc !! "_id" = Some (BOid id) -> inserted pk doc = doc.
Proof. intros Hid. unfold inserted. now rewrite Hid. Qed.

(** A save that goes through appends what the driver inserts for the
    document, after the [pre('save')] hook, to the collection. *)
Lemma save_ok (sch : Schema) (now : Z) (pk : ObjectId) (d : Document) (coll coll' : list Doc)
    (doc : Doc) :
  save sch now pk d coll = Ok (doc, coll') ->
  validate sch d = [] ∧ doc = preSave sch now (fields d) ∧
  coll' = (coll ++ [inserted pk doc])%list.
Proof.
  unfold save. destruct (validate sch d); [|discriminate].
  destruct (_ !! "_id"); [|discriminate]. destruct (duplicateKey _ _ _); [discriminate |].
  intros [= <- <-]. auto.
Qed.

(** The [_id] of a new document when the object gives none: the
    generated one. *)
Lemma construct_id (sch : Schema) (now : Z) (fresh : ObjectId) (obj : object) :
  obj !! "_id" = None ->
  Forall (fun p => pname p ≠ "_id") (paths sch) ->
  fields (construct sch now fresh obj) !! "_id" = Some (BOid fresh).
Proof.
  intros Hid Hpaths. unfold construct. rewrite Hid.
  rewrite (setPaths_other _ _ _ _ _ Hpaths). apply lookup_singleton_eq.
Qed.

(** A path the object has no value for stays unset through the paths of
    a schema that give it no default. *)
Lemma setPaths_absent (ps : list SchemaPath) (now : Z) (obj : object) (d : Document)
    (k : string) :
  obj !! k = None ->
  Forall (fun p => pname p = k -> pdefault p = None) ps ->
  fields d !! k = None ->
  fields (fold_left (fun d p => setPath p now obj d) ps d) !! k = None.
Proof.
  intros Hobj Hps. revert d. induction Hps as [|p ps Hp _ IH]; intros d Hd; [exact Hd |].
  cbn [fold_left]. apply IH.
  destruct (decide (pname p = k)) as [Hk|Hk].
  - rewrite setPath_absent; [exact Hd | now rewrite Hk | now apply Hp].
  - now rewrite setPath_other.
Qed.

(** A required path left unset fails validation. *)
Lemma validate_required (sch : Schema) (d : Document) (p : SchemaPath) :
  p ∈ paths sch -> prequired p (fields d) = true -> fields d !! pname p = None ->
  validate sch d ≠ [].
Proof.
  intros Hp Hreq Hunset Hvalid. unfold validate in Hvalid.
  apply app_eq_nil in Hvalid as [_ Hnames]. apply fmap_nil_inv in Hnames.
  assert (Hin : p ∈ List.filter
                      (fun p => failsRequired p (fields d) || failsEnum p (fields d)
                                || failsMin p (fields d))%bool (paths sch)).
  { apply list_elem_of_In, List.filter_In. split; [now apply list_elem_of_In |].
    unfold failsRequired. now rewrite Hreq, Hunset. }
  rewrite Hnames in Hin. set_solver.
Qed.

(** After the guard, a [POST /transactions] whose payload has no amount
    is answered 500, and nothing is stored. *)
Lemma post_transaction_requires_amount (env : Env) (now : Z) (db : DB) (req : Request)
    (ctx : AuthContext) :
  authenticate env now db req = Next ctx ->
  body req !! "amount" = None ->
  serve env PostTransactions now db req = (serverError, db).
Proof.
  intros Hauth Hamount. unfold serve, protected. rewrite Hauth.
  unfold post_transactions, save.
  destruct (validate transactionSchema _) eqn:Hvalid; [|reflexivity].
  exfalso. revert Hvalid.
  apply (validate_required transactionSchema _ (min 0 (required (field "amount" TNumber))));
    [set_solver | reflexivity |].
  unfold construct. apply setPaths_absent.
  - now rewrite lookup_insert_ne.
  - repeat (constructor; [first [discriminate | reflexivity] |]). constructor.
  - destruct (_ !! "_id").
    + now rewrite setPath_other.
    + reflexivity.
Qed.

(** The handler of a protected route is run on what the guard attached. *)
Lemma protected_attached (handler : option json -> Z -> DB -> Request -> Response * DB)
    (env : Env) (now : Z) (db : DB) (req : Request) (claim : option json) (user : Doc) :
  attached (authenticate env now db req) = Some (claim, user) ->
  protected handler env now db req = handler claim now db req.
Proof.
  unfold protected. destruct (authenticate env now db req) as [rejected|ctx|c u];
    cbn [attached]; [discriminate | |]; now intros [= <- <-].
Qed.

(** A protected route answers with the guard's rejection, the store as
    it was, or runs its handler on some [req.userId]. *)
Lemma protected_cases (handler : option json -> Z -> DB -> Request -> Response * DB)
    (env : Env) (now : Z) (db : DB) (req : Request) :
  (exists res, protected handler env now db req = (res, db)) ∨
  (exists claim, protected handler env now db req = handler claim now db req).
Proof.
  unfold protected. destruct (authenticate env now db req) as [rejected|ctx|claim user]; eauto.
Qed.

Lemma stamped_userId (claim : option json) (obj : object) :
  stamped claim obj !! "userId" = claim.
Proof. destruct claim; [apply lookup_insert_eq | apply lookup_delete_eq]. Qed.

Lemma stamped_other (claim : option json) (obj : object) (k : string) :
  k ≠ "userId" -> stamped claim obj !! k = obj !! k.
Proof.
  intros Hk. destruct claim; [apply lookup_insert_ne | apply lookup_delete_ne]; congruence.
Qed.

(** A create route either stores nothing and does not answer 201, or
    answers 201 with the document and stores what the driver inserts
    for it, both with the stamp of [req.userId]. *)
Lemma create_adds_stamped (env : Env) (route : Route) (now : Z) (db : DB) (req : Request)
    (claim : option json) (user : Doc) :
  isCreate route = true ->
  attached (authenticate env now db req) = Some (claim, user) ->
  (status (fst (serve env route now db req)) ≠ 201 ∧ snd (serve env route now db req) = db) ∨
  (status (fst (serve env route now db req)) = 201 ∧
   exists sent,
     data (fst (serve env route now db req)) = Some (DataDoc sent) ∧
     created route (snd (serve env route now db req))
     = (created route db ++ [inserted (newObjectId db) sent])%list ∧
     sent !! "userId" = stamp claim ∧
     inserted (newObjectId db) sent !! "userId" = stamp claim).
Proof.
  intros Hroute Hauth.
  destruct route; try discriminate Hroute; cbn [serve];
    rewrite (protected_attached _ _ _ _ _ _ _ Hauth).
  - unfold post_transactions.
    destruct (save transactionSchema _ _ _ _) as [[saved coll]|e] eqn:Hsave;
      cbn [bind catch500 fst snd];
      [right | left; split; [discriminate | reflexivity]].
    apply save_ok in Hsave as (_ & -> & ->).
    split; [reflexivity |]. eexists. split; [reflexivity |]. split; [reflexivity |].
    rewrite inserted_other by discriminate.
    cbn [preSave transactionSchema]. unfold touchUpdatedAt.
    rewrite lookup_insert_ne by discriminate.
    rewrite (construct_userId transactionSchema _ _ _ _ eq_refl),
      (stamped_userId claim (body req)); [auto |].
    repeat (constructor; [discriminate |]). constructor.
  - unfold post_balance_items.
    destruct (save balanceItemSchema _ _ _ _) as [[saved coll]|e] eqn:Hsave;
      cbn [bind catch500 fst snd];
      [right | left; split; [discriminate | reflexivity]].
    apply save_ok in Hsave as (_ & -> & ->).
    split; [reflexivity |]. eexists. split; [reflexivity |]. split; [reflexivity |].
    rewrite inserted_other by discriminate.
    cbn [preSave balanceItemSchema]. unfold touchUpdatedAt.
    rewrite lookup_insert_ne by discriminate.
    rewrite (construct_userId balanceItemSchema _ _ _ _ eq_refl),
      (stamped_userId claim (body req)); [auto |].
    repeat (constructor; [discriminate |]). constructor.
  - unfold post_categories.
    destruct (body req !! "type") as [type|];
      [|left; split; [discriminate | reflexivity]].
    destruct (body req !! "name") as [name|];
      [|left; split; [discriminate | reflexivity]].
    destruct (_ || _)%bool; [left; split; [discriminate | reflexivity] |].
    destruct (findOne categorySchema _ _) as [[existing|]|e];
      cbn [bind catch500 fst snd];
      [left; split; [discriminate | reflexivity] | |
       left; split; [discriminate | reflexivity]].
    destruct (save categorySchema _ _ _ _) as [[saved coll]|e] eqn:Hsave;
      cbn [bind catch500 fst snd];
      [right | left; split; [discriminate | reflexivity]].
    apply save_ok in Hsave as (_ & -> & ->).
    split; [reflexivity |]. eexists. split; [reflexivity |]. split; [reflexivity |].
    rewrite inserted_other by discriminate.
    cbn [preSave categorySchema].
    rewrite (construct_userId categorySchema _ _ _ _ eq_refl).
    + assert (Hliteral : literal [("userId", claim); ("type", Some type); ("name", Some name);
                                  ("isDefault", Some (JBool false))] !! "userId" = claim).
      { cbn [literal fold_right]. destruct claim; [apply lookup_insert_eq |].
        rewrite !lookup_insert_ne by discriminate. apply lookup_empty. }
      rewrite Hliteral. auto.
    + repeat (constructor; [discriminate |]). constructor.
Qed.

(** Setting a path the object has a value for that casts, and one it
    has no value for and the schema a default. *)
Lemma setPath_value (p : SchemaPath) (now : Z) (obj : object) (d : Document)
    (k : string) (v : json) (b : bson) :
  pname p = k -> obj !! k = Some v -> castValue p v = Some b ->
  setPath p now obj d = mkDocument (<[k := b]> (fields d)) (castErrors d).
Proof. intros <- Hv Hb. unfold setPath. now rewrite Hv, Hb. Qed.

Lemma setPath_default (p : SchemaPath) (now : Z) (obj : object) (d : Document)
    (k : string) (dflt : Z -> bson) :
  pname p = k -> obj !! k = None -> pdefault p = Some dflt ->
  setPath p now obj d = mkDocument (<[k := dflt now]> (fields d)) (castErrors d).
Proof. intros <- Hv Hd. unfold setPath. now rewrite Hv, Hd. Qed.

(** No stored document has the identifier of the new one: the index on
    [_id] lets it in. *)
Lemma fresh_id_is_no_duplicate (doc : Doc) (id : ObjectId) (coll : list Doc) :
  doc !! "_id" = Some (BOid id) ->
  Forall (fun d : Doc => d !! "_id" ≠ Some (BOid id)) coll ->
  existsb (fun d' => bool_decide (indexKey ["_id"] d' = indexKey ["_id"] doc)) coll = false.
Proof.
  intros Hid Hfresh. apply not_true_is_false. intros [d' [Hin Heq]]%existsb_exists.
  apply bool_decide_eq_true in Heq. unfold indexKey in Heq. cbn [fmap list_fmap] in Heq.
  rewrite Hid in Heq. injection Heq as Heq.
  apply (proj1 (Forall_forall _ _) Hfresh d'); [now apply list_elem_of_In | exact Heq].
Qed.

(** A document that validates, has an identifier and meets no
    duplicate is saved. *)
Lemma save_goes_through (sch : Schema) (now : Z) (pk : ObjectId) (d : Document)
    (coll : list Doc) (id : ObjectId) :
  validate sch d = [] ->
  preSave sch now (fields d) !! "_id" = Some (BOid id) ->
  duplicateKey sch (preSave sch now (fields d)) coll = false ->
  save sch now pk d coll =
  Ok (preSave sch now (fields d), (coll ++ [preSave sch now (fields d)])%list).
Proof.
  intros Hvalid Hid Hdup. unfold save. rewrite Hvalid, Hid.
  now rewrite (inserted_id _ _ _ Hid), Hdup.
Qed.

Lemma isOneOf_inv (values : list string) (v : option json) :
  isOneOf values v = true -> exists s, v = Some (JStr s) ∧ s ∈ values.
Proof.
  destruct v as [[]|]; try discriminate. intros Hs%bool_decide_eq_true. eauto.
Qed.

Lemma isText_inv (v : option json) :
  isText v = true -> exists c s, v = Some (JStr (String c s)).
Proof. destruct v as [[| | |[|c s]| | |]|]; try discriminate. eauto. Qed.

Lemma isTextOrAbsent_inv (v : option json) :
  isTextOrAbsent v = true -> v = None ∨ exists s, v = Some (JStr s).
Proof. destruct v as [[]|]; try discriminate; eauto. Qed.

Lemma isTime_inv (v : option json) :
  isTime v = true -> exists n, v = Some (JNum n) ∧ isTimeValue n = true.
Proof. destruct v as [[]|]; try discriminate. eauto. Qed.

Lemma isAmount_inv (v : option json) :
  isAmount v = true -> exists a, v = Some (JNum a) ∧ 0 <= a.
Proof. destruct v as [[]|]; try discriminate. intros Ha%Z.leb_le. eauto. Qed.

(** The last steps of the lemmas below: the document is built, its
    identifier is the generated one, and it validates. *)
Ltac document_is_valid a Ha :=
  cbn [fields castErrors]; eexists; split; [reflexivity |];
  split; [rewrite !lookup_insert_ne by discriminate; apply lookup_singleton_eq |];
  clear -Ha; destruct a; [vm_compute; reflexivity | vm_compute; reflexivity | lia].

(** A well-formed transaction of a caller with an identifier is stored. *)
Lemma post_transactions_goes_through (claim : option json) (id : ObjectId) (now : Z)
    (db : DB) (req : Request) :
  stamp claim = Some (BOid id) ->
  wellFormed PostTransactions (body req) = true ->
  Forall (fun d : Doc => d !! "_id" ≠ Some (BOid (newObjectId db))) (transactions db) ->
  status (fst (post_transactions claim now db req)) = 201.
Proof.
  intros Hstamp Hwf Hfresh.
  destruct claim as [v|]; [|discriminate Hstamp]. cbn [stamp mbind option_bind] in Hstamp.
  unfold wellFormed in Hwf.
  apply andb_prop in Hwf as [Hwf Hupdated%bool_decide_eq_true].
  apply andb_prop in Hwf as [Hwf Hcreated%bool_decide_eq_true].
  apply andb_prop in Hwf as [Hwf Hinvoice%isTextOrAbsent_inv].
  apply andb_prop in Hwf as [Hwf Hcustomer].
  apply andb_prop in Hwf as [Hwf (a & Hamount & Ha)%isAmount_inv].
  apply andb_prop in Hwf as [Hwf (c2 & s2 & Hdescription)%isText_inv].
  apply andb_prop in Hwf as [Hwf (c1 & s1 & Hcategory)%isText_inv].
  apply andb_prop in Hwf as [Hwf (n & Hdate & Hn)%isTime_inv].
  apply andb_prop in Hwf as [Hid%bool_decide_eq_true (t & Htype & Ht)%isOneOf_inv].
  unfold post_transactions. cbv zeta.
  set (obj := <["userId" := v]> (body req)).
  assert (Huser : obj !! "userId" = Some v) by apply lookup_insert_eq.
  assert (Hobj : forall k, k ≠ "userId" -> obj !! k = body req !! k).
  { intros k Hk. apply lookup_insert_ne. congruence. }
  assert (Hdoc : exists F,
             construct transactionSchema now (newObjectId db) obj = mkDocument F [] ∧
             F !! "_id" = Some (BOid (newObjectId db)) ∧
             validate transactionSchema (mkDocument F []) = []).
  { unfold construct. rewrite (Hobj "_id"), Hid by discriminate.
    cbn [paths transactionSchema fold_left].
    rewrite (setPath_value (required (field "userId" TObjectId)) now obj _ "userId" v
               (BOid id) eq_refl Huser Hstamp).
    rewrite (setPath_value (required (enum ["income"; "expense"] (field "type" TString)))
               now obj _ "type" (JStr t) (BStr t) eq_refl)
      by (first [now rewrite Hobj by discriminate | reflexivity]).
    rewrite (setPath_value (required (field "date" TDate)) now obj _ "date" (JNum n)
               (BDate n) eq_refl)
      by (first [now rewrite Hobj by discriminate | cbn; now rewrite Hn]).
    rewrite (setPath_value (required (field "category" TString)) now obj _ "category"
               (JStr (String c1 s1)) (BStr (String c1 s1)) eq_refl)
      by (first [now rewrite Hobj by discriminate | reflexivity]).
    rewrite (setPath_value (required (field "description" TString)) now obj _ "description"
               (JStr (String c2 s2)) (BStr (String c2 s2)) eq_refl)
      by (first [now rewrite Hobj by discriminate | reflexivity]).
    rewrite (setPath_value (min 0 (required (field "amount" TNumber))) now obj _ "amount"
               (JNum a) (BNum a) eq_refl)
      by (first [now rewrite Hobj by discriminate | reflexivity]).
    rewrite (setPath_default (withDefault dateNow (field "createdAt" TDate)) now obj _
               "createdAt" dateNow eq_refl)
      by (first [now rewrite Hobj by discriminate | reflexivity]).
    rewrite (setPath_default (withDefault dateNow (field "updatedAt" TDate)) now obj _
               "updatedAt" dateNow eq_refl)
      by (first [now rewrite Hobj by discriminate | reflexivity]).
    assert (Hinvoiced : exists b,
               forall d, setPath (withDefault (fun _ => BStr "") (field "invoiceNumber" TString))
                           now obj d
                         = mkDocument (<["invoiceNumber" := BStr b]> (fields d)) (castErrors d)).
    { destruct Hinvoice as [Hinvoice | [s4 Hinvoice]].
      - exists "". intros d.
        apply (setPath_default (withDefault (fun _ => BStr "") (field "invoiceNumber" TString)) now obj d
                 "invoiceNumber" (fun _ => BStr "") eq_refl); [|reflexivity].
        now rewrite Hobj by discriminate.
      - exists s4. intros d.
        apply (setPath_value (withDefault (fun _ => BStr "") (field "invoiceNumber" TString)) now obj d
                 "invoiceNumber" (JStr s4) (BStr s4) eq_refl); [|reflexivity].
        now rewrite Hobj by discriminate. }
    destruct Hinvoiced as [invoice ->].
    repeat (apply elem_of_cons in Ht as [-> | Ht]); [| |now apply elem_of_nil in Ht].
    - rewrite bool_decide_eq_true_2 in Hcustomer by exact Htype.
      apply isText_inv in Hcustomer as (c3 & s3 & Hcustomer).
      rewrite (setPath_value
                 (requiredIf (fun this => bool_decide (this !! "type" = Some (BStr "income")))
                    (field "customerName" TString)) now obj _ "customerName"
                 (JStr (String c3 s3)) (BStr (String c3 s3)) eq_refl)
        by (first [now rewrite Hobj by discriminate | reflexivity]).
      document_is_valid a Ha.
    - rewrite bool_decide_eq_false_2 in Hcustomer by (rewrite Htype; discriminate).
      apply isTextOrAbsent_inv in Hcustomer as [Hcustomer | [s3 Hcustomer]].
      + rewrite (setPath_absent
                   (requiredIf (fun this => bool_decide (this !! "type" = Some (BStr "income")))
                      (field "customerName" TString)) now obj)
          by (first [now rewrite Hobj by discriminate | reflexivity]).
        document_is_valid a Ha.
      + rewrite (setPath_value
                   (requiredIf (fun this => bool_decide (this !! "type" = Some (BStr "income")))
                      (field "customerName" TString)) now obj _ "customerName"
                   (JStr s3) (BStr s3) eq_refl)
          by (first [now rewrite Hobj by discriminate | reflexivity]).
        document_is_valid a Ha. }
  destruct Hdoc as (F & -> & HF & Hvalid).
  rewrite (save_goes_through transactionSchema now _ _ _ (newObjectId db) Hvalid);
    [reflexivity | |].
  - cbn [preSave transactionSchema fields]. unfold touchUpdatedAt.
    now rewrite lookup_insert_ne by discriminate.
  - unfold duplicateKey. cbn [uniqueIndexes transactionSchema existsb].
    rewrite (fresh_id_is_no_duplicate _ (newObjectId db)); [reflexivity | | exact Hfresh].
    cbn [preSave transactionSchema fields]. unfold touchUpdatedAt.
    now rewrite lookup_insert_ne by discriminate.
Qed.

(** A well-formed balance item of a caller with an identifier is stored. *)
Lemma post_balance_items_goes_through (claim : option json) (id : ObjectId) (now : Z)
    (db : DB) (req : Request) :
  stamp claim = Some (BOid id) ->
  wellFormed PostBalanceItems (body req) = true ->
  Forall (fun d : Doc => d !! "_id" ≠ Some (BOid (newObjectId db))) (balanceItems db) ->
  status (fst (post_balance_items claim now db req)) = 201.
Proof.
  intros Hstamp Hwf Hfresh.
  destruct claim as [v|]; [|discriminate Hstamp]. cbn [stamp mbind option_bind] in Hstamp.
  unfold wellFormed in Hwf.
  apply andb_prop in Hwf as [Hwf Hupdated%bool_decide_eq_true].
  apply andb_prop in Hwf as [Hwf Hcreated%bool_decide_eq_true].
  apply andb_prop in Hwf as [Hwf (a & Hamount & Ha)%isAmount_inv].
  apply andb_prop in Hwf as [Hwf (c2 & s2 & Hdescription)%isText_inv].
  apply andb_prop in Hwf as [Hwf (c1 & s1 & Hcategory)%isText_inv].
  apply andb_prop in Hwf as [Hwf (n & Hdate & Hn)%isTime_inv].
  apply andb_prop in Hwf as [Hid%bool_decide_eq_true (t & Htype & Ht)%isOneOf_inv].
  unfold post_balance_items. cbv zeta.
  set (obj := <["userId" := v]> (body req)).
  assert (Huser : obj !! "userId" = Some v) by apply lookup_insert_eq.
  assert (Hobj : forall k, k ≠ "userId" -> obj !! k = body req !! k).
  { intros k Hk. apply lookup_insert_ne. congruence. }
  assert (Hdoc : exists F,
             construct balanceItemSchema now (newObjectId db) obj = mkDocument F [] ∧
             F !! "_id" = Some (BOid (newObjectId db)) ∧
             validate balanceItemSchema (mkDocument F []) = []).
  { unfold construct. rewrite (Hobj "_id"), Hid by discriminate.
    cbn [paths balanceItemSchema fold_left].
    rewrite (setPath_value (required (field "userId" TObjectId)) now obj _ "userId" v
               (BOid id) eq_refl Huser Hstamp).
    rewrite (setPath_value
               (required (enum ["asset"; "liability"; "equity"] (field "type" TString)))
               now obj _ "type" (JStr t) (BStr t) eq_refl)
      by (first [now rewrite Hobj by discriminate | reflexivity]).
    rewrite (setPath_value (required (field "date" TDate)) now obj _ "date" (JNum n)
               (BDate n) eq_refl)
      by (first [now rewrite Hobj by discriminate | cbn; now rewrite Hn]).
    rewrite (setPath_value (required (field "category" TString)) now obj _ "category"
               (JStr (String c1 s1)) (BStr (String c1 s1)) eq_refl)
      by (first [now rewrite Hobj by discriminate | reflexivity]).
    rewrite (setPath_value (required (field "description" TString)) now obj _ "description"
               (JStr (String c2 s2)) (BStr (String c2 s2)) eq_refl)
      by (first [now rewrite Hobj by discriminate | reflexivity]).
    rewrite (setPath_value (min 0 (required (field "amount" TNumber))) now obj _ "amount"
               (JNum a) (BNum a) eq_refl)
      by (first [now rewrite Hobj by discriminate | reflexivity]).
    rewrite (setPath_default (withDefault dateNow (field "createdAt" TDate)) now obj _
               "createdAt" dateNow eq_refl)
      by (first [now rewrite Hobj by discriminate | reflexivity]).
    rewrite (setPath_default (withDefault dateNow (field "updatedAt" TDate)) now obj _
               "updatedAt" dateNow eq_refl)
      by (first [now rewrite Hobj by discriminate | reflexivity]).
    repeat (apply elem_of_cons in Ht as [-> | Ht]); [| | |now apply elem_of_nil in Ht];
      document_is_valid a Ha. }
  destruct Hdoc as (F & -> & HF & Hvalid).
  rewrite (save_goes_through balanceItemSchema now _ _ _ (newObjectId db) Hvalid);
    [reflexivity | |].
  - cbn [preSave balanceItemSchema fields]. unfold touchUpdatedAt.
    now rewrite lookup_insert_ne by discriminate.
  - unfold duplicateKey. cbn [uniqueIndexes balanceItemSchema existsb].
    rewrite (fresh_id_is_no_duplicate _ (newObjectId db)); [reflexivity | | exact Hfresh].
    cbn [preSave balanceItemSchema fields]. unfold touchUpdatedAt.
    now rewrite lookup_insert_ne by discriminate.
Qed.

(** A category the caller does not have yet, of a caller with an
    identifier, is stored. *)
Lemma post_categories_goes_through (claim : option json) (id : ObjectId) (now : Z)
    (db : DB) (req : Request) :
  plain claim = true ->
  stamp claim = Some (BOid id) ->
  wellFormed PostCategories (body req) = true ->
  vacant PostCategories claim db (body req) ->
  status (fst (post_categories claim now db req)) = 201.
Proof.
  intros Hplain Hstamp Hwf [Hfresh Hnew].
  destruct claim as [v|]; [|discriminate Hstamp].
  unfold wellFormed in Hwf. apply andb_prop in Hwf as [(t & Htype & Ht)%isOneOf_inv Hname].
  destruct (body req !! "name") as [[| | |n| | |]|] eqn:Hn; try discriminate Hname.
  apply negb_true_iff in Hname. rewrite Htype in Hnew. rewrite Hstamp in Hnew.
  cbn [stamp mbind option_bind] in Hstamp. cbn [created] in Hfresh.
  assert (Hk : castValue (required (field "userId" TObjectId)) v = Some (BOid id))
    by exact Hstamp.
  unfold post_categories. rewrite Htype, Hn.
  assert (Htruthy : (negb (truthy (Some (JStr t))) || negb (truthy (Some (JStr n))))%bool
                    = false).
  { destruct n as [|c n]; [discriminate Hname |].
    repeat (apply elem_of_cons in Ht as [-> | Ht]); [reflexivity | reflexivity |].
    now apply elem_of_nil in Ht. }
  rewrite Htruthy.
  assert (Hfind : findOne categorySchema
                    [("userId", v); ("type", JStr t); ("name", JStr n)] (categories db)
                  = Ok None).
  { unfold findOne. cbn [castFilter].
    assert (Huser : castCondition categorySchema "userId" v = Ok (equals "userId" (BOid id))).
    { unfold castCondition.
      cbn [lookupPath String.eqb Ascii.eqb Bool.eqb categorySchema paths List.find pname
           required requiredIf field from_option].
      rewrite Hk. now destruct v. }
    rewrite Huser.
    cbn [bind castCondition lookupPath String.eqb Ascii.eqb Bool.eqb categorySchema paths
         List.find pname required requiredIf enum trimmed field from_option castValue ptype
         applySetters plowercase ptrim].
    f_equal. apply find_none_of. intros d Hd.
    apply (proj1 (Forall_forall _ _) Hnew) in Hd.
    apply not_true_is_false. intros Hmatch. apply Hd.
    apply andb_prop in Hmatch as [Hu Hmatch]. apply andb_prop in Hmatch as [Hty Hmatch].
    apply andb_prop in Hmatch as [Hnm _].
    unfold equals in Hu, Hty, Hnm.
    apply bool_decide_eq_true in Hu, Hty, Hnm. auto. }
  rewrite Hfind. cbn [bind]. cbv zeta.
  set (obj := literal [("userId", Some v); ("type", Some (JStr t)); ("name", Some (JStr n));
                       ("isDefault", Some (JBool false))]).
  assert (Hdoc : exists F,
             construct categorySchema now (newObjectId db) obj = mkDocument F [] ∧
             F !! "_id" = Some (BOid (newObjectId db)) ∧
             F !! "userId" = Some (BOid id) ∧ F !! "type" = Some (BStr t) ∧
             F !! "name" = Some (BStr (trim n)) ∧
             validate categorySchema (mkDocument F []) = []).
  { unfold construct.
    assert (Hid : obj !! "_id" = None).
    { unfold obj. cbn [literal fold_right]. rewrite !lookup_insert_ne by discriminate.
      apply lookup_empty. }
    rewrite Hid. cbn [paths categorySchema fold_left].
    rewrite (setPath_value (required (field "userId" TObjectId)) now obj _ "userId" v
               (BOid id) eq_refl)
      by (first [apply lookup_insert_eq | exact Hk]).
    rewrite (setPath_value (required (enum ["income"; "expense"] (field "type" TString)))
               now obj _ "type" (JStr t) (BStr t) eq_refl)
      by (first [unfold obj; cbn [literal fold_right];
                 rewrite !lookup_insert_ne by discriminate; apply lookup_insert_eq
                | reflexivity]).
    rewrite (setPath_value (trimmed (required (field "name" TString)))
               now obj _ "name" (JStr n) (BStr (trim n)) eq_refl)
      by (first [unfold obj; cbn [literal fold_right];
                 rewrite !lookup_insert_ne by discriminate; apply lookup_insert_eq
                | reflexivity]).
    rewrite (setPath_value (withDefault (fun _ => BBool false) (field "isDefault" TBoolean))
               now obj _ "isDefault" (JBool false) (BBool false) eq_refl)
      by (first [unfold obj; cbn [literal fold_right];
                 rewrite !lookup_insert_ne by discriminate; apply lookup_insert_eq
                | reflexivity]).
    rewrite (setPath_default (withDefault dateNow (field "createdAt" TDate)) now obj _
               "createdAt" dateNow eq_refl)
      by (first [unfold obj; cbn [literal fold_right];
                 rewrite !lookup_insert_ne by discriminate; apply lookup_empty
                | reflexivity]).
    cbn [fields castErrors]. eexists. split; [reflexivity |].
    split; [rewrite !lookup_insert_ne by discriminate; apply lookup_singleton_eq |].
    split; [rewrite !lookup_insert_ne by discriminate; apply lookup_insert_eq |].
    split; [rewrite !lookup_insert_ne by discriminate; apply lookup_insert_eq |].
    split; [rewrite !lookup_insert_ne by discriminate; apply lookup_insert_eq |].
    clear -Ht Hname. destruct (trim n) as [|c label]; [discriminate Hname |].
    repeat (apply elem_of_cons in Ht as [-> | Ht]);
      [vm_compute; reflexivity | vm_compute; reflexivity | now apply elem_of_nil in Ht]. }
  destruct Hdoc as (F & -> & HF & Howner & Hkind & Hlabel & Hvalid).
  rewrite (save_goes_through categorySchema now _ _ _ (newObjectId db) Hvalid);
    [reflexivity | exact HF |].
  cbn [preSave categorySchema fields].
  unfold duplicateKey. cbn [uniqueIndexes categorySchema existsb].
  rewrite (fresh_id_is_no_duplicate _ (newObjectId db) _ HF Hfresh). cbn [orb].
  rewrite orb_false_r. apply not_true_is_false. intros [d [Hin Heq]]%existsb_exists.
  apply bool_decide_eq_true in Heq. unfold indexKey in Heq. cbn [fmap list_fmap] in Heq.
  rewrite Howner, Hkind, Hlabel in Heq. injection Heq as Hu Hty Hnm.
  apply (proj1 (Forall_forall _ _) Hnew d); [now apply list_elem_of_In | auto].
Qed.

(** C1. Whatever the payload of a [POST /transactions], [POST
    /balance-items] or [POST /categories] that the guard lets through, a
    [userId] field included. (1) When [req.userId] is a string, a number
    or a boolean, as in every token the server signs, its stamp is the
    identifier of the user the guard attached. (2) A response 201 means
    that exactly one record was added to the collection, the one the
    driver inserts for the document sent back, and both carry the stamp
    of [req.userId] as their [userId], whatever the payload says.
    (3) Any other response leaves the store as it was. (4) A well-formed
    payload, on a store with room for the record, is answered 201. *)
Theorem create_stamps_caller (env : Env) (route : Route) (now : Z) (db : DB) (req : Request)
    (claim : option json) (user : Doc)
    (Hroute : isCreate route = true)
    (Hauth : attached (authenticate env now db req) = Some (claim, user)) :
  let res := fst (serve env route now db req) in
  let db' := snd (serve env route now db req) in
  (plain claim = true ->
   exists id, stamp claim = Some (BOid id) ∧ user !! "_id" = Some (BOid id)) ∧
  (status res = 201 ->
   exists sent,
     data res = Some (DataDoc sent) ∧
     created route db' = (created route db ++ [inserted (newObjectId db) sent])%list ∧
     sent !! "userId" = stamp claim ∧
     inserted (newObjectId db) sent !! "userId" = stamp claim) ∧
  (status res ≠ 201 -> db' = db) ∧
  (plain claim = true -> wellFormed route (body req) = true ->
   vacant route claim db (body req) ->
   status res = 201).
Proof.
  intros res db'. subst res db'.
  destruct (authenticate_attached _ _ _ _ _ _ Hauth) as [_ Hidentity].
  split; [exact Hidentity |].
  pose proof (create_adds_stamped env route now db req claim user Hroute Hauth) as Hsafe.
  split; [|split].
  - intros Hstatus. destruct Hsafe as [[Hnot _] | [_ Hsent]]; [contradiction | exact Hsent].
  - intros Hstatus. destruct Hsafe as [[_ Hsame] | [Hcreated _]]; [exact Hsame | contradiction].
  - intros Hplain Hwf Hvacant. destruct (Hidentity Hplain) as (id & Hstamp & _).
    destruct route; try discriminate Hroute; cbn [serve];
      rewrite (protected_attached _ _ _ _ _ _ _ Hauth).
    + apply (post_transactions_goes_through claim id); [exact Hstamp | exact Hwf |].
      exact (proj1 Hvacant).
    + apply (post_balance_items_goes_through claim id); [exact Hstamp | exact Hwf |].
      exact (proj1 Hvacant).
    + now apply (post_categories_goes_through claim id).
Qed.

End Creation.

(** ** The update of a transaction *)

Section Update.
Context `{Platform}.

(** Keys other than [k], none of them an operator, leave [k] alone. *)
Lemma castUpdateKeys_other (sch : Schema) (l : list (string * json)) (k : string)
    (change : Doc -> Doc) (d : Doc) :
  Forall (fun kv => fst kv ≠ k ∧ startsWith "$" (fst kv) = false) l ->
  castUpdateKeys sch l = Ok change ->
  change d !! k = d !! k.
Proof.
  intros Hl. revert change d.
  induction Hl as [|[k' v'] l [Hk Hop] _ IH]; intros change d; cbn [castUpdateKeys].
  - now intros [= <-].
  - unfold castUpdateKey. cbn [fst] in Hk, Hop. rewrite Hop.
    destruct (lookupPath sch k') as [p|].
    + destruct (castValue p v') as [b|]; [|discriminate]. cbn [bind].
      destruct (castUpdateKeys sch l) as [g|]; [|discriminate]. cbn [bind].
      intros [= <-]. rewrite (IH g) by reflexivity. now apply lookup_insert_ne.
    + cbn [bind]. destruct (castUpdateKeys sch l) as [g|]; [|discriminate]. cbn [bind].
      intros [= <-]. now apply IH.
Qed.

(** Without operators, a key of the update document that is a path of
    the schema ends up set to the cast of its value. *)
Lemma castUpdateKeys_sets (sch : Schema) (l : list (string * json)) (k : string) (v : json)
    (p : SchemaPath) (b : bson) (change : Doc -> Doc) (d : Doc) :
  NoDup (l.*1) ->
  Forall (fun kv => startsWith "$" (fst kv) = false) l ->
  (k, v) ∈ l ->
  lookupPath sch k = Some p -> castValue p v = Some b ->
  castUpdateKeys sch l = Ok change ->
  change d !! k = Some b.
Proof.
  intros Hnodup Hops Hin Hp Hb. revert change d.
  induction l as [|[k' v'] l IH]; intros change d; [set_solver |].
  cbn [castUpdateKeys].
  apply NoDup_cons in Hnodup as [Hfresh Hnodup].
  apply Forall_cons in Hops as [Hop Hops]. cbn [fst] in Hop.
  destruct (castUpdateKey sch k' v') as [f|] eqn:Hf; [|discriminate]. cbn [bind].
  destruct (castUpdateKeys sch l) as [g|] eqn:Hg; [|discriminate]. cbn [bind].
  intros [= <-].
  apply elem_of_cons in Hin as [[= <- <-] | Hin].
  - unfold castUpdateKey in Hf. rewrite Hop, Hp, Hb in Hf. injection Hf as <-.
    assert (Hrest : Forall (fun kv => fst kv ≠ k ∧ startsWith "$" (fst kv) = false) l).
    { apply Forall_forall. intros [k2 v2] Hkv. split.
      - cbn [fst]. intros ->. apply Hfresh. now apply (list_elem_of_fmap_2 fst) in Hkv.
      - exact (proj1 (Forall_forall _ _) Hops _ Hkv). }
    rewrite (castUpdateKeys_other sch l k g _ Hrest Hg). apply lookup_insert_eq.
  - now apply (IH Hnodup Hops Hin g).
Qed.

(** Without operators, an update document that casts has a value that
    casts for each of its keys that is a path of the schema. *)
Lemma castUpdateKeys_casts (sch : Schema) (l : list (string * json)) (k : string) (v : json)
    (p : SchemaPath) (change : Doc -> Doc) :
  Forall (fun kv => startsWith "$" (fst kv) = false) l ->
  (k, v) ∈ l ->
  lookupPath sch k = Some p ->
  castUpdateKeys sch l = Ok change ->
  exists b, castValue p v = Some b.
Proof.
  intros Hops Hin Hp. revert change.
  induction l as [|[k' v'] l IH]; intros change; [set_solver |].
  cbn [castUpdateKeys].
  apply Forall_cons in Hops as [Hop Hops]. cbn [fst] in Hop.
  destruct (castUpdateKey sch k' v') as [f|] eqn:Hf; [|discriminate]. cbn [bind].
  destruct (castUpdateKeys sch l) as [g|] eqn:Hg; [|discriminate]. intros _.
  apply elem_of_cons in Hin as [[= <- <-] | Hin].
  - unfold castUpdateKey in Hf. rewrite Hop, Hp in Hf.
    destruct (castValue p v) as [b|]; [eauto | discriminate].
  - now apply (IH Hops Hin g).
Qed.

Lemma replaceFirst_elem (cond : Doc -> bool) (d d' : Doc) (coll : list Doc) :
  List.find cond coll = Some d -> d' ∈ replaceFirst cond d' coll.
Proof.
  induction coll as [|x coll IH]; cbn; [discriminate |].
  destruct (cond x); [set_solver |]. intros Hfind. apply elem_of_cons. right. now apply IH.
Qed.

(** After the guard, a [PUT /transactions/:id] answered 200 whose body
    names an identifier as [userId], and has no operators, leaves the
    record with that [userId], not with the caller's. *)
Lemma put_sets_owner_from_body (env : Env) (now : Z) (db db' : DB) (req : Request)
    (res : Response) (ctx : AuthContext) (v : string) (other : ObjectId) :
  authenticate env now db req = Next ctx ->
  body req !! "userId" = Some (JStr v) ->
  parseObjectId v = Some other ->
  (forall k, startsWith "$" k = true -> body req !! k = None) ->
  serve env PutTransactionsId now db req = (res, db') ->
  status res = 200 ->
  exists updated,
    data res = Some (DataDoc updated) ∧
    updated ∈ transactions db' ∧
    updated !! "userId" = Some (BOid other).
Proof.
  intros Hauth Hbody Hparse Hplain Hserve Hstatus.
  unfold serve, protected in Hserve. rewrite Hauth in Hserve.
  unfold put_transactions_id, findOneAndUpdate in Hserve.
  destruct (castFilter _ _) as [cond|]; cbn [bind catch500] in Hserve;
    [|injection Hserve as <- <-; discriminate].
  destruct (castUpdate _ _) as [change|] eqn:Hchange; cbn [bind catch500] in Hserve;
    [|injection Hserve as <- <-; discriminate].
  destruct (List.find cond (transactions db)) as [d|] eqn:Hfind;
    cbn [bind catch500] in Hserve; [|injection Hserve as <- <-; discriminate].
  destruct (bool_decide _); cbn [bind catch500] in Hserve;
    [|injection Hserve as <- <-; discriminate].
  injection Hserve as <- <-. eexists. split; [reflexivity |].
  split; [exact (replaceFirst_elem _ _ _ _ Hfind) |].
  unfold castUpdate in Hchange.
  eapply (castUpdateKeys_sets transactionSchema _ "userId" (JStr v)
            (required (field "userId" TObjectId)));
    [apply NoDup_fst_map_to_list | | | reflexivity | | exact Hchange].
  - apply Forall_forall. intros [k x] Hkx%elem_of_map_to_list. cbn [fst].
    destruct (startsWith "$" k) eqn:Hop; [|reflexivity].
    rewrite lookup_insert_ne in Hkx by (intros <-; discriminate Hop).
    rewrite (Hplain k Hop) in Hkx. discriminate.
  - apply elem_of_map_to_list. now rewrite lookup_insert_ne.
  - unfold castValue. cbn. now rewrite Hparse.
Qed.

End Update.

(** ** Registration *)

Section Registration.
Context `{Platform}.

(** The value of the first path of a schema in a new document. *)
Lemma construct_first (sch : Schema) (now : Z) (fresh : ObjectId) (obj : object)
    (p : SchemaPath) (rest : list SchemaPath) (v : json) (b : bson) :
  paths sch = p :: rest ->
  Forall (fun q => pname q ≠ pname p) rest ->
  obj !! pname p = Some v ->
  castValue p v = Some b ->
  fields (construct sch now fresh obj) !! pname p = Some b.
Proof.
  intros Hpaths Hrest Hobj Hcast. unfold construct. rewrite Hpaths. cbn [fold_left].
  rewrite (setPaths_other _ _ _ _ _ Hrest). now apply (setPath_cast p _ _ _ v).
Qed.

Lemma createCategory_users (now : Z) (obj : object) (db db' : DB) :
  createCategory now obj db = Ok db' -> users db' = users db.
Proof.
  unfold createCategory. destruct (save _ _ _ _) as [[saved coll]|]; [|discriminate].
  intros [= <-]. reflexivity.
Qed.

Lemma createDefaults_users (now : Z) (userId : ObjectId) (type : string)
    (names : list string) (db : DB) :
  users (fst (createDefaults now userId type names db)) = users db.
Proof.
  revert db. induction names as [|name names IH]; intros db; [reflexivity |].
  cbn [createDefaults]. destruct (createCategory _ _ _) as [db'|] eqn:Hcreate; [|reflexivity].
  rewrite IH. now apply createCategory_users in Hcreate.
Qed.

Lemma createDefaultCategories_users (now : Z) (userId : ObjectId) (db : DB) :
  users (createDefaultCategories now userId db) = users db.
Proof.
  unfold createDefaultCategories.
  pose proof (createDefaults_users now userId "income" defaultIncomeCategories db) as H1.
  destruct (createDefaults now userId "income" defaultIncomeCategories db) as [db1 [e|]];
    cbn [fst] in H1; [exact H1 |].
  now rewrite createDefaults_users.
Qed.

(** The lookup of registration and login: the first user whose stored
    email is the one asked for. *)
Lemma findOne_email (email : string) (coll : list Doc) :
  findOne userSchema [("email", JStr email)] coll =
  Ok (List.find (fun u => bool_decide (u !! "email" = Some (BStr email))) coll).
Proof.
  unfold findOne. cbn. f_equal.
  apply find_ext. intros u. now rewrite andb_true_r.
Qed.

(** A registration answered 201 has stored a user under the lower-cased
    email. *)
Lemma register_stores_lowercase (now : Z) (db db' : DB) (req : Request) (res : Response) :
  post_register now db req = (res, db') -> status res = 201 ->
  exists email saved,
    body req !! "email" = Some (JStr email) ∧
    users db' = (users db ++ [saved])%list ∧
    saved !! "email" = Some (BStr (toLowerCase email)).
Proof.
  unfold post_register. intros Hreg Hstatus.
  destruct (_ || _)%bool; [injection Hreg as <- <-; discriminate |].
  destruct (lengthBelow _ _) as [[]|]; cbn [bind catch500] in Hreg;
    try (injection Hreg as <- <-; discriminate).
  destruct (body req !! "email") as [[| | |email| | |]|];
    try (injection Hreg as <- <-; discriminate).
  cbn [toLowerCaseOf bind] in Hreg. rewrite findOne_email in Hreg. cbn [bind] in Hreg.
  destruct (List.find _ (users db)); [injection Hreg as <- <-; discriminate |].
  assert (Hid : literal [("email", Some (JStr (toLowerCase email)));
                         ("password", body req !! "password")] !! "_id" = None).
  { cbn [literal fold_right]. destruct (body req !! "password");
      rewrite !lookup_insert_ne by discriminate; apply lookup_empty. }
  assert (Hemail : fields (construct userSchema now (newObjectId db)
                     (literal [("email", Some (JStr (toLowerCase email)));
                               ("password", body req !! "password")])) !! "email"
                   = Some (BStr (toLowerCase email))).
  { eapply (construct_first userSchema _ _ _ (required (field "email" TString)));
      [reflexivity | | apply lookup_insert_eq | reflexivity].
    repeat (constructor; [discriminate |]). constructor. }
  assert (Hfresh : fields (construct userSchema now (newObjectId db)
                     (literal [("email", Some (JStr (toLowerCase email)));
                               ("password", body req !! "password")])) !! "_id"
                   = Some (BOid (newObjectId db))).
  { apply construct_id; [exact Hid |]. repeat (constructor; [discriminate |]). constructor. }
  destruct (save userSchema _ _ _ _) as [[saved coll]|] eqn:Hsave;
    cbn [bind catch500] in Hreg; [|injection Hreg as <- <-; discriminate].
  destruct (docId saved) as [id|]; cbn [ofOption bind catch500] in Hreg;
    [|injection Hreg as <- <-; discriminate].
  injection Hreg as <- <-.
  apply save_ok in Hsave as (_ & -> & ->).
  exists email. eexists. split; [reflexivity |].
  split; [now rewrite createDefaultCategories_users |].
  rewrite inserted_other by discriminate.
  cbn [preSave userSchema].
  destruct (fields _ !! "password") as [[]|]; try exact Hemail.
  rewrite lookup_insert_ne by discriminate. exact Hemail.
Qed.

(** Registering an email that a stored user already has, up to letter
    case, stores nothing and is not answered 201: the answer is 400
    unless reading the length of the password throws, and with a
    password that passes the checks it is the duplicate one. *)
Lemma register_duplicate (now : Z) (db : DB) (req : Request) (email : string) (u : Doc) :
  body req !! "email" = Some (JStr email) ->
  u ∈ users db -> u !! "email" = Some (BStr (toLowerCase email)) ->
  exists res,
    post_register now db req = (res, db) ∧
    status res ≠ 201 ∧
    ((forall e, lengthBelow (body req !! "password") 4 ≠ Throw e) -> status res = 400) ∧
    (email ≠ "" -> truthy (body req !! "password") = true ->
     lengthBelow (body req !! "password") 4 = Ok false ->
     res = failure 400 "Email sudah terdaftar").
Proof.
  intros Hemail Hu Hstored. unfold post_register. rewrite Hemail.
  destruct email as [|c email].
  { eexists. split; [reflexivity |]. split; [discriminate |].
    split; [reflexivity | congruence]. }
  cbn [truthy negb orb].
  destruct (truthy (body req !! "password")).
  2:{ eexists. split; [reflexivity |]. split; [discriminate |].
      split; [reflexivity | congruence]. }
  cbn [negb]. destruct (lengthBelow _ _) as [[]|e]; cbn [bind catch500].
  { eexists. split; [reflexivity |]. split; [discriminate |].
    split; [reflexivity | congruence]. }
  2:{ eexists. split; [reflexivity |]. split; [discriminate |].
      split; [|congruence]. intros Hnone. now destruct (Hnone e). }
  cbn [toLowerCaseOf bind]. rewrite findOne_email. cbn [bind].
  destruct (find_some_of
              (fun u => bool_decide (u !! "email" = Some (BStr (toLowerCase (String c email)))))
              (users db) u Hu) as [found ->]; [now apply bool_decide_eq_true |].
  eexists. split; [reflexivity |]. split; [discriminate |]. split; reflexivity.
Qed.

(** Only registration writes to the users, and it only adds. *)
Lemma handlers_keep_users (claim : option json) (now : Z) (db db' : DB) (req : Request)
    (res : Response) (handler : option json -> Z -> DB -> Request -> Response * DB) :
  handler ∈ [get_dashboard; get_transactions; post_transactions; put_transactions_id;
             delete_transactions_id; get_balance_items; post_balance_items; get_categories;
             post_categories; delete_categories_id] ->
  handler claim now db req = (res, db') -> users db' = users db.
Proof.
  intros Hin.
  repeat (apply elem_of_cons in Hin as [-> | Hin]); [.. | set_solver];
    unfold get_dashboard, get_transactions, post_transactions, put_transactions_id,
      delete_transactions_id, get_balance_items, post_balance_items, get_categories,
      post_categories, delete_categories_id, catch500, bind;
    intros Hserve; repeat case_match; simplify_eq; reflexivity.
Qed.

Lemma register_keeps_users (now : Z) (db db' : DB) (req : Request) (res : Response) (u : Doc) :
  post_register now db req = (res, db') -> u ∈ users db -> u ∈ users db'.
Proof.
  unfold post_register. intros Hreg Hu.
  destruct (_ || _)%bool; [now injection Hreg as <- <- |].
  destruct (lengthBelow _ _) as [[]|]; cbn [bind catch500] in Hreg;
    try (now injection Hreg as <- <-).
  destruct (toLowerCaseOf _) as [lower|]; cbn [bind catch500] in Hreg;
    [|now injection Hreg as <- <-].
  destruct (findOne _ _ _) as [[existing|]|]; cbn [bind catch500] in Hreg;
    [now injection Hreg as <- <- | | now injection Hreg as <- <-].
  destruct (save _ _ _ _ _) as [[saved coll]|] eqn:Hsave; cbn [bind catch500] in Hreg;
    [|now injection Hreg as <- <-].
  destruct (docId saved); cbn [ofOption bind catch500] in Hreg;
    [|now injection Hreg as <- <-].
  injection Hreg as <- <-. rewrite createDefaultCategories_users.
  apply save_ok in Hsave as (_ & _ & ->). cbn. set_solver.
Qed.

Lemma login_keeps_users (env : Env) (now : Z) (db db' : DB) (req : Request) (res : Response) :
  post_login env now db req = (res, db') -> users db' = users db.
Proof.
  unfold post_login, catch500, bind. intros Hlogin.
  repeat case_match; simplify_eq; reflexivity.
Qed.

(** No request removes or changes a stored user. *)
Lemma serve_keeps_users (env : Env) (route : Route) (now : Z) (db : DB) (req : Request)
    (u : Doc) :
  u ∈ users db -> u ∈ users (snd (serve env route now db req)).
Proof.
  intros Hu.
  destruct (serve env route now db req) as [res db'] eqn:Hserve. cbn [snd].
  destruct route; cbn [serve] in Hserve;
    try (eapply register_keeps_users; eassumption);
    try (apply login_keeps_users in Hserve as ->; exact Hu);
    unfold protected in Hserve;
    (destruct (authenticate env now db req) as [rejected|ctx|claim user];
     [now injection Hserve as <- <- | |]);
    (erewrite handlers_keep_users; [exact Hu | | exact Hserve]);
    set_solver.
Qed.

Lemma serveAll_keeps_users (env : Env) (trace : list (Route * Z * Request)) (db : DB)
    (u : Doc) :
  u ∈ users db -> u ∈ users (serveAll env trace db).
Proof.
  revert db. induction trace as [|[[route now] req] trace IH]; intros db Hu; [exact Hu |].
  cbn [serveAll]. apply IH. now apply serve_keeps_users.
Qed.

(** C7. Registration lower-cases the email where it stores the user
    and where it looks for a duplicate. Once an email is registered
    (201), the user is stored under the lower-cased email; then,
    whatever requests are served in between, registering an email equal
    to it up to letter case creates no user record and is not answered
    201: the answer is 400 unless reading the length of the password
    throws, and with a password that passes the checks it is 400 "Email
    sudah terdaftar". *)
Theorem register_rejects_case_variant (env : Env) (now1 now2 : Z) (db db1 : DB)
    (req1 req2 : Request) (res1 : Response) (email1 email2 : string)
    (between : list (Route * Z * Request))
    (Hemail1 : body req1 !! "email" = Some (JStr email1))
    (Hemail2 : body req2 !! "email" = Some (JStr email2))
    (Hcase : toLowerCase email1 = toLowerCase email2)
    (Hfirst : post_register now1 db req1 = (res1, db1))
    (Hcreated : status res1 = 201) :
  let db2 := serveAll env between db1 in
  let password := body req2 !! "password" in
  (exists saved,
     users db1 = (users db ++ [saved])%list ∧
     saved !! "email" = Some (BStr (toLowerCase email1))) ∧
  exists res2,
    post_register now2 db2 req2 = (res2, db2) ∧
    status res2 ≠ 201 ∧
    ((forall e, lengthBelow password 4 ≠ Throw e) -> status res2 = 400) ∧
    (truthy password = true -> lengthBelow password 4 = Ok false ->
     res2 = failure 400 "Email sudah terdaftar").
Proof.
  intros db2 password.
  destruct (register_stores_lowercase _ _ _ _ _ Hfirst Hcreated)
    as (email & saved & Hemail & Husers & Hsaved).
  assert (email = email1) as -> by congruence.
  split; [eauto |].
  destruct (register_duplicate now2 db2 req2 email2 saved Hemail2)
    as (res2 & Hreg & Hnot & Hstatus & Hmsg).
  - apply serveAll_keeps_users. rewrite Husers. set_solver.
  - now rewrite <- Hcase.
  - exists res2. split; [exact Hreg |]. split; [exact Hnot |]. split; [exact Hstatus |].
    intros Hpw Hlen. apply Hmsg; [|exact Hpw | exact Hlen].
    intros ->. pose proof (toLowerCase_text email1 Hcase) as ->.
    unfold post_register in Hfirst. rewrite Hemail1 in Hfirst.
    injection Hfirst as <- _. discriminate Hcreated.
Qed.

End Registration.

(** ** Default categories *)

Section DefaultCategories.
Context `{Platform}.

Lemma authenticate_rejected (env : Env) (now : Z) (db : DB) (req : Request) (res : Response) :
  authenticate env now db req = Rejected res -> status res = 401 ∧ success res = false.
Proof.
  unfold authenticate.
  destruct (authorization req) as [header|]; [|intros [= <-]; auto].
  destruct (_ || _)%bool; [intros [= <-]; auto |].
  destruct (verifyToken _ _ _) as [claims|]; [|intros [= <-]; auto].
  destruct (findById _ _ _) as [[user|]|]; [|intros [= <-]; auto ..].
  unfold attach. now destruct (userId claims) as [[]|].
Qed.

Lemma createCategory_categories (now : Z) (obj : object) (db db' : DB) (c : Doc) :
  createCategory now obj db = Ok db' -> c ∈ categories db -> c ∈ categories db'.
Proof.
  unfold createCategory.
  destruct (save _ _ _ _ _) as [[saved coll]|] eqn:Hsave; [|discriminate].
  intros [= <-] Hc. apply save_ok in Hsave as (_ & _ & ->). cbn. set_solver.
Qed.

Lemma createDefaults_categories (now : Z) (userId : ObjectId) (type : string)
    (names : list string) (db : DB) (c : Doc) :
  c ∈ categories db -> c ∈ categories (fst (createDefaults now userId type names db)).
Proof.
  revert db. induction names as [|name names IH]; intros db Hc; [exact Hc |].
  cbn [createDefaults]. destruct (createCategory _ _ _) as [db'|] eqn:Hcreate; [|exact Hc].
  apply IH. exact (createCategory_categories _ _ _ _ _ Hcreate Hc).
Qed.

Lemma createDefaultCategories_categories (now : Z) (userId : ObjectId) (db : DB) (c : Doc) :
  c ∈ categories db -> c ∈ categories (createDefaultCategories now userId db).
Proof.
  intros Hc. unfold createDefaultCategories.
  pose proof (createDefaults_categories now userId "income" defaultIncomeCategories db c Hc)
    as H1.
  destruct (createDefaults now userId "income" defaultIncomeCategories db) as [db1 [e|]];
    cbn [fst] in H1; [exact H1 |].
  now apply createDefaults_categories.
Qed.

Lemma register_keeps_categories (now : Z) (db db' : DB) (req : Request) (res : Response)
    (c : Doc) :
  post_register now db req = (res, db') -> c ∈ categories db -> c ∈ categories db'.
Proof.
  unfold post_register. intros Hreg Hc.
  destruct (_ || _)%bool; [now injection Hreg as <- <- |].
  destruct (lengthBelow _ _) as [[]|]; cbn [bind catch500] in Hreg;
    try (now injection Hreg as <- <-).
  destruct (toLowerCaseOf _) as [lower|]; cbn [bind catch500] in Hreg;
    [|now injection Hreg as <- <-].
  destruct (findOne _ _ _) as [[existing|]|]; cbn [bind catch500] in Hreg;
    [now injection Hreg as <- <- | | now injection Hreg as <- <-].
  destruct (save _ _ _ _ _) as [[saved coll]|]; cbn [bind catch500] in Hreg;
    [|now injection Hreg as <- <-].
  destruct (docId saved); cbn [ofOption bind catch500] in Hreg;
    [|now injection Hreg as <- <-].
  injection Hreg as <- <-. now apply createDefaultCategories_categories.
Qed.

Lemma login_keeps_store (env : Env) (now : Z) (db db' : DB) (req : Request) (res : Response) :
  post_login env now db req = (res, db') -> db' = db.
Proof.
  unfold post_login.
  destruct (_ || _)%bool; [now intros [= <- <-] |].
  destruct (toLowerCaseOf _); cbn [bind catch500]; [|now intros [= <- <-]].
  destruct (findOne _ _ _) as [[user|]|]; cbn [bind catch500]; try (now intros [= <- <-]).
  destruct (comparePassword _ _) as [[]|]; cbn [bind catch500 negb];
    try (now intros [= <- <-]).
  destruct (docId user); cbn [ofOption bind catch500]; [|now intros [= <- <-]].
  destruct (generateToken _ _ _); cbn [bind catch500]; now intros [= <- <-].
Qed.

(** The filter of [DELETE /categories/:id], whatever [req.userId] is. *)
Lemma delete_category_filter (id : string) (v : json) :
  castFilter categorySchema [("_id", JStr id); ("userId", v); ("isDefault", JBool false)] =
  match parseObjectId id with
  | Some id' =>
      let* owner := castCondition categorySchema "userId" v in
      Ok (fun d => equals "_id" (BOid id') d
                   && (owner d && (equals "isDefault" (BBool false) d && true)))%bool
  | None => Throw (CastError "_id")
  end.
Proof.
  cbn [castFilter]. rewrite castCondition_id.
  destruct (parseObjectId id); [|reflexivity]. cbn [bind].
  destruct (castCondition categorySchema "userId" v); reflexivity.
Qed.

Lemma delete_category_keeps_defaults (claim : option json) (now : Z) (db db' : DB)
    (req : Request) (res : Response) (c : Doc) :
  delete_categories_id claim now db req = (res, db') ->
  c ∈ categories db -> c !! "isDefault" = Some (BBool true) -> c ∈ categories db'.
Proof.
  unfold delete_categories_id, findOneAndDelete. rewrite delete_category_filter.
  intros Hdel Hc Hdefault.
  destruct (parseObjectId (params_id req)); [|now injection Hdel as <- <-].
  destruct (castCondition categorySchema "userId" _) as [owner|];
    [|now injection Hdel as <- <-].
  cbn [bind catch500] in Hdel.
  destruct (List.find _ (categories db)); injection Hdel as <- <-; [|exact Hc].
  cbn [categories withCategories]. apply removeFirst_keeps; [exact Hc |].
  unfold equals. rewrite Hdefault.
  rewrite (bool_decide_eq_false_2 (Some (BBool true) = _)) by discriminate.
  now rewrite !andb_false_r.
Qed.

(** A [DELETE /categories/:id] that names default categories only
    deletes nothing. *)
Lemma delete_default_category_fails (claim : option json) (now : Z) (db db' : DB)
    (req : Request) (res : Response) :
  delete_categories_id claim now db req = (res, db') ->
  (forall c id, c ∈ categories db ->
                parseObjectId (params_id req) = Some id ->
                c !! "_id" = Some (BOid id) ->
                c !! "isDefault" = Some (BBool true)) ->
  success res = false ∧ status res ≠ 200 ∧ db' = db.
Proof.
  unfold delete_categories_id, findOneAndDelete. rewrite delete_category_filter.
  intros Hserve Htarget.
  destruct (parseObjectId (params_id req)) as [id|] eqn:Hparse;
    [|now injection Hserve as <- <-].
  destruct (castCondition categorySchema "userId" _) as [owner|];
    [|now injection Hserve as <- <-].
  cbn [bind catch500] in Hserve.
  rewrite find_none_of in Hserve; [now injection Hserve as <- <- |].
  intros c Hc.
  destruct (decide (c !! "_id" = Some (BOid id))) as [Hid|Hid].
  - unfold equals. rewrite (Htarget c id Hc eq_refl Hid).
    rewrite (bool_decide_eq_false_2 (Some (BBool true) = _)) by discriminate.
    now rewrite !andb_false_r.
  - unfold equals. now rewrite (bool_decide_eq_false_2 (c !! "_id" = _)) by exact Hid.
Qed.

Lemma post_category_keeps_categories (claim : option json) (now : Z) (db db' : DB)
    (req : Request) (res : Response) (c : Doc) :
  post_categories claim now db req = (res, db') -> c ∈ categories db -> c ∈ categories db'.
Proof.
  unfold post_categories. intros Hpost Hc.
  destruct (body req !! "type") as [type|]; [|now injection Hpost as <- <-].
  destruct (body req !! "name") as [name|]; [|now injection Hpost as <- <-].
  destruct (_ || _)%bool; [now injection Hpost as <- <- |].
  destruct (findOne _ _ _) as [[existing|]|]; cbn [bind catch500] in Hpost;
    [now injection Hpost as <- <- | | now injection Hpost as <- <-].
  destruct (save _ _ _ _ _) as [[saved coll]|] eqn:Hsave; cbn [bind catch500] in Hpost;
    injection Hpost as <- <-; [|exact Hc].
  apply save_ok in Hsave as (_ & _ & ->). cbn. set_solver.
Qed.

(** The handlers that do not write to the categories. *)
Lemma other_handlers_keep_categories (claim : option json) (now : Z) (db db' : DB)
    (req : Request) (res : Response)
    (handler : option json -> Z -> DB -> Request -> Response * DB) :
  handler ∈ [get_dashboard; get_transactions; post_transactions; put_transactions_id;
             delete_transactions_id; get_balance_items; post_balance_items; get_categories] ->
  handler claim now db req = (res, db') -> categories db' = categories db.
Proof.
  intros Hin.
  repeat (apply elem_of_cons in Hin as [-> | Hin]); [.. | set_solver].
  - unfold get_dashboard. destruct (find _ _ _); cbn [bind catch500]; [|now intros [= <- <-]].
    destruct (find _ _ _); cbn [bind catch500]; now intros [= <- <-].
  - unfold get_transactions. destruct (find _ _ _); cbn [bind catch500]; now intros [= <- <-].
  - unfold post_transactions. destruct (save _ _ _ _ _) as [[saved coll]|];
      cbn [bind catch500]; now intros [= <- <-].
  - unfold put_transactions_id. destruct (findOneAndUpdate _ _ _ _) as [[[updated|] coll]|];
      cbn [bind catch500]; now intros [= <- <-].
  - unfold delete_transactions_id. destruct (findOneAndDelete _ _ _) as [[[deleted|] coll]|];
      cbn [bind catch500]; now intros [= <- <-].
  - unfold get_balance_items. destruct (find _ _ _); cbn [bind catch500]; now intros [= <- <-].
  - unfold post_balance_items. destruct (save _ _ _ _ _) as [[saved coll]|];
      cbn [bind catch500]; now intros [= <- <-].
  - unfold get_categories. destruct (find _ _ _); cbn [bind catch500]; now intros [= <- <-].
Qed.

(** C9. No request deletes a category flagged as default: whatever the
    route and the request, every default category of the store is still
    in the store afterwards; and a [DELETE /categories/:id] whose path
    identifier is that of a default category fails (the response is not
    a success) and leaves the store as it was, whoever the caller is. *)
Theorem default_categories_are_never_deleted (env : Env) (route : Route) (now : Z)
    (db db' : DB) (req : Request) (res : Response)
    (Hserve : serve env route now db req = (res, db')) :
  (forall c, c ∈ categories db -> c !! "isDefault" = Some (BBool true) ->
             c ∈ categories db') ∧
  (route = DeleteCategoriesId ->
   (forall c id, c ∈ categories db ->
                 parseObjectId (params_id req) = Some id ->
                 c !! "_id" = Some (BOid id) ->
                 c !! "isDefault" = Some (BBool true)) ->
   success res = false ∧ status res ≠ 200 ∧ db' = db).
Proof.
  split.
  - intros c Hc Hdefault.
    destruct route; cbn [serve] in Hserve;
      try (eapply register_keeps_categories; eassumption);
      try (apply login_keeps_store in Hserve as ->; exact Hc);
      unfold protected in Hserve;
      (destruct (authenticate env now db req) as [rejected|ctx|claim user];
       [now injection Hserve as <- <- | |]);
      try (eapply delete_category_keeps_defaults; eassumption);
      try (eapply post_category_keeps_categories; eassumption);
      (erewrite other_handlers_keep_categories; [exact Hc | | exact Hserve]);
      set_solver.
  - intros -> Htarget. cbn [serve] in Hserve. unfold protected in Hserve.
    destruct (authenticate env now db req) as [rejected|ctx|claim user] eqn:Hauth.
    + injection Hserve as <- <-.
      destruct (authenticate_rejected _ _ _ _ _ Hauth) as [Hstatus Hsuccess].
      rewrite Hstatus. auto.
    + exact (delete_default_category_fails _ _ _ _ _ _ Hserve Htarget).
    + exact (delete_default_category_fails _ _ _ _ _ _ Hserve Htarget).
Qed.

End DefaultCategories.

(** ** The read routes *)

Lemma insertSorted_perm (keys : list (string * Z)) (d : Doc) (l : list Doc) :
  insertSorted keys d l ≡ₚ d :: l.
Proof.
  induction l as [|x l IH]; cbn [insertSorted]; [reflexivity |].
  destruct (sortsBefore keys d x); [reflexivity |].
  rewrite IH. apply Permutation_swap.
Qed.

Lemma sort_perm (keys : list (string * Z)) (l : list Doc) : sort keys l ≡ₚ l.
Proof.
  induction l as [|x l IH]; [reflexivity |].
  unfold sort. cbn [fold_right]. rewrite insertSorted_perm. now constructor.
Qed.

Lemma bool_compare_antisym (a b : bool) : Bool.compare b a = CompOpp (Bool.compare a b).
Proof. now destruct a, b. Qed.

Lemma compareBson_antisym (a b : bson) : compareBson b a = CompOpp (compareBson a b).
Proof.
  destruct a, b; cbn [compareBson typeRank]; try reflexivity;
    first [apply Z.compare_antisym | apply String.compare_antisym | apply bool_compare_antisym].
Qed.

(** Under keys that all have a direction, of two records one sorts before
    the other. *)
Lemma sortsBefore_total (keys : list (string * Z)) (a b : Doc) :
  Forall (fun kd => snd kd ≠ 0) keys ->
  sortsBefore keys a b = false -> sortsBefore keys b a = true.
Proof.
  induction 1 as [|[k dir] keys Hdir _ IH]; cbn [sortsBefore]; [discriminate |].
  cbn [snd] in Hdir.
  rewrite (compareBson_antisym (default BNull (a !! k)) (default BNull (b !! k))).
  destruct (compareBson _ _); cbn [CompOpp]; [exact IH | |];
    intros Hab; [apply Z.ltb_lt | apply Z.ltb_lt]; apply Z.ltb_ge in Hab; lia.
Qed.

Lemma insertSorted_sorted (keys : list (string * Z)) (d : Doc) (l : list Doc) :
  Forall (fun kd => snd kd ≠ 0) keys ->
  Sorted (fun a b => sortsBefore keys a b = true) l ->
  Sorted (fun a b => sortsBefore keys a b = true) (insertSorted keys d l).
Proof.
  intros Hkeys. induction 1 as [|x l Hl IH Hx]; cbn [insertSorted].
  - repeat constructor.
  - destruct (sortsBefore keys d x) eqn:Hdx.
    + constructor; [now constructor | now constructor].
    + constructor; [exact IH |].
      destruct l as [|y l]; cbn [insertSorted].
      * constructor. now apply sortsBefore_total.
      * destruct (sortsBefore keys d y); constructor;
          [now apply sortsBefore_total | now inversion Hx].
Qed.

Lemma sort_sorted (keys : list (string * Z)) (l : list Doc) :
  Forall (fun kd => snd kd ≠ 0) keys ->
  Sorted (fun a b => sortsBefore keys a b = true) (sort keys l).
Proof.
  intros Hkeys. induction l as [|x l IH]; [constructor |].
  unfold sort. cbn [fold_right]. now apply insertSorted_sorted.
Qed.

Lemma string_compare_lt_trans (a b c : string) :
  String.compare a b = Lt -> String.compare b c = Lt -> String.compare a c = Lt.
Proof.
  intros Hab Hbc. apply OrderedTypeEx.String_as_OT.cmp_lt.
  apply (OrderedTypeEx.String_as_OT.lt_trans a b c);
    now apply OrderedTypeEx.String_as_OT.cmp_lt.
Qed.

Lemma compareBson_eq (a b : bson) : compareBson a b = Eq -> a = b.
Proof.
  destruct a, b; cbn; try discriminate; try reflexivity; intros Hab; f_equal.
  - destruct b, b0; (reflexivity || discriminate).
  - now apply Z.compare_eq.
  - now apply String.compare_eq_iff.
  - now apply Z.compare_eq.
  - now apply String.compare_eq_iff.
Qed.

Lemma compareBson_lt_trans (a b c : bson) :
  compareBson a b = Lt -> compareBson b c = Lt -> compareBson a c = Lt.
Proof.
  destruct a, b, c; cbn; try discriminate; try reflexivity;
    try (intros; reflexivity); try (intros; discriminate).
  - destruct b, b0, b1; (reflexivity || discriminate).
  - apply Z.lt_trans.
  - apply string_compare_lt_trans.
  - apply Z.lt_trans.
  - apply string_compare_lt_trans.
Qed.

Lemma compareBson_gt_trans (a b c : bson) :
  compareBson a b = Gt -> compareBson b c = Gt -> compareBson a c = Gt.
Proof.
  intros Hab Hbc.
  rewrite (compareBson_antisym b a) in Hab. rewrite (compareBson_antisym c b) in Hbc.
  rewrite (compareBson_antisym c a).
  rewrite (compareBson_lt_trans c b a); [reflexivity | |].
  - now destruct (compareBson c b).
  - now destruct (compareBson b a).
Qed.

(** The order of a sort is transitive. *)
Lemma sortsBefore_trans (keys : list (string * Z)) (a b c : Doc) :
  sortsBefore keys a b = true -> sortsBefore keys b c = true -> sortsBefore keys a c = true.
Proof.
  induction keys as [|[k dir] keys IH]; cbn [sortsBefore]; [reflexivity |].
  destruct (compareBson (default BNull (a !! k)) (default BNull (b !! k))) eqn:Hab.
  - apply compareBson_eq in Hab. rewrite Hab.
    destruct (compareBson (default BNull (b !! k)) (default BNull (c !! k))); auto.
  - destruct (compareBson (default BNull (b !! k)) (default BNull (c !! k))) eqn:Hbc.
    + apply compareBson_eq in Hbc. rewrite <- Hbc, Hab. auto.
    + rewrite (compareBson_lt_trans _ _ _ Hab Hbc). auto.
    + intros H1%Z.ltb_lt H2%Z.ltb_lt. lia.
  - destruct (compareBson (default BNull (b !! k)) (default BNull (c !! k))) eqn:Hbc.
    + apply compareBson_eq in Hbc. rewrite <- Hbc, Hab. auto.
    + intros H1%Z.ltb_lt H2%Z.ltb_lt. lia.
    + rewrite (compareBson_gt_trans _ _ _ Hab Hbc). auto.
Qed.

(** A sorted list: every document sorts before every later one. *)
Lemma sort_strongly_sorted (keys : list (string * Z)) (l : list Doc) :
  Forall (fun kd => snd kd ≠ 0) keys ->
  StronglySorted (fun a b => sortsBefore keys a b = true) (sort keys l).
Proof.
  intros Hkeys. apply Sorted_StronglySorted; [|now apply sort_sorted].
  intros a b c. apply sortsBefore_trans.
Qed.

Lemma StronglySorted_weaken {A : Type} (R R' : A -> A -> Prop) (l : list A) :
  (forall a b, a ∈ l -> b ∈ l -> R a b -> R' a b) -> StronglySorted R l -> StronglySorted R' l.
Proof.
  intros HR Hl. induction Hl as [|x l Hl IH Hx]; constructor.
  - apply IH. intros a b Ha Hb. apply HR; now apply elem_of_cons; right.
  - apply Forall_forall. intros y Hy. apply HR; [set_solver | set_solver |].
    exact (proj1 (Forall_forall _ _) Hx y Hy).
Qed.

Lemma StronglySorted_filter {A : Type} (R : A -> A -> Prop) (f : A -> bool) (l : list A) :
  StronglySorted R l -> StronglySorted R (List.filter f l).
Proof.
  induction 1 as [|x l Hl IH Hx]; cbn [List.filter]; [constructor |].
  destruct (f x); [|exact IH]. constructor; [exact IH |].
  apply Forall_forall. intros y [Hy _]%list_elem_of_In%List.filter_In.
  apply (proj1 (Forall_forall _ _) Hx). now apply list_elem_of_In.
Qed.

Lemma StronglySorted_fmap {A B : Type} (R : B -> B -> Prop) (g : A -> B) (l : list A) :
  StronglySorted (fun a b => R (g a) (g b)) l -> StronglySorted R (g <$> l).
Proof.
  induction 1 as [|x l Hl IH Hx]; cbn; constructor; [exact IH |].
  apply Forall_fmap. exact Hx.
Qed.

Lemma filter_perm {A : Type} (f : A -> bool) (l l' : list A) :
  l ≡ₚ l' -> List.filter f l ≡ₚ List.filter f l'.
Proof.
  induction 1 as [|x l l' Hl IH|x y l|l l' l'' _ IH1 _ IH2]; cbn [List.filter].
  - reflexivity.
  - destruct (f x); [now constructor | exact IH].
  - destruct (f x), (f y); try reflexivity. apply Permutation_swap.
  - now rewrite IH1.
Qed.

(** Newest first: what sorting by [{ date: -1, createdAt: -1 }] means on
    two records with dates. *)
Lemma newest_first (a b : Doc) :
  sortsBefore [("date", -1); ("createdAt", -1)] a b = true -> notOlder a b.
Proof.
  intros Hab x y Hx Hy. cbn [sortsBefore] in Hab. rewrite Hx, Hy in Hab.
  cbn in Hab.
  destruct (x ?= y) eqn:Hxy; [| discriminate Hab |].
  - apply Z.compare_eq in Hxy as ->. split; [lia |].
    intros _ u v Hu Hv. rewrite Hu, Hv in Hab. cbn in Hab.
    destruct (u ?= v) eqn:Huv; [| discriminate Hab |].
    + apply Z.compare_eq in Huv. lia.
    + apply Z.compare_gt_iff in Huv. lia.
  - apply Z.compare_gt_iff in Hxy. split; lia.
Qed.

Section Reads.
Context `{Platform}.

(** [Model.find({ userId: req.userId })] after the guard: the caller's
    records, in the order of the collection. *)
Lemma find_own (sch : Schema) (p : SchemaPath) (ctx : AuthContext) (id : ObjectId)
    (coll : list Doc) :
  lookupPath sch "userId" = Some p -> ptype p = TObjectId ->
  parseObjectId (reqUserId ctx) = Some id -> callerId ctx = Some (BOid id) ->
  find sch [("userId", JStr (reqUserId ctx))] coll = Ok (ownedRecords ctx coll).
Proof.
  intros Hp Hty Hparse Hcaller. unfold find. cbn [castFilter].
  rewrite (castCondition_oid sch "userId" _ p Hp Hty), Hparse. cbn [bind]. f_equal.
  unfold ownedRecords. apply List.filter_ext. intros d. rewrite Hcaller.
  unfold equals. now rewrite andb_true_r.
Qed.

(** What the two list routes answer after the guard. *)
Lemma list_route_answer (env : Env) (route : Route) (now : Z) (db : DB) (req : Request)
    (ctx : AuthContext) :
  isList route = true ->
  authenticate env now db req = Next ctx ->
  serve env route now db req =
  (mkResponse 200 true None
     (Some (DataDocs (sort [("date", -1); ("createdAt", -1)]
                        (ownedRecords ctx (listed route db))))), db).
Proof.
  intros Hroute Hauth.
  destruct (authenticate_next _ _ _ _ _ Hauth) as (id & Hparse & _ & Hcaller).
  destruct route; try discriminate Hroute; unfold serve, protected; rewrite Hauth.
  - unfold get_transactions.
    now rewrite (find_own transactionSchema _ ctx id _ eq_refl eq_refl Hparse Hcaller).
  - unfold get_balance_items.
    now rewrite (find_own balanceItemSchema _ ctx id _ eq_refl eq_refl Hparse Hcaller).
Qed.

(** X1. After the guard, [GET /transactions] and [GET /balance-items]
    answer 200 with exactly the caller's records of the collection, each
    as often as it is stored, and nothing of any other user; the store is
    left as it was. *)
Theorem list_routes_show_own_records (env : Env) (route : Route) (now : Z) (db : DB)
    (req : Request) (ctx : AuthContext)
    (Hroute : isList route = true)
    (Hauth : authenticate env now db req = Next ctx) :
  exists l,
    serve env route now db req = (mkResponse 200 true None (Some (DataDocs l)), db) ∧
    l ≡ₚ ownedRecords ctx (listed route db) ∧
    (forall d, d ∈ l <-> d ∈ listed route db ∧ d !! "userId" = callerId ctx).
Proof.
  eexists. split; [exact (list_route_answer env route now db req ctx Hroute Hauth) |].
  split; [apply sort_perm |].
  intros d. rewrite sort_perm. unfold ownedRecords.
  rewrite list_elem_of_In, List.filter_In, <- list_elem_of_In, bool_decide_eq_true.
  reflexivity.
Qed.

(** X2. The list the two routes answer with is ordered newest first:
    every record is dated no earlier than every record after it, and, on
    the same date, created no earlier. *)
Theorem list_routes_newest_first (env : Env) (route : Route) (now : Z) (db : DB)
    (req : Request) (ctx : AuthContext)
    (Hroute : isList route = true)
    (Hauth : authenticate env now db req = Next ctx) :
  exists l,
    data (fst (serve env route now db req)) = Some (DataDocs l) ∧
    StronglySorted notOlder l.
Proof.
  eexists. rewrite (list_route_answer env route now db req ctx Hroute Hauth).
  split; [reflexivity |].
  apply (StronglySorted_weaken
           (fun a b => sortsBefore [("date", -1); ("createdAt", -1)] a b = true)).
  - intros a b _ _. apply newest_first.
  - apply sort_strongly_sorted. repeat constructor; discriminate.
Qed.

Lemma string_compare_refl (s : string) : String.compare s s = Eq.
Proof.
  pose proof (String.compare_antisym s s) as Hs.
  destruct (String.compare s s); [reflexivity | discriminate Hs | discriminate Hs].
Qed.

(** What [GET /categories] answers after the guard. *)
Lemma categories_answer (env : Env) (now : Z) (db : DB) (req : Request) (ctx : AuthContext) :
  authenticate env now db req = Next ctx ->
  serve env GetCategories now db req =
  (mkResponse 200 true None
     (Some (DataCategories
              (namesOf "income"
                 (sort [("type", 1); ("name", 1)] (ownedRecords ctx (categories db))))
              (namesOf "expense"
                 (sort [("type", 1); ("name", 1)] (ownedRecords ctx (categories db)))))),
   db).
Proof.
  intros Hauth.
  destruct (authenticate_next _ _ _ _ _ Hauth) as (id & Hparse & _ & Hcaller).
  unfold serve, protected. rewrite Hauth. unfold get_categories.
  now rewrite (find_own categorySchema _ ctx id _ eq_refl eq_refl Hparse Hcaller).
Qed.

(** A whole number below [2 ^ 53] is a double as it is. *)
Lemma toDouble_exact (z : Z) : Z.abs z < 2 ^ 53 -> toDouble z = Some z.
Proof. intros Hz. unfold toDouble. now rewrite (proj2 (Z.ltb_lt _ _) Hz). Qed.

Lemma magnitude_nonneg (l : list Doc) : 0 <= magnitude l.
Proof. unfold magnitude. induction l as [|d l IH]; cbn [foldr]; [reflexivity | lia]. Qed.

Lemma magnitude_filter (f : Doc -> bool) (l : list Doc) :
  magnitude (List.filter f l) <= magnitude l.
Proof.
  unfold magnitude. induction l as [|d l IH]; cbn [List.filter foldr]; [reflexivity |].
  destruct (f d); cbn [foldr]; lia.
Qed.

(** The sum of [reduce], started at [acc]: the amounts added up, as long
    as every record has one and no sum reaches [2 ^ 53]. *)
Lemma reduce_amounts (l : list Doc) (acc : Z) :
  Forall (fun d => hasAmount d = true) l ->
  Z.abs acc + magnitude l < 2 ^ 53 ->
  fold_left (fun sum d => plus sum (amount d)) l (Some acc)
  = Some (acc + foldr (fun d s => amountOf d + s) 0 l).
Proof.
  intros Hl. revert acc. induction Hl as [|d l Hd _ IH]; intros acc Hsafe.
  - cbn [fold_left foldr]. f_equal. lia.
  - pose proof (magnitude_nonneg l) as Hl.
    change (magnitude (d :: l)) with (Z.abs (amountOf d) + magnitude l) in Hsafe.
    cbn [fold_left foldr].
    assert (Hadd : plus (Some acc) (amount d) = Some (acc + amountOf d)).
    { unfold amount, amountOf, hasAmount in *.
      destruct (d !! "amount") as [[| |a| | |]|]; try discriminate Hd; cbn [plus].
      - apply toDouble_exact. lia.
      - rewrite toDouble_exact by lia. apply toDouble_exact. lia. }
    rewrite Hadd, IH by lia. f_equal. lia.
Qed.

Lemma total_sum (type : string) (l : list Doc) :
  Forall (fun d => hasAmount d = true) l -> magnitude l < 2 ^ 53 ->
  total type l = Some (sumAmounts type l).
Proof.
  intros Hl Hsafe. unfold total, sumAmounts.
  pose proof (magnitude_filter (fun d => bool_decide (d !! "type" = Some (BStr type))) l).
  rewrite reduce_amounts; [reflexivity | | cbn [Z.abs]; lia].
  apply Forall_forall. intros d [Hd _]%list_elem_of_In%List.filter_In.
  apply (proj1 (Forall_forall _ _) Hl). now apply list_elem_of_In.
Qed.

(** The sums of two types together stay within the magnitude. *)
Lemma sums_within_magnitude (s t : string) (l : list Doc) :
  s ≠ t -> Z.abs (sumAmounts s l) + Z.abs (sumAmounts t l) <= magnitude l.
Proof.
  intros Hst. unfold sumAmounts, magnitude. induction l as [|d l IH];
    cbn [List.filter foldr]; [reflexivity |].
  destruct (decide (d !! "type" = Some (BStr s))) as [Hs|Hs].
  - rewrite (bool_decide_eq_true_2 _ Hs).
    rewrite bool_decide_eq_false_2 by (rewrite Hs; congruence).
    cbn [foldr]. lia.
  - rewrite (bool_decide_eq_false_2 _ Hs).
    destruct (bool_decide (d !! "type" = Some (BStr t))); cbn [foldr]; lia.
Qed.

(** What [GET /dashboard] answers after the guard. *)
Lemma dashboard_answer (env : Env) (now : Z) (db : DB) (req : Request) (ctx : AuthContext) :
  authenticate env now db req = Next ctx ->
  serve env GetDashboard now db req =
  (let txs := ownedRecords ctx (transactions db) in
   let items := ownedRecords ctx (balanceItems db) in
   mkResponse 200 true (Some "Dashboard data berhasil diambil")
     (Some (DataDashboard (Some (JStr (reqUserId ctx)))
              [("totalIncome", total "income" txs);
               ("totalExpense", total "expense" txs);
               ("profit", minus (total "income" txs) (total "expense" txs));
               ("totalAssets", total "asset" items);
               ("totalLiabilities", total "liability" items);
               ("totalEquity", total "equity" items)]
              (List.length txs) (List.length items))),
   db).
Proof.
  intros Hauth.
  destruct (authenticate_next _ _ _ _ _ Hauth) as (id & Hparse & _ & Hcaller).
  unfold serve, protected. rewrite Hauth. unfold get_dashboard.
  rewrite (find_own transactionSchema _ ctx id _ eq_refl eq_refl Hparse Hcaller).
  now rewrite (find_own balanceItemSchema _ ctx id _ eq_refl eq_refl Hparse Hcaller).
Qed.

(** X3. After the guard, [GET /categories] answers 200 with two lists:
    the names of the caller's income categories and of the caller's
    expense categories, each name as often as a category has it, in
    ascending order; no category of another user is listed, and the store
    is left as it was. *)
Theorem categories_listed_by_type_in_name_order (env : Env) (now : Z) (db : DB)
    (req : Request) (ctx : AuthContext)
    (Hauth : authenticate env now db req = Next ctx) :
  exists income expense,
    serve env GetCategories now db req
    = (mkResponse 200 true None (Some (DataCategories income expense)), db) ∧
    income ≡ₚ namesOf "income" (ownedRecords ctx (categories db)) ∧
    expense ≡ₚ namesOf "expense" (ownedRecords ctx (categories db)) ∧
    StronglySorted notAfter income ∧ StronglySorted notAfter expense.
Proof.
  do 2 eexists. split; [exact (categories_answer env now db req ctx Hauth) |].
  assert (Hperm : forall type,
            namesOf type (sort [("type", 1); ("name", 1)] (ownedRecords ctx (categories db)))
            ≡ₚ namesOf type (ownedRecords ctx (categories db))).
  { intros type. unfold namesOf. apply fmap_Permutation, filter_perm, sort_perm. }
  assert (Hsorted : forall type,
            StronglySorted notAfter
              (namesOf type (sort [("type", 1); ("name", 1)]
                               (ownedRecords ctx (categories db))))).
  { intros type. unfold namesOf. apply StronglySorted_fmap.
    apply (StronglySorted_weaken
             (fun a b => sortsBefore [("type", 1); ("name", 1)] a b = true)).
    - intros a b [_ Ha%bool_decide_eq_true]%list_elem_of_In%List.filter_In
                 [_ Hb%bool_decide_eq_true]%list_elem_of_In%List.filter_In.
      cbn [sortsBefore]. rewrite Ha, Hb. cbn [default from_option id compareBson].
      rewrite string_compare_refl.
      unfold notAfter. destruct (compareBson _ _); [discriminate | discriminate |].
      cbn. discriminate.
    - apply StronglySorted_filter, sort_strongly_sorted. repeat constructor; discriminate. }
  auto.
Qed.

(** X4. After the guard, [GET /dashboard] answers 200 with the caller's
    figures only: the numbers of the caller's transactions and balance
    items, and the sums of their amounts per type, the profit being
    income less expense. The sums are the exact ones when each of these
    records has an amount, a whole number, and the amounts of the
    caller's transactions, added up without their signs, stay below
    [2 ^ 53], and so do those of the balance items: there the runtime
    adds without rounding. The store is left as it was. *)
Theorem dashboard_sums_own_records (env : Env) (now : Z) (db : DB) (req : Request)
    (ctx : AuthContext)
    (Hauth : authenticate env now db req = Next ctx)
    (Htxs : Forall (fun d => hasAmount d = true) (ownedRecords ctx (transactions db)))
    (Hitems : Forall (fun d => hasAmount d = true) (ownedRecords ctx (balanceItems db)))
    (Htxsafe : magnitude (ownedRecords ctx (transactions db)) < 2 ^ 53)
    (Hitemsafe : magnitude (ownedRecords ctx (balanceItems db)) < 2 ^ 53) :
  let txs := ownedRecords ctx (transactions db) in
  let items := ownedRecords ctx (balanceItems db) in
  serve env GetDashboard now db req =
  (mkResponse 200 true (Some "Dashboard data berhasil diambil")
     (Some (DataDashboard (Some (JStr (reqUserId ctx)))
              [("totalIncome", Some (sumAmounts "income" txs));
               ("totalExpense", Some (sumAmounts "expense" txs));
               ("profit", Some (sumAmounts "income" txs - sumAmounts "expense" txs));
               ("totalAssets", Some (sumAmounts "asset" items));
               ("totalLiabilities", Some (sumAmounts "liability" items));
               ("totalEquity", Some (sumAmounts "equity" items))]
              (List.length txs) (List.length items))),
   db).
Proof.
  intros txs items. rewrite (dashboard_answer env now db req ctx Hauth).
  cbv zeta. fold txs items.
  rewrite !(total_sum _ txs Htxs Htxsafe), !(total_sum _ items Hitems Hitemsafe).
  cbn [minus]. rewrite toDouble_exact; [reflexivity |].
  assert (Hsum : Z.abs (sumAmounts "income" txs) + Z.abs (sumAmounts "expense" txs)
                 <= magnitude txs) by now apply sums_within_magnitude.
  fold txs in Htxsafe. lia.
Qed.

(** X5. What a read route answers depends on the caller's records only:
    on two stores that hold the same transactions, balance items and
    categories of the caller, whatever they hold of other users, the
    response is the same. *)
Theorem reads_depend_on_own_records (env : Env) (route : Route) (now : Z) (db1 db2 : DB)
    (req : Request) (ctx : AuthContext)
    (Hroute : isRead route = true)
    (Hauth1 : authenticate env now db1 req = Next ctx)
    (Hauth2 : authenticate env now db2 req = Next ctx)
    (Htxs : ownedRecords ctx (transactions db1) = ownedRecords ctx (transactions db2))
    (Hitems : ownedRecords ctx (balanceItems db1) = ownedRecords ctx (balanceItems db2))
    (Hcats : ownedRecords ctx (categories db1) = ownedRecords ctx (categories db2)) :
  fst (serve env route now db1 req) = fst (serve env route now db2 req).
Proof.
  destruct route; try discriminate Hroute.
  - rewrite !(dashboard_answer env now _ req ctx) by assumption.
    cbv zeta. cbn [fst]. now rewrite Htxs, Hitems.
  - rewrite !(list_route_answer env GetTransactions now _ req ctx) by (assumption || reflexivity).
    cbn [fst listed]. now rewrite Htxs.
  - rewrite !(list_route_answer env GetBalanceItems now _ req ctx) by (assumption || reflexivity).
    cbn [fst listed]. now rewrite Hitems.
  - rewrite !(categories_answer env now _ req ctx) by assumption.
    cbn [fst]. now rewrite Hcats.
Qed.

(** The handlers of the read routes leave the store as it is, whatever
    [req.userId] is. *)
Lemma read_handlers_keep_store (claim : option json) (now : Z) (db : DB) (req : Request)
    (handler : option json -> Z -> DB -> Request -> Response * DB) :
  handler ∈ [get_dashboard; get_transactions; get_balance_items; get_categories] ->
  snd (handler claim now db req) = db.
Proof.
  intros Hin. repeat (apply elem_of_cons in Hin as [-> | Hin]); [.. | set_solver].
  - unfold get_dashboard. destruct (find _ _ _); cbn [bind catch500]; [|reflexivity].
    destruct (find _ _ _); reflexivity.
  - unfold get_transactions. destruct (find _ _ _); reflexivity.
  - unfold get_balance_items. destruct (find _ _ _); reflexivity.
  - unfold get_categories. destruct (find _ _ _); reflexivity.
Qed.

(** X6. The four read routes and [POST /login] never write: whatever the
    request, and whether the guard lets it through or not, the store
    after is the store before. *)
Theorem reads_and_login_keep_store (env : Env) (route : Route) (now : Z) (db : DB)
    (req : Request)
    (Hroute : isRead route = true ∨ route = PostLogin) :
  snd (serve env route now db req) = db.
Proof.
  destruct Hroute as [Hroute | ->].
  - destruct route; try discriminate Hroute; cbn [serve]; unfold protected;
      (destruct (authenticate env now db req) as [res|ctx|claim user]; [reflexivity | |]);
      apply read_handlers_keep_store; set_solver.
  - cbn [serve]. destruct (post_login env now db req) as [res db'] eqn:Hlogin.
    exact (login_keeps_store _ _ _ _ _ _ Hlogin).
Qed.

End Reads.

(** ** What a request changes *)

(** Membership in a list that is written out. *)
Ltac in_list := repeat first [apply list_elem_of_here | apply list_elem_of_further].

Lemma removeFirst_filter (cond f : Doc -> bool) (l : list Doc) :
  (forall d, cond d = true -> f d = false) ->
  List.filter f (removeFirst cond l) = List.filter f l.
Proof.
  intros Hcond. induction l as [|x l IH]; cbn [removeFirst List.filter]; [reflexivity |].
  destruct (cond x) eqn:Hx.
  - now rewrite (Hcond x Hx).
  - cbn [List.filter]. now rewrite IH.
Qed.

Lemma replaceFirst_filter (cond f : Doc -> bool) (d' : Doc) (l : list Doc) :
  (forall d, cond d = true -> f d = false) ->
  List.filter f l `sublist_of` List.filter f (replaceFirst cond d' l).
Proof.
  intros Hcond. induction l as [|x l IH]; cbn [replaceFirst List.filter]; [reflexivity |].
  destruct (cond x) eqn:Hx.
  - rewrite (Hcond x Hx). cbn [List.filter]. destruct (f d'); [now constructor | reflexivity].
  - cbn [List.filter]. destruct (f x); [now constructor | exact IH].
Qed.

Lemma filter_snoc_sublist (f : Doc -> bool) (l added : list Doc) :
  List.filter f l `sublist_of` List.filter f (l ++ added).
Proof. rewrite List.filter_app. now apply sublist_inserts_r. Qed.

Section Writes.
Context `{Platform}.

(** A record the owner filter matches is the caller's. *)
Lemma owner_filter_owned (ctx : AuthContext) (id uid : ObjectId) (more : Doc -> bool)
    (d : Doc) :
  callerId ctx = Some (BOid uid) ->
  (equals "_id" (BOid id) d && (equals "userId" (BOid uid) d && more d))%bool = true ->
  negb (bool_decide (d !! "userId" = callerId ctx)) = false.
Proof.
  intros Hcaller [_ [Hown _]%andb_prop]%andb_prop.
  apply equals_oid in Hown. rewrite Hcaller. apply negb_false_iff.
  now apply bool_decide_eq_true.
Qed.

Lemma createCategory_appends (now : Z) (obj : object) (db db' : DB) :
  createCategory now obj db = Ok db' ->
  users db' = users db ∧ transactions db' = transactions db ∧
  balanceItems db' = balanceItems db ∧
  categories db' =
  (categories db
   ++ [inserted (newObjectId db)
         (fields (construct categorySchema now (newObjectId db) obj))])%list.
Proof.
  unfold createCategory.
  destruct (save _ _ _ _ _) as [[saved coll]|] eqn:Hsave; [|discriminate].
  intros [= <-]. apply save_ok in Hsave as (_ & -> & ->). auto.
Qed.

Lemma createDefaults_appends (now : Z) (userId : ObjectId) (type : string)
    (names : list string) (db : DB) :
  let db' := fst (createDefaults now userId type names db) in
  users db' = users db ∧ transactions db' = transactions db ∧
  balanceItems db' = balanceItems db ∧
  exists added, categories db' = (categories db ++ added)%list.
Proof.
  revert db. induction names as [|name names IH]; intros db; cbn [createDefaults].
  - cbn. repeat split. exists []. now rewrite app_nil_r.
  - destruct (createCategory _ _ _) as [db1|] eqn:Hcreate.
    + apply createCategory_appends in Hcreate as (Hu & Ht & Hb & Hc).
      destruct (IH db1) as (Hu' & Ht' & Hb' & added & Hc').
      cbv zeta. rewrite Hu', Ht', Hb', Hc', Hu, Ht, Hb, Hc. repeat split.
      eexists. now rewrite <- app_assoc.
    + cbn. repeat split. exists []. now rewrite app_nil_r.
Qed.

Lemma createDefaultCategories_appends (now : Z) (userId : ObjectId) (db : DB) :
  let db' := createDefaultCategories now userId db in
  users db' = users db ∧ transactions db' = transactions db ∧
  balanceItems db' = balanceItems db ∧
  exists added, categories db' = (categories db ++ added)%list.
Proof.
  unfold createDefaultCategories.
  pose proof (createDefaults_appends now userId "income" defaultIncomeCategories db) as H1.
  destruct (createDefaults now userId "income" defaultIncomeCategories db) as [db1 [e|]];
    cbn [fst] in H1; [exact H1 |].
  destruct H1 as (Hu & Ht & Hb & added & Hc).
  destruct (createDefaults_appends now userId "expense" defaultExpenseCategories db1)
    as (Hu' & Ht' & Hb' & added' & Hc').
  cbv zeta. rewrite Hu', Ht', Hb', Hc', Hu, Ht, Hb, Hc. repeat split.
  eexists. now rewrite <- app_assoc.
Qed.

(** Registration leaves the transactions and the balance items alone and
    only adds to the categories. *)
Lemma register_appends (now : Z) (db db' : DB) (req : Request) (res : Response) :
  post_register now db req = (res, db') ->
  transactions db' = transactions db ∧ balanceItems db' = balanceItems db ∧
  exists added, categories db' = (categories db ++ added)%list.
Proof.
  assert (Hsame : transactions db = transactions db ∧ balanceItems db = balanceItems db ∧
                  exists added, categories db = (categories db ++ added)%list).
  { repeat split. exists []. now rewrite app_nil_r. }
  unfold post_register. intros Hreg.
  destruct (_ || _)%bool; [now injection Hreg as <- <- |].
  destruct (lengthBelow _ _) as [[]|]; cbn [bind catch500] in Hreg;
    try (now injection Hreg as <- <-).
  destruct (toLowerCaseOf _) as [lower|]; cbn [bind catch500] in Hreg;
    [|now injection Hreg as <- <-].
  destruct (findOne _ _ _) as [[existing|]|]; cbn [bind catch500] in Hreg;
    [now injection Hreg as <- <- | | now injection Hreg as <- <-].
  destruct (save _ _ _ _ _) as [[saved coll]|]; cbn [bind catch500] in Hreg;
    [|now injection Hreg as <- <-].
  destruct (docId saved) as [id|]; cbn [ofOption bind catch500] in Hreg;
    [|now injection Hreg as <- <-].
  injection Hreg as <- <-.
  destruct (createDefaultCategories_appends now id (tick (withUsers db coll)))
    as (_ & Ht & Hb & added & Hc).
  rewrite Ht, Hb, Hc. cbn. eauto.
Qed.

(** The read routes leave the store as it was. *)
Lemma reads_keep_store (env : Env) (route : Route) (now : Z) (db : DB) (req : Request) :
  isRead route = true -> snd (serve env route now db req) = db.
Proof.
  intros Hroute.
  destruct route; try discriminate Hroute; cbn [serve]; unfold protected;
    (destruct (authenticate env now db req) as [res|ctx|claim user]; [reflexivity | |]);
    apply read_handlers_keep_store; in_list.
Qed.

(** X7. No request removes, changes or reorders a record of another
    user: when the guard attaches a caller to the request, then, whatever
    the route and the payload, the transactions, balance items and
    categories that do not carry the caller's identifier are all still in
    the store afterwards, as they were and in the same order. *)
Theorem writes_spare_other_users (env : Env) (route : Route) (now : Z) (db : DB)
    (req : Request) (ctx : AuthContext)
    (Hauth : authenticate env now db req = Next ctx) :
  let db' := snd (serve env route now db req) in
  foreignRecords ctx (transactions db) `sublist_of` foreignRecords ctx (transactions db') ∧
  foreignRecords ctx (balanceItems db) `sublist_of` foreignRecords ctx (balanceItems db') ∧
  foreignRecords ctx (categories db) `sublist_of` foreignRecords ctx (categories db').
Proof.
  destruct (authenticate_next _ _ _ _ _ Hauth) as (uid & Huid & _ & Hcaller).
  cbv zeta. unfold foreignRecords.
  destruct (isRead route) eqn:Hread.
  { now rewrite (reads_keep_store env route now db req Hread). }
  destruct route; try discriminate Hread; cbn [serve]; unfold protected; try rewrite Hauth.
  - destruct (post_register now db req) as [res db'] eqn:Hreg. cbn [snd].
    apply register_appends in Hreg as (-> & -> & added & ->).
    repeat split; [reflexivity | reflexivity | apply filter_snoc_sublist].
  - destruct (post_login env now db req) as [res db'] eqn:Hlogin.
    now rewrite (login_keeps_store _ _ _ _ _ _ Hlogin).
  - unfold post_transactions.
    destruct (save _ _ _ _ _) as [[saved coll]|] eqn:Hsave; cbn [bind catch500 snd]; [|done].
    apply save_ok in Hsave as (_ & _ & ->). cbn.
    repeat split; [apply filter_snoc_sublist | reflexivity | reflexivity].
  - unfold put_transactions_id, findOneAndUpdate. rewrite transaction_filter, Huid.
    destruct (parseObjectId (params_id req)) as [id|]; cbn [bind catch500 snd]; [|done].
    destruct (castUpdate _ _) as [change|]; cbn [bind catch500 snd]; [|done].
    destruct (List.find _ (transactions db)) as [d|]; cbn [bind catch500 snd]; [|done].
    destruct (bool_decide _); cbn [bind catch500 snd]; [|done]. cbn.
    repeat split; [|reflexivity | reflexivity].
    apply replaceFirst_filter. intros x. exact (owner_filter_owned ctx id uid (fun _ => true) x Hcaller).
  - unfold delete_transactions_id, findOneAndDelete. rewrite transaction_filter, Huid.
    destruct (parseObjectId (params_id req)) as [id|]; cbn [bind catch500 snd]; [|done].
    destruct (List.find _ (transactions db)) as [d|]; cbn [bind catch500 snd]; [|done]. cbn.
    repeat split; [|reflexivity | reflexivity].
    rewrite removeFirst_filter; [reflexivity |].
    intros x. exact (owner_filter_owned ctx id uid (fun _ => true) x Hcaller).
  - unfold post_balance_items.
    destruct (save _ _ _ _ _) as [[saved coll]|] eqn:Hsave; cbn [bind catch500 snd]; [|done].
    apply save_ok in Hsave as (_ & _ & ->). cbn.
    repeat split; [reflexivity | apply filter_snoc_sublist | reflexivity].
  - unfold post_categories.
    destruct (body req !! "type") as [type|]; [|done].
    destruct (body req !! "name") as [name|]; [|done].
    destruct (_ || _)%bool; [done |].
    destruct (findOne _ _ _) as [[existing|]|]; cbn [bind catch500 snd]; [done | | done].
    destruct (save _ _ _ _ _) as [[saved coll]|] eqn:Hsave; cbn [bind catch500 snd]; [|done].
    apply save_ok in Hsave as (_ & _ & ->). cbn.
    repeat split; [reflexivity | reflexivity | apply filter_snoc_sublist].
  - unfold delete_categories_id, findOneAndDelete. rewrite category_filter, Huid.
    destruct (parseObjectId (params_id req)) as [id|]; cbn [bind catch500 snd]; [|done].
    destruct (List.find _ (categories db)) as [d|]; cbn [bind catch500 snd]; [|done]. cbn.
    repeat split; [reflexivity | reflexivity |].
    rewrite removeFirst_filter; [reflexivity |].
    intros x.
    exact (owner_filter_owned ctx id uid
             (fun d => equals "isDefault" (BBool false) d && true)%bool x Hcaller).
Qed.

Lemma authenticate_rejects_with (env : Env) (now : Z) (db : DB) (req : Request)
    (res : Response) :
  authenticate env now db req = Rejected res -> res = invalidToken ∨ res = userNotFound.
Proof.
  unfold authenticate, invalidToken, userNotFound.
  destruct (authorization req) as [header|]; [|intros [= <-]; auto].
  destruct (_ || _)%bool; [intros [= <-]; auto |].
  destruct (verifyToken _ _ _) as [claims|]; [|intros [= <-]; auto].
  destruct (findById _ _ _) as [[user|]|]; [|intros [= <-]; auto ..].
  unfold attach. now destruct (userId claims) as [[]|].
Qed.

(** X8. A request that fails has no effect: whatever the route, when the
    response says [success: false], be it a 400, 401, 404 or 500, the
    store after is the store before. *)
Theorem failed_requests_leave_store (env : Env) (route : Route) (now : Z) (db db' : DB)
    (req : Request) (res : Response)
    (Hserve : serve env route now db req = (res, db'))
    (Hfailed : success res = false) :
  db' = db.
Proof.
  destruct (isRead route) eqn:Hread.
  { rewrite <- (reads_keep_store env route now db req Hread). now rewrite Hserve. }
  destruct route; try discriminate Hread; cbn [serve] in Hserve;
    try (exact (login_keeps_store _ _ _ _ _ _ Hserve));
    unfold protected, post_register, post_transactions, put_transactions_id,
      delete_transactions_id, post_balance_items, post_categories, delete_categories_id,
      catch500, bind in Hserve;
    repeat case_match; simplify_eq; first [reflexivity | discriminate Hfailed].
Qed.

(** X9. The envelope of every response: [success] is true exactly under
    the statuses 200 and 201; the status is one of 200, 201, 400, 401, 404
    and 500; and a failure carries a message and no data. *)
Theorem response_envelope (env : Env) (route : Route) (now : Z) (db : DB) (req : Request) :
  let res := fst (serve env route now db req) in
  (success res = true <-> status res = 200 ∨ status res = 201) ∧
  status res ∈ [200; 201; 400; 401; 404; 500] ∧
  (success res = false -> message res ≠ None ∧ data res = None).
Proof.
  assert (Hfail : forall code msg,
            code ∈ [400; 401; 404; 500] ->
            let res := failure code msg in
            (success res = true <-> status res = 200 ∨ status res = 201) ∧
            status res ∈ [200; 201; 400; 401; 404; 500] ∧
            (success res = false -> message res ≠ None ∧ data res = None)).
  { intros code msg Hcode. cbn.
    split; [|split; [do 2 apply list_elem_of_further; exact Hcode | done]].
    split; [discriminate |].
    repeat (apply elem_of_cons in Hcode as [-> | Hcode]);
      [.. | now apply elem_of_nil in Hcode]; intros [|]; discriminate. }
  assert (Hok : forall code msg dat,
            code = 200 ∨ code = 201 ->
            let res := mkResponse code true msg dat in
            (success res = true <-> status res = 200 ∨ status res = 201) ∧
            status res ∈ [200; 201; 400; 401; 404; 500] ∧
            (success res = false -> message res ≠ None ∧ data res = None)).
  { intros code msg dat Hcode. cbn. split; [tauto |]. split; [|discriminate].
    destruct Hcode as [-> | ->]; in_list. }
  cbv zeta.
  destruct route; cbn [serve]; unfold protected;
    try (destruct (authenticate env now db req) as [rejected|ctx|claim user] eqn:Hauth;
         [destruct (authenticate_rejects_with _ _ _ _ _ Hauth) as [-> | ->];
          apply Hfail; in_list | |]);
    unfold post_register, post_login, get_dashboard, get_transactions, post_transactions,
      put_transactions_id, delete_transactions_id, get_balance_items, post_balance_items,
      get_categories, post_categories, delete_categories_id, catch500, bind, serverError;
    repeat case_match; simplify_eq; cbn [fst];
    first [apply Hfail; in_list | apply Hok; auto].
Qed.

End Writes.

(** ** What a create route stores *)

Lemma filter_nil_inv {A : Type} (f : A -> bool) (l : list A) (x : A) :
  List.filter f l = [] -> x ∈ l -> f x = false.
Proof.
  intros Hnil Hx. destruct (f x) eqn:Hf; [|reflexivity].
  assert (Hin : List.In x (List.filter f l)).
  { apply List.filter_In. split; [now apply list_elem_of_In | exact Hf]. }
  rewrite Hnil in Hin. destruct Hin.
Qed.

Section Stored.
Context `{Platform}.

(** The value of a path of the schema in a new document, when the object
    has a value for it that casts. *)
Lemma construct_path (sch : Schema) (now : Z) (fresh : ObjectId) (obj : object)
    (pre : list SchemaPath) (p : SchemaPath) (post : list SchemaPath) (v : json) (b : bson) :
  paths sch = (pre ++ p :: post)%list ->
  Forall (fun q => pname q ≠ pname p) post ->
  obj !! pname p = Some v ->
  castValue p v = Some b ->
  fields (construct sch now fresh obj) !! pname p = Some b.
Proof.
  intros Hpaths Hpost Hobj Hcast. unfold construct.
  rewrite Hpaths, fold_left_app. cbn [fold_left].
  rewrite (setPaths_other _ _ _ _ _ Hpost). now apply (setPath_cast p _ _ _ v).
Qed.

(** A document that validates passes the validators of every path. *)
Lemma validate_ok (sch : Schema) (d : Document) (p : SchemaPath) :
  validate sch d = [] -> p ∈ paths sch ->
  failsRequired p (fields d) = false ∧ failsEnum p (fields d) = false ∧
  failsMin p (fields d) = false.
Proof.
  unfold validate. intros [_ Hnames]%app_eq_nil Hp. apply fmap_nil_inv in Hnames.
  pose proof (filter_nil_inv _ _ p Hnames Hp) as Hfails.
  apply orb_false_iff in Hfails as [[Hr He]%orb_false_iff Hm]. auto.
Qed.

Lemma required_present (sch : Schema) (d : Document) (p : SchemaPath) :
  validate sch d = [] -> p ∈ paths sch -> prequired p (fields d) = true ->
  present (fields d) (pname p).
Proof.
  intros Hvalid Hp Hreq. destruct (validate_ok sch d p Hvalid Hp) as (Hr & _ & _).
  unfold failsRequired in Hr. rewrite Hreq in Hr. unfold present.
  destruct (fields d !! pname p) as [v|]; [|discriminate Hr].
  exists v. split; [reflexivity |]. split; intros ->; [discriminate Hr | discriminate Hr].
Qed.

Lemma enum_member (sch : Schema) (d : Document) (p : SchemaPath) (values : list string) :
  validate sch d = [] -> p ∈ paths sch -> prequired p (fields d) = true ->
  penum p = Some values ->
  exists s, fields d !! pname p = Some (BStr s) ∧ s ∈ values.
Proof.
  intros Hvalid Hp Hreq Henum.
  destruct (required_present sch d p Hvalid Hp Hreq) as (v & Hv & _ & _).
  destruct (validate_ok sch d p Hvalid Hp) as (_ & He & _).
  unfold failsEnum in He. rewrite Henum, Hv in He.
  destruct v; try discriminate He. eexists. split; [exact Hv |].
  apply negb_false_iff in He. now apply bool_decide_eq_true in He.
Qed.

Lemma min_bound (sch : Schema) (d : Document) (p : SchemaPath) (m n : Z) :
  validate sch d = [] -> p ∈ paths sch -> pmin p = Some m ->
  fields d !! pname p = Some (BNum n) -> m <= n.
Proof.
  intros Hvalid Hp Hmin Hn. destruct (validate_ok sch d p Hvalid Hp) as (_ & _ & Hm).
  unfold failsMin in Hm. rewrite Hmin, Hn in Hm. now apply Z.ltb_ge.
Qed.

Lemma present_touched (now : Z) (d : Doc) (k : string) :
  k ≠ "updatedAt" -> present d k -> present (touchUpdatedAt now d) k.
Proof.
  intros Hk (v & Hv & Hnull & Hempty). exists v. unfold touchUpdatedAt.
  rewrite lookup_insert_ne by congruence. auto.
Qed.

Lemma present_inserted (pk : ObjectId) (d : Doc) (k : string) :
  k ≠ "_id" -> present d k -> present (inserted pk d) k.
Proof.
  intros Hk (v & Hv & Hnull & Hempty). exists v. now rewrite inserted_other.
Qed.

(** What the driver inserts is the document, or the document under a
    generated identifier when its own is [null]. *)
Lemma inserted_cases (pk : ObjectId) (d : Doc) :
  inserted pk d = d ∨ (d !! "_id" = Some BNull ∧ inserted pk d = <["_id" := BOid pk]> d).
Proof. unfold inserted. destruct (d !! "_id") as [[]|]; auto. Qed.

(** The record a ledger handler answers 201 with, and the one it stores. *)
Lemma ledger_handler_stores_valid (route : Route) (claim : option json) (now : Z)
    (db db' : DB) (req : Request) (res : Response) :
  route = PostTransactions ∨ route = PostBalanceItems ->
  match route with
  | PostTransactions => post_transactions claim now db req
  | _ => post_balance_items claim now db req
  end = (res, db') ->
  status res = 201 ->
  exists sent stored,
    data res = Some (DataDoc sent) ∧
    created route db' = (created route db ++ [stored])%list ∧
    (stored = sent ∨
     (sent !! "_id" = Some BNull ∧ stored = <["_id" := BOid (newObjectId db)]> sent)) ∧
    (exists t, stored !! "type" = Some (BStr t) ∧ t ∈ allowedTypes route) ∧
    (exists v, stored !! "amount" = Some v ∧ v ≠ BNull ∧ forall n, v = BNum n -> 0 <= n) ∧
    present stored "date" ∧ present stored "category" ∧ present stored "description" ∧
    (stored !! "type" = Some (BStr "income") -> present stored "customerName") ∧
    stored !! "updatedAt" = Some (BDate now).
Proof.
  intros [-> | ->] Hserve Hcreated.
  - unfold post_transactions in Hserve.
    destruct (save _ _ _ _ _) as [[saved coll]|] eqn:Hsave; cbn [bind catch500] in Hserve;
      injection Hserve as <- <-; [|discriminate Hcreated].
    apply save_ok in Hsave as (Hvalid & -> & ->). cbn [preSave transactionSchema].
    set (doc := construct transactionSchema now (newObjectId db) _) in *.
    do 2 eexists. split; [reflexivity |]. split; [reflexivity |].
    split; [apply inserted_cases |].
    destruct (enum_member transactionSchema doc
                (required (enum ["income"; "expense"] (field "type" TString)))
                ["income"; "expense"] Hvalid) as (t & Ht & Hin);
      [in_list | reflexivity | reflexivity |].
    destruct (required_present transactionSchema doc
                (min 0 (required (field "amount" TNumber))) Hvalid)
      as (v & Hv & Hnull & _); [in_list | reflexivity |].
    cbn [pname min required requiredIf enum field] in Ht, Hv.
    rewrite !inserted_other by discriminate.
    unfold touchUpdatedAt. rewrite !lookup_insert_ne by discriminate.
    split; [eauto |]. split.
    { exists v. split; [exact Hv |]. split; [exact Hnull |]. intros n ->.
      apply (min_bound transactionSchema doc (min 0 (required (field "amount" TNumber))) 0 n
               Hvalid); [in_list | reflexivity | exact Hv]. }
    split.
    { apply present_inserted; [discriminate |].
      apply (present_touched now (fields doc) "date"); [discriminate |].
      apply (required_present transactionSchema doc (required (field "date" TDate)) Hvalid);
        [in_list | reflexivity]. }
    split.
    { apply present_inserted; [discriminate |].
      apply (present_touched now (fields doc) "category"); [discriminate |].
      apply (required_present transactionSchema doc (required (field "category" TString))
               Hvalid); [in_list | reflexivity]. }
    split.
    { apply present_inserted; [discriminate |].
      apply (present_touched now (fields doc) "description"); [discriminate |].
      apply (required_present transactionSchema doc (required (field "description" TString))
               Hvalid); [in_list | reflexivity]. }
    split; [|apply lookup_insert_eq].
    intros Hincome. apply present_inserted; [discriminate |].
    apply (present_touched now (fields doc) "customerName"); [discriminate |].
    apply (required_present transactionSchema doc
             (requiredIf (fun this => bool_decide (this !! "type" = Some (BStr "income")))
                (field "customerName" TString)) Hvalid); [in_list |].
    cbn [prequired requiredIf]. now apply bool_decide_eq_true.
  - unfold post_balance_items in Hserve.
    destruct (save _ _ _ _ _) as [[saved coll]|] eqn:Hsave; cbn [bind catch500] in Hserve;
      injection Hserve as <- <-; [|discriminate Hcreated].
    apply save_ok in Hsave as (Hvalid & -> & ->). cbn [preSave balanceItemSchema].
    set (doc := construct balanceItemSchema now (newObjectId db) _) in *.
    do 2 eexists. split; [reflexivity |]. split; [reflexivity |].
    split; [apply inserted_cases |].
    destruct (enum_member balanceItemSchema doc
                (required (enum ["asset"; "liability"; "equity"] (field "type" TString)))
                ["asset"; "liability"; "equity"] Hvalid) as (t & Ht & Hin);
      [in_list | reflexivity | reflexivity |].
    destruct (required_present balanceItemSchema doc
                (min 0 (required (field "amount" TNumber))) Hvalid)
      as (v & Hv & Hnull & _); [in_list | reflexivity |].
    cbn [pname min required requiredIf enum field] in Ht, Hv.
    rewrite !inserted_other by discriminate.
    unfold touchUpdatedAt. rewrite !lookup_insert_ne by discriminate.
    split; [eauto |]. split.
    { exists v. split; [exact Hv |]. split; [exact Hnull |]. intros n ->.
      apply (min_bound balanceItemSchema doc (min 0 (required (field "amount" TNumber))) 0 n
               Hvalid); [in_list | reflexivity | exact Hv]. }
    split.
    { apply present_inserted; [discriminate |].
      apply (present_touched now (fields doc) "date"); [discriminate |].
      apply (required_present balanceItemSchema doc (required (field "date" TDate)) Hvalid);
        [in_list | reflexivity]. }
    split.
    { apply present_inserted; [discriminate |].
      apply (present_touched now (fields doc) "category"); [discriminate |].
      apply (required_present balanceItemSchema doc (required (field "category" TString))
               Hvalid); [in_list | reflexivity]. }
    split.
    { apply present_inserted; [discriminate |].
      apply (present_touched now (fields doc) "description"); [discriminate |].
      apply (required_present balanceItemSchema doc (required (field "description" TString))
               Hvalid); [in_list | reflexivity]. }
    split; [|apply lookup_insert_eq].
    intros Hincome. rewrite Ht in Hincome. injection Hincome as ->.
    repeat (apply elem_of_cons in Hin as [Hin | Hin]; [discriminate Hin |]).
    now apply elem_of_nil in Hin.
Qed.

(** X10. A 201 of [POST /transactions] or [POST /balance-items] means one
    record was added that passed the schema: its type is one the [enum]
    admits, its amount is set, not null and not below 0, its date,
    category and description are set and not empty, an income names its
    customer, and [updatedAt] is the clock of the request. The record
    sent back is the stored one, but for a payload whose [_id] is
    [null]: then the record is stored under a generated identifier and
    sent back with [_id] still [null]. *)
Theorem created_ledger_record_is_valid (env : Env) (route : Route) (now : Z) (db db' : DB)
    (req : Request) (res : Response)
    (Hroute : route = PostTransactions ∨ route = PostBalanceItems)
    (Hserve : serve env route now db req = (res, db'))
    (Hcreated : status res = 201) :
  exists sent stored,
    data res = Some (DataDoc sent) ∧
    created route db' = (created route db ++ [stored])%list ∧
    (stored = sent ∨
     (sent !! "_id" = Some BNull ∧ stored = <["_id" := BOid (newObjectId db)]> sent)) ∧
    (exists t, stored !! "type" = Some (BStr t) ∧ t ∈ allowedTypes route) ∧
    (exists v, stored !! "amount" = Some v ∧ v ≠ BNull ∧ forall n, v = BNum n -> 0 <= n) ∧
    present stored "date" ∧ present stored "category" ∧ present stored "description" ∧
    (stored !! "type" = Some (BStr "income") -> present stored "customerName") ∧
    stored !! "updatedAt" = Some (BDate now).
Proof.
  assert (Hhandler : exists claim,
            match route with
            | PostTransactions => post_transactions claim now db req
            | _ => post_balance_items claim now db req
            end = (res, db')).
  { destruct Hroute as [-> | ->]; cbn [serve] in Hserve; unfold protected in Hserve;
      (destruct (authenticate env now db req) as [rejected|ctx|claim user] eqn:Hauth;
       [injection Hserve as <- <-;
        destruct (authenticate_rejected _ _ _ _ _ Hauth) as [Hstatus _];
        rewrite Hstatus in Hcreated; discriminate Hcreated | eauto ..]). }
  destruct Hhandler as [claim Hhandler].
  exact (ledger_handler_stores_valid route claim now db db' req res Hroute Hhandler Hcreated).
Qed.

Lemma save_unique (sch : Schema) (now : Z) (pk : ObjectId) (d : Document)
    (coll coll' : list Doc) (doc : Doc) :
  save sch now pk d coll = Ok (doc, coll') -> duplicateKey sch (inserted pk doc) coll = false.
Proof.
  unfold save. destruct (validate sch d); [|discriminate].
  destruct (_ !! "_id"); [|discriminate].
  destruct (duplicateKey _ _ _) eqn:Hdup; [discriminate |]. now intros [= <- <-].
Qed.

(** No stored document has the key of a document the indexes let in. *)
Lemma duplicateKey_false (sch : Schema) (d d' : Doc) (coll : list Doc) (idx : list string) :
  duplicateKey sch d coll = false -> idx ∈ ["_id"] :: uniqueIndexes sch -> d' ∈ coll ->
  indexKey idx d' ≠ indexKey idx d.
Proof.
  unfold duplicateKey. intros Hdup Hidx Hd' Heq.
  assert (Htrue : existsb
            (fun idx => existsb (fun d' => bool_decide (indexKey idx d' = indexKey idx d)) coll)
            (["_id"] :: uniqueIndexes sch) = true).
  { apply existsb_exists. exists idx. split; [now apply list_elem_of_In |].
    apply existsb_exists. exists d'. split; [now apply list_elem_of_In |].
    now apply bool_decide_eq_true. }
  congruence.
Qed.

(** An object literal that starts with [userId]: its other properties. *)
Lemma literal_owner (claim : option json) (rest : list (string * option json)) :
  literal (("userId", claim) :: rest) !! "userId"
  = match claim with Some v => Some v | None => literal rest !! "userId" end.
Proof. cbn [literal fold_right]. destruct claim; [apply lookup_insert_eq | reflexivity]. Qed.

Lemma literal_other (claim : option json) (rest : list (string * option json)) (k : string) :
  k ≠ "userId" -> literal (("userId", claim) :: rest) !! k = literal rest !! k.
Proof.
  intros Hk. cbn [literal fold_right].
  destruct claim; [apply lookup_insert_ne; congruence | reflexivity].
Qed.

(** The fields of the object [POST /categories] and the default
    categories are built from, in the new document. *)
Lemma category_fields (now : Z) (fresh : ObjectId) (claim : option json) (type name : json)
    (flag : bool) (owner kind label : bson) :
  let c := fields (construct categorySchema now fresh
                     (literal [("userId", claim); ("type", Some type);
                               ("name", Some name); ("isDefault", Some (JBool flag))])) in
  (forall uid, claim = Some uid ->
     castValue (required (field "userId" TObjectId)) uid = Some owner ->
     c !! "userId" = Some owner) ∧
  (castValue (required (enum ["income"; "expense"] (field "type" TString))) type = Some kind ->
   c !! "type" = Some kind) ∧
  (castValue (trimmed (required (field "name" TString))) name = Some label ->
   c !! "name" = Some label) ∧
  c !! "isDefault" = Some (BBool flag) ∧
  c !! "_id" = Some (BOid fresh).
Proof.
  cbv zeta.
  split; [|split; [|split; [|split]]].
  - intros uid -> Hcast.
    eapply (construct_path categorySchema _ _ _ [] (required (field "userId" TObjectId)));
      [reflexivity | | apply lookup_insert_eq | exact Hcast].
    repeat (constructor; [discriminate |]). constructor.
  - intros Hcast.
    eapply (construct_path categorySchema _ _ _ [_]
              (required (enum ["income"; "expense"] (field "type" TString))));
      [reflexivity | | | exact Hcast].
    + repeat (constructor; [discriminate |]). constructor.
    + cbn [pname required requiredIf enum field].
      rewrite literal_other by discriminate. apply lookup_insert_eq.
  - intros Hcast.
    eapply (construct_path categorySchema _ _ _ [_; _]
              (trimmed (required (field "name" TString))));
      [reflexivity | | | exact Hcast].
    + repeat (constructor; [discriminate |]). constructor.
    + cbn [pname required requiredIf trimmed field].
      rewrite literal_other by discriminate. cbn [literal fold_right].
      rewrite !lookup_insert_ne by discriminate. apply lookup_insert_eq.
  - eapply (construct_path categorySchema _ _ _ [_; _; _]
              (withDefault (fun _ => BBool false) (field "isDefault" TBoolean)) _
              (JBool flag));
      [reflexivity | | | reflexivity].
    + repeat (constructor; [discriminate |]). constructor.
    + cbn [pname withDefault field].
      rewrite literal_other by discriminate. cbn [literal fold_right].
      rewrite !lookup_insert_ne by discriminate. apply lookup_insert_eq.
  - apply construct_id.
    + rewrite literal_other by discriminate. cbn [literal fold_right].
      rewrite !lookup_insert_ne by discriminate. apply lookup_empty.
    + repeat (constructor; [discriminate |]). constructor.
Qed.

(** X11. A 201 of [POST /categories] means one category was added: it is
    not a default category, whatever the body says of [isDefault]; its
    type is income or expense; its name is set and not empty, a name
    given as a string being stored trimmed; and no category already
    stored has its owner, type and name. *)
Theorem posted_category_is_plain_and_new (env : Env) (now : Z) (db db' : DB)
    (req : Request) (res : Response)
    (Hserve : serve env PostCategories now db req = (res, db'))
    (Hcreated : status res = 201) :
  exists c,
    categories db' = (categories db ++ [c])%list ∧
    data res = Some (DataDoc c) ∧
    c !! "isDefault" = Some (BBool false) ∧
    (exists t, c !! "type" = Some (BStr t) ∧ t ∈ allowedTypes PostCategories) ∧
    present c "name" ∧
    (forall n, body req !! "name" = Some (JStr n) -> c !! "name" = Some (BStr (trim n))) ∧
    (forall c', c' ∈ categories db ->
       ¬ (c' !! "userId" = c !! "userId" ∧ c' !! "type" = c !! "type" ∧
          c' !! "name" = c !! "name")).
Proof.
  assert (Hhandler : exists claim, post_categories claim now db req = (res, db')).
  { cbn [serve] in Hserve. unfold protected in Hserve.
    destruct (authenticate env now db req) as [rejected|ctx|claim user] eqn:Hauth; [|eauto ..].
    injection Hserve as <- <-.
    destruct (authenticate_rejected _ _ _ _ _ Hauth) as [Hstatus _].
    rewrite Hstatus in Hcreated. discriminate Hcreated. }
  clear Hserve. destruct Hhandler as [claim Hserve].
  unfold post_categories in Hserve.
  destruct (body req !! "type") as [type|]; [|injection Hserve as <- <-; discriminate].
  destruct (body req !! "name") as [name|]; [|injection Hserve as <- <-; discriminate].
  destruct (_ || _)%bool; [injection Hserve as <- <-; discriminate |].
  destruct (findOne categorySchema _ _) as [[existing|]|]; cbn [bind catch500] in Hserve;
    [injection Hserve as <- <-; discriminate | | injection Hserve as <- <-; discriminate].
  destruct (save categorySchema _ _ _ _) as [[saved coll]|] eqn:Hsave;
    cbn [bind catch500] in Hserve; injection Hserve as <- <-; [|discriminate Hcreated].
  pose proof (save_unique _ _ _ _ _ _ _ Hsave) as Hunique.
  apply save_ok in Hsave as (Hvalid & -> & ->). cbn [preSave categorySchema] in *.
  set (doc := construct categorySchema now (newObjectId db) _) in *.
  destruct (category_fields now (newObjectId db) claim type name false
              BNull BNull BNull) as (_ & _ & _ & Hflag & Hfresh).
  fold doc in Hfresh. rewrite (inserted_id _ _ _ Hfresh) in *.
  eexists. split; [reflexivity |]. split; [reflexivity |]. split; [exact Hflag |].
  split.
  { apply (enum_member categorySchema doc
             (required (enum ["income"; "expense"] (field "type" TString))) _ Hvalid);
      [in_list | reflexivity | reflexivity]. }
  split.
  { apply (required_present categorySchema doc (trimmed (required (field "name" TString)))
             Hvalid); [in_list | reflexivity]. }
  split.
  { intros n [= ->].
    now apply (category_fields now (newObjectId db) claim type (JStr n) false
                 BNull BNull (BStr (trim n))). }
  intros c' Hc' (Hu & Ht & Hn).
  apply (duplicateKey_false categorySchema (fields doc) c' (categories db)
           ["userId"; "type"; "name"] Hunique); [in_list | exact Hc' |].
  unfold indexKey. cbn [fmap list_fmap]. now rewrite Hu, Ht, Hn.
Qed.

(** X12. A category the caller already has is not created again: after
    the guard, [POST /categories] with the type and, up to surrounding
    blanks, the name of one of the caller's categories is answered 400
    "Kategori sudah ada", and nothing is stored. *)
Theorem duplicate_category_is_refused (env : Env) (now : Z) (db : DB) (req : Request)
    (ctx : AuthContext) (t n : string) (c : Doc)
    (Hauth : authenticate env now db req = Next ctx)
    (Htype : body req !! "type" = Some (JStr t))
    (Hname : body req !! "name" = Some (JStr n))
    (Ht : t ≠ "") (Hn : n ≠ "")
    (Hc : c ∈ categories db)
    (Howner : c !! "userId" = callerId ctx)
    (Hctype : c !! "type" = Some (BStr t))
    (Hcname : c !! "name" = Some (BStr (trim n))) :
  serve env PostCategories now db req = (failure 400 "Kategori sudah ada", db).
Proof.
  destruct (authenticate_next _ _ _ _ _ Hauth) as (uid & Huid & _ & Hcaller).
  cbn [serve]. unfold protected. rewrite Hauth. unfold post_categories.
  rewrite Htype, Hname.
  destruct t as [|a t]; [congruence |]. destruct n as [|b n]; [congruence |].
  cbn [truthy negb orb]. unfold findOne. cbn [castFilter].
  rewrite (castCondition_oid categorySchema "userId" _ (required (field "userId" TObjectId))
             eq_refl eq_refl), Huid.
  cbn [bind castCondition lookupPath String.eqb Ascii.eqb Bool.eqb categorySchema paths
       List.find pname required requiredIf enum trimmed field from_option castValue ptype
       applySetters plowercase ptrim].
  destruct (find_some_of
              (fun d => equals "userId" (BOid uid) d
                        && (equals "type" (BStr (String a t)) d
                            && (equals "name" (BStr (trim (String b n))) d && true)))%bool
              (categories db) c Hc) as [found Hfound].
  { unfold equals. rewrite Howner, Hcaller, Hctype, Hcname.
    now rewrite !bool_decide_eq_true_2. }
  rewrite Hfound. reflexivity.
Qed.

End Stored.

(** ** Registration and the default categories *)

Section Defaults.
Context `{Platform}.

Lemma docId_some (d : Doc) (id : ObjectId) : docId d = Some id -> d !! "_id" = Some (BOid id).
Proof.
  unfold docId. destruct (d !! "_id") as [[]|]; try discriminate. now intros [= ->].
Qed.

(** One loop of [createDefaultCategories]: it only adds categories, at
    most one per name, each owned by the user, of the type of the loop,
    flagged as default and named, trimmed, by one of the names. *)
Lemma createDefaults_adds (now : Z) (uid : ObjectId) (type : string) (names : list string)
    (db : DB) :
  exists added,
    categories (fst (createDefaults now uid type names db)) = (categories db ++ added)%list ∧
    (List.length added <= List.length names)%nat ∧
    Forall (fun c => c !! "userId" = Some (BOid uid) ∧
                     c !! "type" = Some (BStr type) ∧
                     c !! "isDefault" = Some (BBool true) ∧
                     exists n, n ∈ names ∧ c !! "name" = Some (BStr (trim n))) added.
Proof.
  revert db. induction names as [|name names IH]; intros db; cbn [createDefaults].
  - exists []. cbn. rewrite app_nil_r. auto.
  - destruct (createCategory _ _ _) as [db1|] eqn:Hcreate.
    + apply createCategory_appends in Hcreate as (_ & _ & _ & Hc).
      destruct (category_fields now (newObjectId db) (Some (JOid uid)) (JStr type) (JStr name)
                  true (BOid uid) (BStr type) (BStr (trim name)))
        as (Howner & Hkind & Hlabel & Hflag & Hfresh).
      rewrite (inserted_id _ _ _ Hfresh) in Hc.
      destruct (IH db1) as (added & Hadded & Hlen & Hall).
      eexists (_ :: added). rewrite Hadded, Hc, <- app_assoc.
      split; [reflexivity |]. split; [cbn; lia |].
      constructor.
      * split; [now apply (Howner (JOid uid)) |]. split; [now apply Hkind |].
        split; [exact Hflag |].
        exists name. split; [apply list_elem_of_here | now apply Hlabel].
      * apply (Forall_impl _ _ _ Hall). intros c (Hu & Ht & Hd & n & Hn & Hname).
        repeat split; try assumption. exists n. split; [now apply list_elem_of_further | exact Hname].
    + exists []. cbn. rewrite app_nil_r. split; [reflexivity |]. split; [lia | constructor].
Qed.

(** [createDefaultCategories] only adds default categories of the user,
    eight at most. *)
Lemma createDefaultCategories_adds (now : Z) (uid : ObjectId) (db : DB) :
  exists added,
    categories (createDefaultCategories now uid db) = (categories db ++ added)%list ∧
    (List.length added <= 8)%nat ∧
    Forall (isDefaultCategoryOf uid) added.
Proof.
  assert (Hincome : forall c,
            c !! "userId" = Some (BOid uid) ∧ c !! "type" = Some (BStr "income") ∧
            c !! "isDefault" = Some (BBool true) ∧
            (exists n, n ∈ defaultIncomeCategories ∧ c !! "name" = Some (BStr (trim n))) ->
            isDefaultCategoryOf uid c).
  { intros c (Hu & Ht & Hd & n & Hn & Hname). repeat split; try assumption. left.
    split; [exact Ht |]. exists n. split; [exact Hn |]. rewrite Hname.
    unfold defaultIncomeCategories in Hn.
    repeat (apply elem_of_cons in Hn as [-> | Hn]; [reflexivity |]).
    now apply elem_of_nil in Hn. }
  assert (Hexpense : forall c,
            c !! "userId" = Some (BOid uid) ∧ c !! "type" = Some (BStr "expense") ∧
            c !! "isDefault" = Some (BBool true) ∧
            (exists n, n ∈ defaultExpenseCategories ∧ c !! "name" = Some (BStr (trim n))) ->
            isDefaultCategoryOf uid c).
  { intros c (Hu & Ht & Hd & n & Hn & Hname). repeat split; try assumption. right.
    split; [exact Ht |]. exists n. split; [exact Hn |]. rewrite Hname.
    unfold defaultExpenseCategories in Hn.
    repeat (apply elem_of_cons in Hn as [-> | Hn]; [reflexivity |]).
    now apply elem_of_nil in Hn. }
  unfold createDefaultCategories.
  destruct (createDefaults_adds now uid "income" defaultIncomeCategories db)
    as (added1 & Hc1 & Hlen1 & Hall1).
  destruct (createDefaults now uid "income" defaultIncomeCategories db) as [db1 [e|]];
    cbn [fst] in Hc1.
  - exists added1. split; [exact Hc1 |]. split; [cbn in Hlen1; lia |].
    exact (Forall_impl _ _ _ Hall1 Hincome).
  - destruct (createDefaults_adds now uid "expense" defaultExpenseCategories db1)
      as (added2 & Hc2 & Hlen2 & Hall2).
    exists (added1 ++ added2)%list. rewrite Hc2, Hc1, <- app_assoc.
    split; [reflexivity |]. split; [rewrite length_app; cbn in Hlen1, Hlen2; lia |].
    apply Forall_app. split.
    + exact (Forall_impl _ _ _ Hall1 Hincome).
    + exact (Forall_impl _ _ _ Hall2 Hexpense).
Qed.

(** X13. A registration answered 201 has added one user and, for this
    user, default categories only: every category added is owned by the
    new user, flagged as default and named as one of the four income or
    four expense defaults; there are eight at most; the transactions and
    balance items are as they were. *)
Theorem registration_adds_default_categories (env : Env) (now : Z) (db db' : DB)
    (req : Request) (res : Response)
    (Hserve : serve env PostRegister now db req = (res, db'))
    (Hcreated : status res = 201) :
  exists user id added,
    users db' = (users db ++ [user])%list ∧
    user !! "_id" = Some (BOid id) ∧
    categories db' = (categories db ++ added)%list ∧
    (List.length added <= 8)%nat ∧
    Forall (isDefaultCategoryOf id) added ∧
    transactions db' = transactions db ∧ balanceItems db' = balanceItems db.
Proof.
  cbn [serve] in Hserve.
  destruct (register_appends _ _ _ _ _ Hserve) as (Htxs & Hitems & _).
  unfold post_register in Hserve.
  destruct (_ || _)%bool; [injection Hserve as <- <-; discriminate |].
  destruct (lengthBelow _ _) as [[]|]; cbn [bind catch500] in Hserve;
    try (injection Hserve as <- <-; discriminate).
  destruct (toLowerCaseOf _) as [lower|]; cbn [bind catch500] in Hserve;
    [|injection Hserve as <- <-; discriminate].
  destruct (findOne _ _ _) as [[existing|]|]; cbn [bind catch500] in Hserve;
    [injection Hserve as <- <-; discriminate | | injection Hserve as <- <-; discriminate].
  destruct (save _ _ _ _ _) as [[saved coll]|] eqn:Hsave; cbn [bind catch500] in Hserve;
    [|injection Hserve as <- <-; discriminate].
  destruct (docId saved) as [id|] eqn:Hid; cbn [ofOption bind catch500] in Hserve;
    [|injection Hserve as <- <-; discriminate].
  injection Hserve as <- <-.
  apply save_ok in Hsave as (_ & Hsaved & ->).
  rewrite (inserted_id _ _ _ (docId_some _ _ Hid)) in *.
  destruct (createDefaultCategories_adds now id (tick (withUsers db (users db ++ [saved]))))
    as (added & Hadded & Hlen & Hall).
  exists saved, id, added. rewrite createDefaultCategories_users.
  split; [reflexivity |]. split; [now apply docId_some |].
  split; [exact Hadded |]. auto.
Qed.

(** X14. Registration is answered 201 only for a new email and a
    password that passes the checks: the email is a string that is not
    empty, the password is given and not shorter than four, no stored
    user has the lower-cased email, and the user added carries it. *)
Theorem registration_accepts_new_emails_only (env : Env) (now : Z) (db db' : DB)
    (req : Request) (res : Response)
    (Hserve : serve env PostRegister now db req = (res, db'))
    (Hcreated : status res = 201) :
  exists email user,
    body req !! "email" = Some (JStr email) ∧ email ≠ "" ∧
    truthy (body req !! "password") = true ∧
    lengthBelow (body req !! "password") 4 = Ok false ∧
    (forall u, u ∈ users db -> u !! "email" ≠ Some (BStr (toLowerCase email))) ∧
    users db' = (users db ++ [user])%list ∧
    user !! "email" = Some (BStr (toLowerCase email)).
Proof.
  cbn [serve] in Hserve.
  destruct (register_stores_lowercase _ _ _ _ _ Hserve Hcreated)
    as (email & user & Hemail & Husers & Huser).
  exists email, user. split; [exact Hemail |].
  unfold post_register in Hserve. rewrite Hemail in Hserve.
  destruct email as [|a email]; [injection Hserve as <- <-; discriminate |].
  split; [discriminate |]. cbn [truthy negb orb] in Hserve.
  destruct (truthy (body req !! "password")); [|injection Hserve as <- <-; discriminate].
  split; [reflexivity |]. cbn [negb] in Hserve.
  destruct (lengthBelow _ _) as [[]|]; cbn [bind catch500] in Hserve;
    try (injection Hserve as <- <-; discriminate).
  split; [reflexivity |].
  cbn [toLowerCaseOf bind] in Hserve. rewrite findOne_email in Hserve. cbn [bind] in Hserve.
  destruct (List.find _ (users db)) eqn:Hfind; [injection Hserve as <- <-; discriminate |].
  split; [|auto].
  intros u Hu%list_elem_of_In Hmail.
  pose proof (List.find_none _ _ Hfind u Hu) as Hnone. cbn beta in Hnone.
  now rewrite bool_decide_eq_true_2 in Hnone.
Qed.

End Defaults.

(** ** Deleting and updating an own record *)

(** The first match of a condition splits the collection; removing or
    replacing the first match works on that place. *)
Lemma find_split (f : Doc -> bool) (l : list Doc) (d : Doc) :
  List.find f l = Some d ->
  exists l1 l2,
    l = (l1 ++ d :: l2)%list ∧ (forall x, x ∈ l1 -> f x = false) ∧ f d = true ∧
    removeFirst f l = (l1 ++ l2)%list ∧
    forall d', replaceFirst f d' l = (l1 ++ d' :: l2)%list.
Proof.
  induction l as [|x l IH]; cbn [List.find removeFirst replaceFirst]; [discriminate |].
  destruct (f x) eqn:Hx.
  - intros [= ->]. exists [], l. cbn. split; [reflexivity |].
    split; [intros y Hy; now apply elem_of_nil in Hy | auto].
  - intros Hfind. destruct (IH Hfind) as (l1 & l2 & -> & Hl1 & Hd & Hrem & Hrep).
    exists (x :: l1), l2. cbn. rewrite Hrem. split; [reflexivity |]. split.
    + intros y [-> | Hy]%elem_of_cons; [exact Hx | now apply Hl1].
    + split; [exact Hd |]. split; [reflexivity |]. intros d'. now rewrite Hrep.
Qed.

Section OwnRecords.
Context `{Platform}.

Lemma owner_filter_iff (ctx : AuthContext) (pathId : string) (id uid : ObjectId) (d : Doc) :
  parseObjectId pathId = Some id -> callerId ctx = Some (BOid uid) ->
  (equals "_id" (BOid id) d && equals "userId" (BOid uid) d)%bool = true <->
  ownedBy ctx pathId d.
Proof.
  intros Hid Hcaller. unfold ownedBy. rewrite Hid, Hcaller, andb_true_iff, !equals_oid.
  reflexivity.
Qed.

Lemma transaction_filter_iff (ctx : AuthContext) (pathId : string) (id uid : ObjectId)
    (d : Doc) :
  parseObjectId pathId = Some id -> callerId ctx = Some (BOid uid) ->
  (equals "_id" (BOid id) d && (equals "userId" (BOid uid) d && true))%bool = true <->
  ownedBy ctx pathId d.
Proof.
  intros Hid Hcaller. rewrite andb_true_r. now apply owner_filter_iff.
Qed.

Lemma category_filter_iff (ctx : AuthContext) (pathId : string) (id uid : ObjectId)
    (d : Doc) :
  parseObjectId pathId = Some id -> callerId ctx = Some (BOid uid) ->
  (equals "_id" (BOid id) d
   && (equals "userId" (BOid uid) d && (equals "isDefault" (BBool false) d && true)))%bool
  = true <->
  ownedBy ctx pathId d ∧ d !! "isDefault" = Some (BBool false).
Proof.
  intros Hid Hcaller.
  rewrite <- (owner_filter_iff ctx pathId id uid d Hid Hcaller).
  rewrite andb_true_r, andb_assoc, andb_true_iff. apply and_iff_compat_l.
  unfold equals. apply bool_decide_eq_true.
Qed.

Lemma ownedBy_parses (ctx : AuthContext) (pathId : string) (d : Doc) :
  ownedBy ctx pathId d -> exists id, parseObjectId pathId = Some id.
Proof. unfold ownedBy. destruct (parseObjectId pathId); [eauto | tauto]. Qed.

(** X15. Deleting an own record: after the guard, when the caller has a
    record under the path identifier (for a category: one that is not a
    default), [DELETE /transactions/:id] and [DELETE /categories/:id]
    answer 200, and the store loses exactly the first such record of the
    collection; every other record stays, in its place. *)
Theorem delete_removes_the_own_record (env : Env) (route : Route) (now : Z) (db : DB)
    (req : Request) (ctx : AuthContext)
    (Hroute : isDelete route = true)
    (Hauth : authenticate env now db req = Next ctx)
    (Htarget : exists d, d ∈ addressed route db ∧ deletable ctx route (params_id req) d) :
  exists l1 d l2,
    addressed route db = (l1 ++ d :: l2)%list ∧
    deletable ctx route (params_id req) d ∧
    (forall x, x ∈ l1 -> ¬ deletable ctx route (params_id req) x) ∧
    serve env route now db req = (deleted route, withAddressed route db (l1 ++ l2)).
Proof.
  destruct (authenticate_next _ _ _ _ _ Hauth) as (uid & Huid & _ & Hcaller).
  destruct Htarget as (d0 & Hin & Hown & Hplain).
  destruct (ownedBy_parses _ _ _ Hown) as [id Hid].
  destruct route; try discriminate Hroute; cbn [addressed] in Hin; cbn [serve];
    unfold protected; rewrite Hauth.
  - unfold delete_transactions_id, findOneAndDelete.
    rewrite transaction_filter, Hid, Huid. cbn [bind].
    destruct (find_some_of
                (fun d => equals "_id" (BOid id) d && (equals "userId" (BOid uid) d && true))%bool
                _ d0 Hin
                (proj2 (transaction_filter_iff ctx _ id uid d0 Hid Hcaller) Hown))
      as [d Hfind].
    rewrite Hfind.
    destruct (find_split _ _ _ Hfind) as (l1 & l2 & Hsplit & Hl1 & Hd & Hrem & _).
    rewrite Hrem. exists l1, d, l2. cbn [addressed deleted withAddressed catch500].
    split; [exact Hsplit |]. split; [|split; [|reflexivity]].
    + split; [|discriminate].
      exact (proj1 (transaction_filter_iff ctx _ id uid d Hid Hcaller) Hd).
    + intros x Hx [Hx' _].
      apply (transaction_filter_iff ctx _ id uid x Hid Hcaller) in Hx'.
      rewrite (Hl1 x Hx) in Hx'. discriminate Hx'.
  - unfold delete_categories_id, findOneAndDelete.
    rewrite category_filter, Hid, Huid. cbn [bind].
    destruct (find_some_of
                (fun d => equals "_id" (BOid id) d
                          && (equals "userId" (BOid uid) d
                              && (equals "isDefault" (BBool false) d && true)))%bool
                _ d0 Hin
                (proj2 (category_filter_iff ctx _ id uid d0 Hid Hcaller)
                   (conj Hown (Hplain eq_refl))))
      as [d Hfind].
    rewrite Hfind.
    destruct (find_split _ _ _ Hfind) as (l1 & l2 & Hsplit & Hl1 & Hd & Hrem & _).
    rewrite Hrem. exists l1, d, l2. cbn [addressed deleted withAddressed catch500].
    split; [exact Hsplit |]. split; [|split; [|reflexivity]].
    + apply (category_filter_iff ctx _ id uid d Hid Hcaller) in Hd as [Hd1 Hd2].
      split; [exact Hd1 | intros _; exact Hd2].
    + intros x Hx [Hx1 Hx2].
      pose proof (proj2 (category_filter_iff ctx _ id uid x Hid Hcaller)
                    (conj Hx1 (Hx2 eq_refl))) as Hx'.
      rewrite (Hl1 x Hx) in Hx'. discriminate Hx'.
Qed.

(** Keys that are no operators, and that are either other than [k] or no
    path of the schema, leave [k] alone. *)
Lemma castUpdateKeys_keeps (sch : Schema) (l : list (string * json)) (k : string)
    (change : Doc -> Doc) (d : Doc) :
  Forall (fun kv => startsWith "$" (fst kv) = false ∧
                    (fst kv = k -> lookupPath sch k = None)) l ->
  castUpdateKeys sch l = Ok change ->
  change d !! k = d !! k.
Proof.
  intros Hl. revert change d.
  induction Hl as [|[k' v'] l [Hop Hk] _ IH]; intros change d; cbn [castUpdateKeys].
  - now intros [= <-].
  - unfold castUpdateKey. cbn [fst] in Hk, Hop. rewrite Hop.
    destruct (lookupPath sch k') as [p|] eqn:Hp.
    + destruct (castValue p v') as [b|]; [|discriminate]. cbn [bind].
      destruct (castUpdateKeys sch l) as [g|]; [|discriminate]. cbn [bind].
      intros [= <-]. rewrite (IH g) by reflexivity. apply lookup_insert_ne.
      intros ->. rewrite (Hk eq_refl) in Hp. discriminate Hp.
    + cbn [bind]. destruct (castUpdateKeys sch l) as [g|]; [|discriminate]. cbn [bind].
      intros [= <-]. now apply IH.
Qed.

(** X16. Updating an own transaction: after the guard, when the caller
    has a transaction under the path identifier and the body has no
    operator and no [_id] and casts, [PUT /transactions/:id] answers 200
    with the record after the update, which takes the place of the first
    such transaction. In it, [updatedAt] is the clock of the request,
    every path of the schema the body has a value for carries the cast of
    that value, whatever the validators of the schema would say of it,
    and everything else is as it was. *)
Theorem put_updates_the_own_record (env : Env) (now : Z) (db : DB) (req : Request)
    (ctx : AuthContext)
    (Hauth : authenticate env now db req = Next ctx)
    (Hplain : map_Forall (fun k _ => startsWith "$" k = false) (body req))
    (Hnoid : body req !! "_id" = None)
    (Hcasts : updateCasts now req)
    (Htarget : exists d, d ∈ transactions db ∧ ownedBy ctx (params_id req) d) :
  exists l1 d l2 updated,
    transactions db = (l1 ++ d :: l2)%list ∧
    ownedBy ctx (params_id req) d ∧
    (forall x, x ∈ l1 -> ¬ ownedBy ctx (params_id req) x) ∧
    serve env PutTransactionsId now db req =
    (mkResponse 200 true (Some "Transaksi berhasil diupdate") (Some (DataDoc updated)),
     withTransactions db (l1 ++ updated :: l2)) ∧
    updated !! "updatedAt" = Some (BDate now) ∧
    (forall k v p b,
       k ≠ "updatedAt" -> body req !! k = Some v ->
       lookupPath transactionSchema k = Some p -> castValue p v = Some b ->
       updated !! k = Some b) ∧
    (forall k,
       k ≠ "updatedAt" -> body req !! k = None ∨ lookupPath transactionSchema k = None ->
       updated !! k = d !! k).
Proof.
  destruct (authenticate_next _ _ _ _ _ Hauth) as (uid & Huid & _ & Hcaller).
  destruct Htarget as (d0 & Hin & Hown).
  destruct (ownedBy_parses _ _ _ Hown) as [id Hid].
  destruct Hcasts as [change Hchange].
  cbn [serve]. unfold protected. rewrite Hauth.
  unfold put_transactions_id, findOneAndUpdate.
  rewrite transaction_filter, Hid, Huid. cbn [bind]. rewrite Hchange. cbn [bind].
  destruct (find_some_of
                (fun d => equals "_id" (BOid id) d && (equals "userId" (BOid uid) d && true))%bool
                _ d0 Hin
              (proj2 (transaction_filter_iff ctx _ id uid d0 Hid Hcaller) Hown))
    as [d Hfind].
  rewrite Hfind.
  destruct (find_split _ _ _ Hfind) as (l1 & l2 & Hsplit & Hl1 & Hd & _ & Hrep).
  rewrite Hrep. unfold castUpdate in Hchange.
  set (keys := map_to_list (<["updatedAt" := JNum now]> (body req))) in *.
  assert (Hops : Forall (fun kv : string * json => startsWith "$" (fst kv) = false) keys).
  { apply Forall_forall. intros [k x] Hkx%elem_of_map_to_list. cbn [fst].
    destruct (decide (k = "updatedAt")) as [-> | Hk]; [reflexivity |].
    rewrite lookup_insert_ne in Hkx by congruence. exact (Hplain k x Hkx). }
  assert (Hkeeps : forall k,
            k ≠ "updatedAt" -> body req !! k = None ∨ lookupPath transactionSchema k = None ->
            change d !! k = d !! k).
  { intros k Hk Hor. apply (castUpdateKeys_keeps transactionSchema keys k change d); [|exact Hchange].
    apply Forall_forall. intros [k' x] Hkx. split.
    - exact (proj1 (Forall_forall _ _) Hops _ Hkx).
    - cbn [fst]. intros ->. destruct Hor as [Hnone | Hnone]; [|exact Hnone].
      apply elem_of_map_to_list in Hkx. rewrite lookup_insert_ne in Hkx by congruence.
      congruence. }
  rewrite bool_decide_eq_true_2 by (apply Hkeeps; [discriminate | now left]).
  exists l1, d, l2, (change d). cbn [catch500].
  split; [exact Hsplit |].
  split; [exact (proj1 (transaction_filter_iff ctx _ id uid d Hid Hcaller) Hd) |].
  split.
  { intros x Hx Hx'. apply (transaction_filter_iff ctx _ id uid x Hid Hcaller) in Hx'.
    rewrite (Hl1 x Hx) in Hx'. discriminate Hx'. }
  split; [reflexivity |]. split; [|split; [|exact Hkeeps]].
  - assert (Hclock : (("updatedAt", JNum now) : string * json) ∈ keys)
      by apply elem_of_map_to_list, lookup_insert_eq.
    destruct (castUpdateKeys_casts transactionSchema keys "updatedAt" (JNum now)
                (withDefault dateNow (field "updatedAt" TDate)) change Hops Hclock eq_refl
                Hchange) as [b Hb].
    apply (castUpdateKeys_sets transactionSchema keys "updatedAt" (JNum now)
             (withDefault dateNow (field "updatedAt" TDate)) (BDate now) change d
             (NoDup_fst_map_to_list _) Hops); [exact Hclock | reflexivity | | exact Hchange].
    revert Hb. unfold castValue. cbn [ptype withDefault field].
    now destruct (isTimeValue now).
  - intros k v p b Hk Hv Hp Hb.
    apply (castUpdateKeys_sets transactionSchema keys k v p b change d
             (NoDup_fst_map_to_list _) Hops); [| exact Hp | exact Hb | exact Hchange].
    apply elem_of_map_to_list. now rewrite lookup_insert_ne by congruence.
Qed.

End OwnRecords.

(** ** The token from login to the guard *)

Section Sessions.
Context `{Platform}.

(** The window in which a token of the server verifies. *)
Lemma token_window (env : Env) (now span : Z) (uid key : string) :
  JWT_SECRET env = Some key -> key ≠ "" ->
  Jwt.ms (expiresIn env) = Some span ->
  codesFaithfully key (issuedClaims uid now span) = true ->
  exists token,
    generateToken env now uid = Ok token ∧
    forall now',
      verifyToken env now' (Some token) =
      if now' / 1000 <? now / 1000 + span / 1000 then Some (issuedClaims uid now span)
      else None.
Proof.
  intros Hsecret Hkey Hspan Hcodec.
  eexists. split; [exact (generateToken_issues _ _ _ _ _ Hsecret Hkey Hspan) |].
  intros now'. destruct (Z.ltb_spec (now' / 1000) (now / 1000 + span / 1000)) as [Hlive|Hpast].
  - destruct (token_valid_until_expiry env now now' span uid key Hsecret Hkey Hspan Hcodec
                Hlive) as (token & Hgen & Hver).
    rewrite (generateToken_issues _ _ _ _ _ Hsecret Hkey Hspan) in Hgen.
    injection Hgen as <-. exact Hver.
  - apply (verifyToken_after_ttl env now now' span uid key _ Hsecret Hkey Hspan Hcodec);
      [|exact Hpast].
    exact (generateToken_issues _ _ _ _ _ Hsecret Hkey Hspan).
Qed.

(** X17. The lifetime of a token is the configured one, to the second:
    under a configured secret and a lifetime that parses, the token
    issued at one clock verifies, to the claims it was issued with, at
    every clock whose second is before the second of issue plus the
    lifetime in seconds, and at no later clock. *)
Theorem token_expires_after_lifetime (env : Env) (now span : Z) (uid key : string)
    (Hsecret : JWT_SECRET env = Some key) (Hkey : key ≠ "")
    (Hspan : Jwt.ms (expiresIn env) = Some span)
    (Hcodec : codesFaithfully key (issuedClaims uid now span) = true) :
  exists token,
    generateToken env now uid = Ok token ∧
    forall now',
      (now' / 1000 < now / 1000 + span / 1000 ->
       verifyToken env now' (Some token) = Some (issuedClaims uid now span)) ∧
      (now / 1000 + span / 1000 <= now' / 1000 -> verifyToken env now' (Some token) = None).
Proof.
  destruct (token_window env now span uid key Hsecret Hkey Hspan Hcodec)
    as (token & Hgen & Hwindow).
  exists token. split; [exact Hgen |]. intros now'. rewrite Hwindow.
  destruct (Z.ltb_spec (now' / 1000) (now / 1000 + span / 1000)); split; intros; (reflexivity || lia).
Qed.

(** X18. Without [JWT_EXPIRES_IN], or with an empty one, a token lives
    seven days: it expires 604800 seconds after the second of issue. *)
Theorem default_lifetime_is_seven_days (env : Env) (now : Z) (uid key : string)
    (Hunset : JWT_EXPIRES_IN env = None ∨ JWT_EXPIRES_IN env = Some "")
    (Hsecret : JWT_SECRET env = Some key) (Hkey : key ≠ "")
    (Hcodec : codesFaithfully key (issuedClaims uid now 604800000) = true) :
  exists token,
    generateToken env now uid = Ok token ∧
    forall now',
      verifyToken env now' (Some token) =
      if now' / 1000 <? now / 1000 + 604800
      then Some (mkClaims (Some (JStr uid)) (Some (now / 1000)) None
                   (Some (now / 1000 + 604800)))
      else None.
Proof.
  assert (Hspan : Jwt.ms (expiresIn env) = Some 604800000).
  { unfold expiresIn. now destruct Hunset as [-> | ->]. }
  exact (token_window env now 604800000 uid key Hsecret Hkey Hspan Hcodec).
Qed.

(** The header [Bearer <token>] for a token without a blank: the guard
    takes the token out of it. *)
Lemma bearer_header (token : string) :
  allChars (fun c => negb (Ascii.eqb c " ")) token = true ->
  (String.eqb ("Bearer " ++ token) "" || negb (startsWith "Bearer " ("Bearer " ++ token)))%bool
  = false ∧
  split " " ("Bearer " ++ token) !! 1%nat = Some token.
Proof.
  intros Htoken. split.
  - change ("Bearer " ++ token)
      with (String "B" (String "e" (String "a" (String "r" (String "e" (String "r"
             (String " " token))))))).
    unfold startsWith. cbn. now destruct token.
  - change ("Bearer " ++ token) with ("Bearer" ++ String " " token).
    rewrite split_append by reflexivity. now rewrite (split_piece _ _ Htoken).
Qed.

(** What a login answered with a token has found and issued. *)
Lemma login_issues (env : Env) (now : Z) (db : DB) (req : Request) (token : string)
    (id : ObjectId) (email : option bson) :
  data (fst (post_login env now db req)) = Some (DataLogin token id email) ->
  generateToken env now id = Ok token ∧
  exists user, user ∈ users db ∧ user !! "_id" = Some (BOid id) ∧ user !! "email" = email.
Proof.
  unfold post_login.
  destruct (_ || _)%bool; [discriminate |].
  destruct (toLowerCaseOf _) as [lower|]; cbn [bind catch500]; [|discriminate].
  destruct (findOne _ _ _) as [[user|]|] eqn:Hfind; cbn [bind catch500]; try discriminate.
  destruct (comparePassword _ _) as [[]|]; cbn [bind catch500 negb]; try discriminate.
  destruct (docId user) as [id'|] eqn:Hid; cbn [ofOption bind catch500]; [|discriminate].
  destruct (generateToken _ _ _) as [token'|] eqn:Hgen; cbn [bind catch500]; [|discriminate].
  cbn. intros [= <- <- <-]. split; [exact Hgen |]. exists user.
  split; [|split; [|reflexivity]].
  - unfold findOne in Hfind. destruct (castFilter _ _) as [cond|]; [|discriminate].
    cbn [bind] in Hfind. injection Hfind as Hfind. now apply find_elem in Hfind.
  - unfold docId in Hid. destruct (user !! "_id") as [[]|]; try discriminate.
    now injection Hid as ->.
Qed.

(** X19. The token a login hands out opens the guarded routes for the
    user that logged in, until it expires: whatever requests are served
    after the login, a request that carries the token as a Bearer token
    passes the guard as that user while the token lives, and is answered
    401 "Token tidak valid" from the second it expires. *)
Theorem login_token_passes_guard (env : Env) (now now' span : Z) (db : DB)
    (login req : Request) (token key : string) (id : ObjectId) (email : option bson)
    (later : list (Route * Z * Request))
    (Hlogin : data (fst (serve env PostLogin now db login)) = Some (DataLogin token id email))
    (Hsecret : JWT_SECRET env = Some key) (Hkey : key ≠ "")
    (Hspan : Jwt.ms (expiresIn env) = Some span)
    (Hcodec : codesFaithfully key (issuedClaims id now span) = true)
    (Hblank : allChars (fun c => negb (Ascii.eqb c " ")) token = true)
    (Hid : parseObjectId id = Some id)
    (Hheader : authorization req = Some ("Bearer " ++ token)) :
  let db' := serveAll env later db in
  (now' / 1000 < now / 1000 + span / 1000 ->
   exists ctx,
     authenticate env now' db' req = Next ctx ∧
     reqUserId ctx = id ∧ callerId ctx = Some (BOid id) ∧ reqUser ctx ∈ users db') ∧
  (now / 1000 + span / 1000 <= now' / 1000 ->
   authenticate env now' db' req = Rejected invalidToken).
Proof.
  intros db'. cbn [serve] in Hlogin.
  destruct (login_issues _ _ _ _ _ _ _ Hlogin) as (Hgen & user & Huser & Huid & _).
  destruct (token_window env now span id key Hsecret Hkey Hspan Hcodec)
    as (token' & Hgen' & Hwindow).
  assert (token' = token) as -> by congruence.
  destruct (bearer_header token Hblank) as [Hscheme Htoken].
  unfold authenticate. rewrite Hheader, Hscheme, Htoken, Hwindow.
  split; intros Hclock.
  - rewrite (proj2 (Z.ltb_lt _ _) Hclock). cbn [userId issuedClaims attach].
    rewrite findById_string, Hid.
    destruct (find_some_of (fun d => bool_decide (d !! "_id" = Some (BOid id))) (users db') user)
      as [found Hfound].
    + now apply serveAll_keeps_users.
    + now apply bool_decide_eq_true.
    + rewrite Hfound. apply find_elem in Hfound as [Hin Hfound%bool_decide_eq_true].
      eexists. split; [reflexivity |]. cbn [reqUserId reqUser]. unfold callerId. auto.
  - now rewrite (proj2 (Z.ltb_ge _ _) Hclock).
Qed.

End Sessions.

(** ** The unique indexes *)

Lemma removeFirst_sublist (cond : Doc -> bool) (l : list Doc) :
  removeFirst cond l `sublist_of` l.
Proof.
  induction l as [|x l IH]; cbn [removeFirst]; [reflexivity |].
  destruct (cond x); [now constructor | now constructor].
Qed.

Lemma removeFirst_unique (idx : list string) (cond : Doc -> bool) (coll : list Doc) :
  uniqueOn idx coll -> uniqueOn idx (removeFirst cond coll).
Proof.
  unfold uniqueOn. intros Hcoll. apply (sublist_NoDup _ _ Hcoll).
  apply fmap_sublist, removeFirst_sublist.
Qed.

(** Replacing the first match by a document with the same key leaves the
    keys of the collection as they were. *)
Lemma replaceFirst_keys (idx : list string) (cond : Doc -> bool) (d d' : Doc)
    (coll : list Doc) :
  List.find cond coll = Some d -> indexKey idx d' = indexKey idx d ->
  indexKey idx <$> replaceFirst cond d' coll = indexKey idx <$> coll.
Proof.
  intros Hfind Hkey.
  destruct (find_split _ _ _ Hfind) as (l1 & l2 & -> & _ & _ & _ & Hrep).
  rewrite Hrep, !fmap_app, !fmap_cons. now rewrite Hkey.
Qed.

Section Indexes.
Context `{Platform}.

(** The insert of [save] keeps every unique index of the schema. *)
Lemma save_keeps_unique (sch : Schema) (now : Z) (pk : ObjectId) (d : Document)
    (coll coll' : list Doc) (doc : Doc) (idx : list string) :
  save sch now pk d coll = Ok (doc, coll') ->
  idx ∈ ["_id"] :: uniqueIndexes sch ->
  uniqueOn idx coll -> uniqueOn idx coll'.
Proof.
  intros Hsave Hidx Hcoll. pose proof (save_unique _ _ _ _ _ _ _ Hsave) as Hfresh.
  apply save_ok in Hsave as (_ & _ & ->). unfold uniqueOn. rewrite fmap_app.
  apply NoDup_app. split; [exact Hcoll |]. split; [|apply NoDup_singleton].
  intros key (d' & -> & Hd')%list_elem_of_fmap Hkey.
  apply list_elem_of_singleton in Hkey.
  exact (duplicateKey_false sch (inserted pk doc) d' coll idx Hfresh Hidx Hd' Hkey).
Qed.

Lemma createCategory_keeps_indexes (now : Z) (obj : object) (db db' : DB) :
  createCategory now obj db = Ok db' -> indexesHold db -> indexesHold db'.
Proof.
  unfold createCategory. destruct (save _ _ _ _ _) as [[saved coll]|] eqn:Hsave; [|discriminate].
  intros [= <-] (Ht & Hb & Hc & Hn). repeat split; try assumption; cbn.
  - apply (save_keeps_unique _ _ _ _ _ _ _ ["_id"] Hsave); [in_list | exact Hc].
  - apply (save_keeps_unique _ _ _ _ _ _ _ ["userId"; "type"; "name"] Hsave);
      [in_list | exact Hn].
Qed.

Lemma createDefaults_keeps_indexes (now : Z) (userId : ObjectId) (type : string)
    (names : list string) (db : DB) :
  indexesHold db -> indexesHold (fst (createDefaults now userId type names db)).
Proof.
  revert db. induction names as [|name names IH]; intros db Hdb; [exact Hdb |].
  cbn [createDefaults]. destruct (createCategory _ _ _) as [db'|] eqn:Hcreate; [|exact Hdb].
  apply IH. exact (createCategory_keeps_indexes _ _ _ _ Hcreate Hdb).
Qed.

Lemma createDefaultCategories_keeps_indexes (now : Z) (userId : ObjectId) (db : DB) :
  indexesHold db -> indexesHold (createDefaultCategories now userId db).
Proof.
  intros Hdb. unfold createDefaultCategories.
  pose proof (createDefaults_keeps_indexes now userId "income" defaultIncomeCategories db Hdb)
    as H1.
  destruct (createDefaults now userId "income" defaultIncomeCategories db) as [db1 [e|]];
    cbn [fst] in H1; [exact H1 |].
  now apply createDefaults_keeps_indexes.
Qed.

(** One request keeps the unique indexes. *)
Lemma serve_keeps_indexes (env : Env) (route : Route) (now : Z) (db : DB) (req : Request) :
  indexesHold db -> indexesHold (snd (serve env route now db req)).
Proof.
  intros Hdb.
  destruct (isRead route) eqn:Hread.
  { now rewrite (reads_keep_store env route now db req Hread). }
  destruct route; try discriminate Hread; cbn [serve];
    try match goal with
        | |- context [protected ?handler _ _ _ _] =>
            destruct (protected_cases handler env now db req) as [[rejected ->] | [claim ->]];
            [exact Hdb |]
        end.
  - unfold post_register.
    destruct (_ || _)%bool; [exact Hdb |].
    destruct (lengthBelow _ _) as [[]|]; cbn [bind catch500]; try exact Hdb.
    destruct (toLowerCaseOf _) as [lower|]; cbn [bind catch500]; [|exact Hdb].
    destruct (findOne _ _ _) as [[existing|]|]; cbn [bind catch500]; try exact Hdb.
    destruct (save _ _ _ _ _) as [[saved coll]|]; cbn [bind catch500]; [|exact Hdb].
    destruct (docId saved) as [id|]; cbn [ofOption bind catch500 snd]; [|exact Hdb].
    apply createDefaultCategories_keeps_indexes. exact Hdb.
  - destruct (post_login env now db req) as [res db'] eqn:Hlogin.
    now rewrite (login_keeps_store _ _ _ _ _ _ Hlogin).
  - unfold post_transactions.
    destruct (save _ _ _ _ _) as [[saved coll]|] eqn:Hsave; cbn [bind catch500 snd];
      [|exact Hdb].
    destruct Hdb as (Ht & Hb & Hc & Hn). repeat split; try assumption. cbn.
    apply (save_keeps_unique _ _ _ _ _ _ _ ["_id"] Hsave); [in_list | exact Ht].
  - unfold put_transactions_id, findOneAndUpdate.
    destruct (castFilter _ _) as [cond|]; cbn [bind catch500 snd]; [|exact Hdb].
    destruct (castUpdate _ _) as [change|]; cbn [bind catch500 snd]; [|exact Hdb].
    destruct (List.find cond (transactions db)) as [d|] eqn:Hfind;
      cbn [bind catch500 snd]; [|exact Hdb].
    destruct (bool_decide_reflect (change d !! "_id" = d !! "_id")) as [Hid|];
      cbn [bind catch500 snd]; [|exact Hdb].
    destruct Hdb as (Ht & Hb & Hc & Hn). repeat split; try assumption. cbn.
    unfold uniqueOn. rewrite (replaceFirst_keys ["_id"] cond d (change d) _ Hfind); [exact Ht |].
    unfold indexKey. cbn. now rewrite Hid.
  - unfold delete_transactions_id, findOneAndDelete.
    destruct (castFilter _ _) as [cond|]; cbn [bind catch500 snd]; [|exact Hdb].
    destruct (List.find cond (transactions db)); cbn [bind catch500 snd]; [|exact Hdb].
    destruct Hdb as (Ht & Hb & Hc & Hn). repeat split; try assumption. cbn.
    now apply removeFirst_unique.
  - unfold post_balance_items.
    destruct (save _ _ _ _ _) as [[saved coll]|] eqn:Hsave; cbn [bind catch500 snd];
      [|exact Hdb].
    destruct Hdb as (Ht & Hb & Hc & Hn). repeat split; try assumption. cbn.
    apply (save_keeps_unique _ _ _ _ _ _ _ ["_id"] Hsave); [in_list | exact Hb].
  - unfold post_categories.
    destruct (body req !! "type") as [type|]; [|exact Hdb].
    destruct (body req !! "name") as [name|]; [|exact Hdb].
    destruct (_ || _)%bool; [exact Hdb |].
    destruct (findOne _ _ _) as [[existing|]|]; cbn [bind catch500 snd]; try exact Hdb.
    destruct (save _ _ _ _ _) as [[saved coll]|] eqn:Hsave; cbn [bind catch500 snd];
      [|exact Hdb].
    destruct Hdb as (Ht & Hb & Hc & Hn). repeat split; try assumption; cbn.
    + apply (save_keeps_unique _ _ _ _ _ _ _ ["_id"] Hsave); [in_list | exact Hc].
    + apply (save_keeps_unique _ _ _ _ _ _ _ ["userId"; "type"; "name"] Hsave);
        [in_list | exact Hn].
  - unfold delete_categories_id, findOneAndDelete.
    destruct (castFilter _ _) as [cond|]; cbn [bind catch500 snd]; [|exact Hdb].
    destruct (List.find cond (categories db)); cbn [bind catch500 snd]; [|exact Hdb].
    destruct Hdb as (Ht & Hb & Hc & Hn). repeat split; try assumption; cbn;
      now apply removeFirst_unique.
Qed.

(** X20. The unique indexes are an invariant of the server: when no two
    transactions, no two balance items and no two categories share an
    [_id], and no two categories share owner, type and name, then the
    same holds after any sequence of requests, whatever their routes and
    payloads. *)
Theorem indexes_hold_throughout (env : Env) (trace : list (Route * Z * Request)) (db : DB)
    (Hdb : indexesHold db) :
  indexesHold (serveAll env trace db).
Proof.
  revert db Hdb. induction trace as [|[[route now] req] trace IH]; intros db Hdb; [exact Hdb |].
  cbn [serveAll]. apply IH. now apply serve_keeps_indexes.
Qed.

End Indexes.

(** ** The credentials of registration and login *)

Section Credentials.
Context `{Platform}.

(** X21. Login does not tell the letter case of the email: two login
    requests with the same password whose emails are equal up to letter
    case are answered the same. *)
Theorem login_ignores_letter_case (env : Env) (now : Z) (db : DB) (req1 req2 : Request)
    (email1 email2 : string)
    (Hemail1 : body req1 !! "email" = Some (JStr email1))
    (Hemail2 : body req2 !! "email" = Some (JStr email2))
    (Hcase : toLowerCase email1 = toLowerCase email2)
    (Hpassword : body req1 !! "password" = body req2 !! "password") :
  serve env PostLogin now db req1 = serve env PostLogin now db req2.
Proof.
  cbn [serve]. unfold post_login. rewrite Hemail1, Hemail2, Hpassword.
  cbn [toLowerCaseOf]. rewrite Hcase.
  assert (Htruthy : truthy (Some (JStr email1)) = truthy (Some (JStr email2))).
  { destruct email1 as [|a1 s1], email2 as [|a2 s2]; try reflexivity.
    - now pose proof (toLowerCase_text _ (eq_sym Hcase)).
    - now pose proof (toLowerCase_text _ Hcase). }
  now rewrite Htruthy.
Qed.

(** X22. An email that is given but is no string is a server error:
    [email.toLowerCase()] throws, and registration and login answer 500
    with the generic message, not 400, and store nothing. *)
Theorem non_string_email_is_server_error (env : Env) (now : Z) (db : DB) (req : Request)
    (v : json)
    (Hemail : body req !! "email" = Some v)
    (Hgiven : truthy (Some v) = true)
    (Hother : forall s, v ≠ JStr s)
    (Hpassword : truthy (body req !! "password") = true)
    (Hlength : lengthBelow (body req !! "password") 4 = Ok false) :
  serve env PostRegister now db req = (serverError, db) ∧
  serve env PostLogin now db req = (serverError, db).
Proof.
  cbn [serve]. unfold post_register, post_login.
  rewrite Hemail, Hgiven, Hpassword, Hlength. cbn [negb orb bind].
  destruct v; try (split; reflexivity). now destruct (Hother s).
Qed.

(** X23. A login with an email no stored user has is answered 401
    "Email atau password salah", whatever the password, and nothing is
    stored. *)
Theorem unknown_email_is_unauthorized (env : Env) (now : Z) (db : DB) (req : Request)
    (email : string)
    (Hemail : body req !! "email" = Some (JStr email))
    (Hgiven : email ≠ "")
    (Hpassword : truthy (body req !! "password") = true)
    (Hunknown : forall u, u ∈ users db -> u !! "email" ≠ Some (BStr (toLowerCase email))) :
  serve env PostLogin now db req = (failure 401 "Email atau password salah", db).
Proof.
  cbn [serve]. unfold post_login. rewrite Hemail, Hpassword.
  destruct email as [|a email]; [congruence |]. cbn [truthy negb orb toLowerCaseOf bind].
  rewrite findOne_email. cbn [bind].
  rewrite find_none_of; [reflexivity |].
  intros u Hu. apply bool_decide_eq_false. now apply Hunknown.
Qed.

End Credentials.

(** ** The handlers at work

    The theorems applied, and the code run, on a store with two users,
    Alice and Bob, one expense of Alice and the default categories. *)

Import Example.

#[local] Existing Instance examplePlatform.

(** A decidable proposition, by evaluation of its decision. *)
Ltac by_evaluation := refine (bool_decide_unpack _ _); vm_compute; exact I.

(** A property of every document of a given collection, by evaluation. *)
Ltac for_each_document :=
  apply Forall_forall; by_evaluation.

(** Alice creates an expense with a body that names Bob as [userId]: the
    request is answered 201, and the record sent back and the record
    stored are Alice's. *)
Lemma create_stamps_caller_witness :
  let req := request aliceAuth "" (expenseProps ++ [("userId", Some (JStr bobId))]) in
  let r := serve env0 PostTransactions 7000 dbTwoUsers req in
  body req !! "userId" = Some (JStr bobId) ∧
  attached (authenticate env0 7000 dbTwoUsers req)
  = Some (Some (JStr aliceId), reqUser (contextOf 7000 dbTwoUsers aliceAuth)) ∧
  reqUser (contextOf 7000 dbTwoUsers aliceAuth) !! "_id" = Some (BOid aliceId) ∧
  status (fst r) = 201 ∧
  exists sent,
    data (fst r) = Some (DataDoc sent) ∧
    transactions (snd r)
    = (transactions dbTwoUsers ++ [inserted (newObjectId dbTwoUsers) sent])%list ∧
    sent !! "userId" = Some (BOid aliceId) ∧
    inserted (newObjectId dbTwoUsers) sent !! "userId" = Some (BOid aliceId).
Proof.
  intros req r.
  assert (Hauth : attached (authenticate env0 7000 dbTwoUsers req)
                  = Some (Some (JStr aliceId), reqUser (contextOf 7000 dbTwoUsers aliceAuth)))
    by (vm_compute; reflexivity).
  destruct (create_stamps_caller env0 PostTransactions 7000 dbTwoUsers req
              (Some (JStr aliceId)) (reqUser (contextOf 7000 dbTwoUsers aliceAuth))
              eq_refl Hauth) as (Hcaller & Hsent & _ & Hlive).
  assert (Hcreated : status (fst r) = 201).
  { apply Hlive; [reflexivity | vm_compute; reflexivity | by_evaluation]. }
  split; [vm_compute; reflexivity |]. split; [exact Hauth |].
  split; [vm_compute; reflexivity |]. split; [exact Hcreated |].
  exact (Hsent Hcreated).
Defined.

(** The same with a payload whose [_id] is [null]: the record is sent
    back with that [null], and stored under a generated identifier. *)
Example create_with_null_id :
  let req := request aliceAuth ""
               (expenseProps ++ [("userId", Some (JStr bobId)); ("_id", Some JNull)]) in
  let r := serve env0 PostTransactions 7000 dbTwoUsers req in
  status (fst r) = 201 ∧
  exists sent stored,
    data (fst r) = Some (DataDoc sent) ∧
    transactions (snd r) = (transactions dbTwoUsers ++ [stored])%list ∧
    sent !! "_id" = Some BNull ∧
    stored !! "_id" = Some (BOid (newObjectId dbTwoUsers)) ∧
    sent !! "userId" = Some (BOid aliceId) ∧
    stored !! "userId" = Some (BOid aliceId).
Proof.
  intros req r. split; [vm_compute; reflexivity |].
  destruct (data (fst r)) as [[sent| | | |]|] eqn:Hdata; try (vm_compute in Hdata; discriminate).
  exists sent, (inserted (newObjectId dbTwoUsers) sent).
  vm_compute in Hdata. injection Hdata as <-.
  repeat split; by_evaluation.
Qed.

(** C2. [PUT /transactions/:id] does not put the caller's identifier
    over the [userId] of the body: Alice, updating her own expense with
    a body that names Bob, is answered 200 and the stored record is now
    Bob's. *)
Theorem put_transaction_reassigns_owner :
  let req := request aliceAuth expenseId [("userId", Some (JStr bobId))] in
  let r := serve env0 PutTransactionsId 7000 dbWithExpense req in
  reqUserId (contextOf 7000 dbWithExpense aliceAuth) = aliceId ∧
  (fun d => d !! "userId") <$> transactions dbWithExpense = [Some (BOid aliceId)] ∧
  status (fst r) = 200 ∧
  (fun d => d !! "userId") <$> transactions (snd r) = [Some (BOid bobId)].
Proof. vm_compute. repeat split; reflexivity. Qed.

(** C3 as stated fails on a malformed identifier: no transaction is
    stored under "xyz", and Bob's [DELETE /transactions/xyz] is answered
    500, not 404. *)
Lemma not_found_fails_on_malformed_id :
  ¬ answersNotFound env0 DeleteTransactionsId 7000 dbWithExpense
      (request bobAuth "xyz" []) (contextOf 7000 dbWithExpense bobAuth).
Proof.
  intros Hclaim.
  assert (Hserve : serve env0 DeleteTransactionsId 7000 dbWithExpense (request bobAuth "xyz" [])
                   = (notFound DeleteTransactionsId, dbWithExpense)).
  { apply Hclaim; [vm_compute; reflexivity |]. for_each_document. }
  apply (f_equal (fun r => status (fst r))) in Hserve.
  vm_compute in Hserve. discriminate Hserve.
Qed.

(** The same on an update document that does not cast: Bob's [PUT] on
    Alice's expense with an amount that is no number is answered 500. *)
Lemma not_found_fails_on_uncastable_update :
  ¬ answersNotFound env0 PutTransactionsId 7000 dbWithExpense
      (request bobAuth expenseId [("amount", Some (JStr "abc"))])
      (contextOf 7000 dbWithExpense bobAuth).
Proof.
  intros Hclaim.
  assert (Hserve : serve env0 PutTransactionsId 7000 dbWithExpense
                     (request bobAuth expenseId [("amount", Some (JStr "abc"))])
                   = (notFound PutTransactionsId, dbWithExpense)).
  { apply Hclaim; [vm_compute; reflexivity |]. for_each_document. }
  apply (f_equal (fun r => status (fst r))) in Hserve.
  vm_compute in Hserve. discriminate Hserve.
Qed.

(** Bob's [PUT] on Alice's expense: 404, the expense as it was. *)
Lemma foreign_or_absent_is_not_found_witness :
  let req := request bobAuth expenseId [("amount", Some (JNum 1))] in
  (fun d => (d !! "_id", d !! "userId")) <$> transactions dbWithExpense
  = [(Some (BOid expenseId), Some (BOid aliceId))] ∧
  serve env0 PutTransactionsId 7000 dbWithExpense req
  = (notFound PutTransactionsId, dbWithExpense) ∧
  status (notFound PutTransactionsId) = 404.
Proof.
  intros req. split.
  - vm_compute. reflexivity.
  - apply (foreign_or_absent_is_not_found env0 PutTransactionsId 7000 dbWithExpense req
             (contextOf 7000 dbWithExpense bobAuth) expenseId).
    + reflexivity.
    + vm_compute; reflexivity.
    + vm_compute; reflexivity.
    + intros _. apply updateCasts_evaluated. vm_compute. reflexivity.
    + for_each_document.
Defined.

(** C4 as stated fails on a verified token whose [userId] claim is not
    an identifier: the claim refers to no stored user, the contract's
    step (3) answers "User tidak ditemukan", and the guard answers
    "Token tidak valid". *)
Lemma guard_contract_fails_on_stray_claim :
  let req := request strayAuth "" [] in
  (userId <$> verifyToken env0 6000 (split " " (default "" strayAuth) !! 1%nat))
  = Some (Some (JStr "xyz")) ∧
  referenced dbTwoUsers (Some (JStr "xyz")) = None ∧
  guardContract env0 6000 dbTwoUsers req = Rejected userNotFound ∧
  authenticate env0 6000 dbTwoUsers req = Rejected invalidToken ∧
  authenticate env0 6000 dbTwoUsers req ≠ guardContract env0 6000 dbTwoUsers req.
Proof.
  vm_compute. repeat split; try reflexivity. discriminate.
Qed.

(** A verified token whose payload has no [userId]: the lookup is one by
    a [null] identifier, no stored user is without identifier, and the
    guard answers "User tidak ditemukan", as the contract does. *)
Example guard_on_token_without_claim :
  let req := request anonymousAuth "" [] in
  (userId <$> verifyToken env0 6000 (split " " (default "" anonymousAuth) !! 1%nat))
  = Some None ∧
  authenticate env0 6000 dbTwoUsers req = Rejected userNotFound ∧
  guardContract env0 6000 dbTwoUsers req = Rejected userNotFound.
Proof.
  vm_compute. repeat split; reflexivity.
Qed.

(** A token issued for Alice under the default lifetime verifies to her
    identifier. *)
Lemma token_round_trip_witness :
  exists token claims,
    generateToken env0 5000 aliceId = Ok token ∧
    verifyToken env0 5000 (Some token) = Some claims ∧
    userId claims = Some (JStr aliceId).
Proof.
  apply (token_round_trip env0 5000 604800000 aliceId "s3cret");
    [reflexivity | discriminate | reflexivity | lia | vm_compute; reflexivity].
Defined.

(** Alice's token, issued at second 5 for seven days, verifies at the
    time of issue and no longer at second 604805. *)
Lemma verifyToken_failure_is_none_witness :
  let token := tokenOf 5000 aliceId in
  verifyToken env0 5000 (Some token)
  = Some (mkClaims (Some (JStr aliceId)) (Some 5) None (Some 604805)) ∧
  verifyToken env0 604805000 (Some token) = None ∧
  exists e, Jwt.verify (Some token) (JWT_SECRET env0) 604805000 = Throw e.
Proof.
  intros token. split; [vm_compute; reflexivity |].
  apply (verifyToken_failure_is_none env0 604805000 token).
  apply (Expired env0 604805000 token "HS256" "@000000000000000000000001_5__604805"
           "2662334449" (mkClaims (Some (JStr aliceId)) (Some 5) None (Some 604805)) 604805);
    [vm_compute; reflexivity | vm_compute; reflexivity | reflexivity | vm_compute; discriminate].
Defined.

(** "Alice@Example.com" registered; Bob registers and Alice records an
    expense; "ALICE@example.COM" is then turned down. *)
Lemma register_rejects_case_variant_witness :
  let req1 := request None "" [("email", Some (JStr "Alice@Example.com"));
                               ("password", Some (JStr "wonderland"))] in
  let req2 := request None "" [("email", Some (JStr "ALICE@example.COM"));
                               ("password", Some (JStr "rabbit"))] in
  let between :=
    [(PostRegister, 2000, request None "" [("email", Some (JStr "bob@example.com"));
                                           ("password", Some (JStr "builder"))]);
     (PostTransactions, 6000, request aliceAuth "" expenseProps)] in
  let db2 := serveAll env0 between dbAlice in
  status (fst (post_register 1000 emptyDB req1)) = 201 ∧
  (List.length (users db2), List.length (transactions db2)) = (2%nat, 1%nat) ∧
  (exists saved,
     users dbAlice = (users emptyDB ++ [saved])%list ∧
     saved !! "email" = Some (BStr "alice@example.com")) ∧
  post_register 8000 db2 req2 = (failure 400 "Email sudah terdaftar", db2).
Proof.
  intros req1 req2 between db2. split; [vm_compute; reflexivity |].
  split; [vm_compute; reflexivity |].
  destruct (register_rejects_case_variant env0 1000 8000 emptyDB dbAlice req1 req2
              (fst (post_register 1000 emptyDB req1)) "Alice@Example.com" "ALICE@example.COM"
              between)
    as [Hstored (res2 & Hsecond & _ & _ & Hduplicate)];
    [vm_compute; reflexivity | vm_compute; reflexivity | vm_compute; reflexivity
    | by_evaluation | vm_compute; reflexivity |].
  split; [exact Hstored |].
  refine (eq_trans Hsecond _). f_equal. apply Hduplicate; vm_compute; reflexivity.
Defined.

(** C8. [POST /transactions] has no check of its own on the payload; a
    validation failure of the model is thrown into the handler's [catch]:
    Alice's expense without an amount is answered 500, not 400. Nothing
    is stored. *)
Theorem post_transaction_without_amount_is_500 :
  let req := request aliceAuth ""
               [("type", Some (JStr "expense")); ("date", Some (JNum 5500));
                ("category", Some (JStr "Transport")); ("description", Some (JStr "Taxi"))] in
  let r := serve env0 PostTransactions 7000 dbTwoUsers req in
  body req !! "amount" = None ∧
  status (fst r) = 500 ∧
  snd r = dbTwoUsers.
Proof.
  intros req r. split; [vm_compute; reflexivity |].
  split; [vm_compute; reflexivity | by_evaluation].
Qed.

(** Alice's [DELETE] of her own default category "Penjualan" fails. *)
Lemma default_categories_are_never_deleted_witness :
  let req := request aliceAuth penjualanId [] in
  let r := serve env0 DeleteCategoriesId 7000 dbTwoUsers req in
  (fun c => (c !! "userId", c !! "isDefault")) <$>
    List.filter (fun c => bool_decide (c !! "_id" = Some (BOid penjualanId)))
      (categories dbTwoUsers)
  = [(Some (BOid aliceId), Some (BBool true))] ∧
  success (fst r) = false ∧ status (fst r) ≠ 200 ∧ snd r = dbTwoUsers.
Proof.
  intros req r. split.
  - vm_compute. reflexivity.
  - refine (proj2 (default_categories_are_never_deleted env0 DeleteCategoriesId 7000
                     dbTwoUsers (snd r) req (fst r) _) eq_refl _).
    + by_evaluation.
    + intros c id Hc [= <-]. revert c Hc.
      apply (proj1 (Forall_forall
                      (fun c : Doc => c !! "_id" = Some (BOid penjualanId) ->
                                      c !! "isDefault" = Some (BBool true))
                      (categories dbTwoUsers))).
      by_evaluation.
Defined.

(** Alice's [PUT] and [DELETE] under a path that is no identifier. *)
Lemma malformed_id_is_server_error_witness :
  let req := request aliceAuth "not-an-identifier" [("amount", Some (JNum 1))] in
  serve env0 PutTransactionsId 7000 dbWithExpense req = (serverError, dbWithExpense) ∧
  serve env0 DeleteTransactionsId 7000 dbWithExpense req = (serverError, dbWithExpense) ∧
  status serverError = 500.
Proof.
  intros req.
  apply (malformed_id_is_server_error env0 7000 dbWithExpense req
           (contextOf 7000 dbWithExpense aliceAuth));
    vm_compute; reflexivity.
Defined.

(** ** The ledger at work

    On the ledger: Alice has an expense of 40 and an income of 100, Bob
    an expense of 7, Alice an asset of 500 and a category "Pajak". *)

(** Alice lists the transactions: her two, not Bob's. *)
Lemma list_routes_show_own_records_witness :
  (fun d => d !! "userId") <$> transactions dbLedger
  = [Some (BOid aliceId); Some (BOid aliceId); Some (BOid bobId)] ∧
  exists l,
    serve env0 GetTransactions 7000 dbLedger (request aliceAuth "" [])
    = (mkResponse 200 true None (Some (DataDocs l)), dbLedger) ∧
    l ≡ₚ ownedRecords alice (listed GetTransactions dbLedger) ∧
    (forall d, d ∈ l <-> d ∈ listed GetTransactions dbLedger ∧ d !! "userId" = callerId alice).
Proof.
  split; [vm_compute; reflexivity |].
  apply (list_routes_show_own_records env0 GetTransactions 7000 dbLedger
           (request aliceAuth "" []) alice);
    [reflexivity | vm_compute; reflexivity].
Defined.

(** The income of date 5600 comes before the expense of date 5500. *)
Lemma list_routes_newest_first_witness :
  (fun d => d !! "date") <$> ownedRecords alice (transactions dbLedger)
  = [Some (BDate 5500); Some (BDate 5600)] ∧
  exists l,
    data (fst (serve env0 GetTransactions 7000 dbLedger (request aliceAuth "" [])))
    = Some (DataDocs l) ∧
    StronglySorted notOlder l.
Proof.
  split; [vm_compute; reflexivity |].
  apply (list_routes_newest_first env0 GetTransactions 7000 dbLedger
           (request aliceAuth "" []) alice);
    [reflexivity | vm_compute; reflexivity].
Defined.

(** Alice's categories: the four income defaults, and the four expense
    defaults with "Pajak" among them, by name. *)
Lemma categories_listed_by_type_in_name_order_witness :
  exists income expense,
    serve env0 GetCategories 7000 dbLedger (request aliceAuth "" [])
    = (mkResponse 200 true None (Some (DataCategories income expense)), dbLedger) ∧
    income ≡ₚ namesOf "income" (ownedRecords alice (categories dbLedger)) ∧
    expense ≡ₚ namesOf "expense" (ownedRecords alice (categories dbLedger)) ∧
    StronglySorted notAfter income ∧ StronglySorted notAfter expense.
Proof.
  apply (categories_listed_by_type_in_name_order env0 7000 dbLedger
           (request aliceAuth "" []) alice).
  vm_compute; reflexivity.
Defined.

(** Alice's dashboard: income 100, expense 40, profit 60, assets 500;
    Bob's expense of 7 is not in it. *)
Lemma dashboard_sums_own_records_witness :
  let txs := ownedRecords alice (transactions dbLedger) in
  let items := ownedRecords alice (balanceItems dbLedger) in
  (sumAmounts "income" txs, sumAmounts "expense" txs, sumAmounts "asset" items,
   List.length txs, List.length items) = (100, 40, 500, 2%nat, 1%nat) ∧
  (magnitude txs, magnitude items) = (140, 500) ∧
  serve env0 GetDashboard 7000 dbLedger (request aliceAuth "" []) =
  (mkResponse 200 true (Some "Dashboard data berhasil diambil")
     (Some (DataDashboard (Some (JStr (reqUserId alice)))
              [("totalIncome", Some (sumAmounts "income" txs));
               ("totalExpense", Some (sumAmounts "expense" txs));
               ("profit", Some (sumAmounts "income" txs - sumAmounts "expense" txs));
               ("totalAssets", Some (sumAmounts "asset" items));
               ("totalLiabilities", Some (sumAmounts "liability" items));
               ("totalEquity", Some (sumAmounts "equity" items))]
              (List.length txs) (List.length items))),
   dbLedger).
Proof.
  intros txs items. split; [vm_compute; reflexivity |].
  split; [vm_compute; reflexivity |].
  apply (dashboard_sums_own_records env0 7000 dbLedger (request aliceAuth "" []) alice);
    [vm_compute; reflexivity | by_evaluation | by_evaluation | vm_compute; reflexivity
    | vm_compute; reflexivity].
Defined.

(** Past [2 ^ 53] the sum is a rounded one: 9007199254740992 and 1 add
    up to 9007199254740992. *)
Example total_rounds :
  total "income" [ {[ "type" := BStr "income"; "amount" := BNum 9007199254740992 ]};
                   {[ "type" := BStr "income"; "amount" := BNum 1 ]} ]
  = Some 9007199254740992.
Proof.
  vm_compute. reflexivity.
Qed.


(** One more expense of Bob changes nothing of what Alice reads. *)
Lemma reads_depend_on_own_records_witness :
  let more :=
    snd (serve env0 PostTransactions 6500 dbLedger (request bobAuth "" bobExpenseProps)) in
  let req := request aliceAuth "" [] in
  (List.length (transactions dbLedger), List.length (transactions more)) = (3%nat, 4%nat) ∧
  fst (serve env0 GetDashboard 7000 dbLedger req) = fst (serve env0 GetDashboard 7000 more req).
Proof.
  intros more req. split; [vm_compute; reflexivity |].
  apply (reads_depend_on_own_records env0 GetDashboard 7000 dbLedger more req alice);
    [reflexivity | vm_compute; reflexivity | vm_compute; reflexivity
    | by_evaluation | by_evaluation | by_evaluation].
Defined.

Lemma reads_and_login_keep_store_witness :
  snd (serve env0 GetCategories 7000 dbLedger (request aliceAuth "" [])) = dbLedger.
Proof.
  apply (reads_and_login_keep_store env0 GetCategories 7000 dbLedger (request aliceAuth "" [])).
  left. reflexivity.
Defined.

(** Alice gives her expense to Bob by a [PUT]: what Bob had is still
    there, before the record he got. *)
Lemma writes_spare_other_users_witness :
  let req := request aliceAuth expenseId [("userId", Some (JStr bobId))] in
  let db' := snd (serve env0 PutTransactionsId 7000 dbLedger req) in
  ((fun d => d !! "_id") <$> foreignRecords alice (transactions dbLedger),
   (fun d => d !! "_id") <$> foreignRecords alice (transactions db'))
  = ([Some (BOid "000000000000000000000015")],
     [Some (BOid expenseId); Some (BOid "000000000000000000000015")]) ∧
  foreignRecords alice (transactions dbLedger)
    `sublist_of` foreignRecords alice (transactions db') ∧
  foreignRecords alice (balanceItems dbLedger)
    `sublist_of` foreignRecords alice (balanceItems db') ∧
  foreignRecords alice (categories dbLedger)
    `sublist_of` foreignRecords alice (categories db').
Proof.
  intros req db'. split; [vm_compute; reflexivity |].
  apply (writes_spare_other_users env0 PutTransactionsId 7000 dbLedger req alice).
  vm_compute; reflexivity.
Defined.

(** A balance item with a negative amount: 500, and nothing stored. *)
Lemma failed_requests_leave_store_witness :
  let req := request aliceAuth ""
               [("type", Some (JStr "asset")); ("date", Some (JNum 5650));
                ("category", Some (JStr "Kas")); ("description", Some (JStr "Cash"));
                ("amount", Some (JNum (-1)))] in
  let r := serve env0 PostBalanceItems 7000 dbLedger req in
  status (fst r) = 500 ∧ snd r = dbLedger.
Proof.
  intros req r. split; [vm_compute; reflexivity |].
  apply (failed_requests_leave_store env0 PostBalanceItems 7000 dbLedger (snd r) req (fst r));
    [by_evaluation | vm_compute; reflexivity].
Defined.

(** Alice's income, as stored. *)
Lemma created_ledger_record_is_valid_witness :
  let req := request aliceAuth "" incomeProps in
  let r := serve env0 PostTransactions 7000 dbLedger req in
  exists sent stored,
    data (fst r) = Some (DataDoc sent) ∧
    created PostTransactions (snd r) = (created PostTransactions dbLedger ++ [stored])%list ∧
    (stored = sent ∨
     (sent !! "_id" = Some BNull ∧ stored = <["_id" := BOid (newObjectId dbLedger)]> sent)) ∧
    (exists t, stored !! "type" = Some (BStr t) ∧ t ∈ allowedTypes PostTransactions) ∧
    (exists v, stored !! "amount" = Some v ∧ v ≠ BNull ∧ forall n, v = BNum n -> 0 <= n) ∧
    present stored "date" ∧ present stored "category" ∧ present stored "description" ∧
    (stored !! "type" = Some (BStr "income") -> present stored "customerName") ∧
    stored !! "updatedAt" = Some (BDate 7000).
Proof.
  intros req r.
  apply (created_ledger_record_is_valid env0 PostTransactions 7000 dbLedger (snd r) req (fst r));
    [left; reflexivity | by_evaluation | vm_compute; reflexivity].
Defined.

(** Alice posts a category " Gaji " and says it is a default: it is
    stored as "Gaji", and not as a default. *)
Lemma posted_category_is_plain_and_new_witness :
  let req := request aliceAuth ""
               [("type", Some (JStr "income")); ("name", Some (JStr " Gaji "));
                ("isDefault", Some (JBool true))] in
  let r := serve env0 PostCategories 7000 dbLedger req in
  body req !! "isDefault" = Some (JBool true) ∧
  exists c,
    categories (snd r) = (categories dbLedger ++ [c])%list ∧
    data (fst r) = Some (DataDoc c) ∧
    c !! "isDefault" = Some (BBool false) ∧
    (exists t, c !! "type" = Some (BStr t) ∧ t ∈ allowedTypes PostCategories) ∧
    present c "name" ∧
    (forall n, body req !! "name" = Some (JStr n) -> c !! "name" = Some (BStr (trim n))) ∧
    (forall c', c' ∈ categories dbLedger ->
       ¬ (c' !! "userId" = c !! "userId" ∧ c' !! "type" = c !! "type" ∧
          c' !! "name" = c !! "name")).
Proof.
  intros req r. split; [vm_compute; reflexivity |].
  apply (posted_category_is_plain_and_new env0 7000 dbLedger (snd r) req (fst r));
    [by_evaluation | vm_compute; reflexivity].
Defined.

(** Alice has "Pajak" among her expense categories; "Pajak  " is refused. *)
Lemma duplicate_category_is_refused_witness :
  let req := request aliceAuth ""
               [("type", Some (JStr "expense")); ("name", Some (JStr "Pajak  "))] in
  serve env0 PostCategories 7000 dbLedger req = (failure 400 "Kategori sudah ada", dbLedger).
Proof.
  intros req.
  apply (duplicate_category_is_refused env0 7000 dbLedger req alice "expense" "Pajak  "
           (default ∅ (last (categories dbLedger))));
    [vm_compute; reflexivity | vm_compute; reflexivity | vm_compute; reflexivity
    | discriminate | discriminate | by_evaluation | vm_compute; reflexivity
    | vm_compute; reflexivity | vm_compute; reflexivity].
Defined.

(** Alice's registration on the empty store: one user, eight categories. *)
Lemma registration_adds_default_categories_witness :
  let req := request None "" [("email", Some (JStr "Alice@Example.com"));
                              ("password", Some (JStr "wonderland"))] in
  List.length (categories dbAlice) = 8%nat ∧
  exists user id added,
    users dbAlice = (users emptyDB ++ [user])%list ∧
    user !! "_id" = Some (BOid id) ∧
    categories dbAlice = (categories emptyDB ++ added)%list ∧
    (List.length added <= 8)%nat ∧
    Forall (isDefaultCategoryOf id) added ∧
    transactions dbAlice = transactions emptyDB ∧ balanceItems dbAlice = balanceItems emptyDB.
Proof.
  intros req. split; [vm_compute; reflexivity |].
  apply (registration_adds_default_categories env0 1000 emptyDB dbAlice req
           (fst (serve env0 PostRegister 1000 emptyDB req)));
    [by_evaluation | vm_compute; reflexivity].
Defined.

(** Bob's registration next to Alice. *)
Lemma registration_accepts_new_emails_only_witness :
  let req := request None "" [("email", Some (JStr "bob@example.com"));
                              ("password", Some (JStr "builder"))] in
  exists email user,
    body req !! "email" = Some (JStr email) ∧ email ≠ "" ∧
    truthy (body req !! "password") = true ∧
    lengthBelow (body req !! "password") 4 = Ok false ∧
    (forall u, u ∈ users dbAlice -> u !! "email" ≠ Some (BStr (toLowerCase email))) ∧
    users dbTwoUsers = (users dbAlice ++ [user])%list ∧
    user !! "email" = Some (BStr (toLowerCase email)).
Proof.
  intros req.
  apply (registration_accepts_new_emails_only env0 2000 dbAlice dbTwoUsers req
           (fst (serve env0 PostRegister 2000 dbAlice req)));
    [by_evaluation | vm_compute; reflexivity].
Defined.

(** Alice deletes her category "Pajak": it is the last of the
    categories, and the only one to go. *)
Lemma delete_removes_the_own_record_witness :
  let req := request aliceAuth "000000000000000000000017" [] in
  exists l1 d l2,
    addressed DeleteCategoriesId dbLedger = (l1 ++ d :: l2)%list ∧
    deletable alice DeleteCategoriesId (params_id req) d ∧
    (forall x, x ∈ l1 -> ¬ deletable alice DeleteCategoriesId (params_id req) x) ∧
    serve env0 DeleteCategoriesId 7000 dbLedger req
    = (deleted DeleteCategoriesId, withAddressed DeleteCategoriesId dbLedger (l1 ++ l2)).
Proof.
  intros req.
  apply (delete_removes_the_own_record env0 DeleteCategoriesId 7000 dbLedger req alice);
    [reflexivity | vm_compute; reflexivity |].
  exists (default ∅ (last (categories dbLedger))).
  split; [by_evaluation |]. unfold deletable. by_evaluation.
Defined.

(** Alice sets the amount of her expense to -5: no validator objects. *)
Lemma put_updates_the_own_record_witness :
  let req := request aliceAuth expenseId [("amount", Some (JNum (-5)))] in
  exists l1 d l2 updated,
    transactions dbLedger = (l1 ++ d :: l2)%list ∧
    ownedBy alice (params_id req) d ∧
    (forall x, x ∈ l1 -> ¬ ownedBy alice (params_id req) x) ∧
    serve env0 PutTransactionsId 7000 dbLedger req =
    (mkResponse 200 true (Some "Transaksi berhasil diupdate") (Some (DataDoc updated)),
     withTransactions dbLedger (l1 ++ updated :: l2)) ∧
    updated !! "updatedAt" = Some (BDate 7000) ∧
    (forall k v p b,
       k ≠ "updatedAt" -> body req !! k = Some v ->
       lookupPath transactionSchema k = Some p -> castValue p v = Some b ->
       updated !! k = Some b) ∧
    (forall k,
       k ≠ "updatedAt" -> body req !! k = None ∨ lookupPath transactionSchema k = None ->
       updated !! k = d !! k).
Proof.
  intros req.
  apply (put_updates_the_own_record env0 7000 dbLedger req alice);
    [vm_compute; reflexivity | by_evaluation | vm_compute; reflexivity
    | apply updateCasts_evaluated; vm_compute; reflexivity |].
  exists (default ∅ (head (transactions dbLedger))).
  split; by_evaluation.
Defined.

(** A lifetime of two hours. *)
Lemma token_expires_after_lifetime_witness :
  let env := mkEnv (Some "s3cret") (Some "2h") in
  exists token,
    generateToken env 5000 aliceId = Ok token ∧
    forall now',
      (now' / 1000 < 5000 / 1000 + 7200000 / 1000 ->
       verifyToken env now' (Some token) = Some (issuedClaims aliceId 5000 7200000)) ∧
      (5000 / 1000 + 7200000 / 1000 <= now' / 1000 -> verifyToken env now' (Some token) = None).
Proof.
  intros env.
  apply (token_expires_after_lifetime env 5000 7200000 aliceId "s3cret");
    [reflexivity | discriminate | vm_compute; reflexivity | vm_compute; reflexivity].
Defined.

Lemma default_lifetime_is_seven_days_witness :
  exists token,
    generateToken env0 5000 aliceId = Ok token ∧
    forall now',
      verifyToken env0 now' (Some token) =
      if now' / 1000 <? 5000 / 1000 + 604800
      then Some (mkClaims (Some (JStr aliceId)) (Some (5000 / 1000)) None
                   (Some (5000 / 1000 + 604800)))
      else None.
Proof.
  apply (default_lifetime_is_seven_days env0 5000 aliceId "s3cret");
    [left; reflexivity | reflexivity | discriminate | vm_compute; reflexivity].
Defined.

(** Alice logs in at time 5000; after the ledger was written, her token
    passes the guard at time 7000, and no longer seven days later. *)
Lemma login_token_passes_guard_witness :
  let login := request None "" [("email", Some (JStr "ALICE@example.com"));
                                ("password", Some (JStr "wonderland"))] in
  let req := request aliceAuth "" [] in
  let db' := serveAll env0 ledger dbTwoUsers in
  (7000 / 1000 < 5000 / 1000 + 604800000 / 1000 ->
   exists ctx,
     authenticate env0 7000 db' req = Next ctx ∧
     reqUserId ctx = aliceId ∧ callerId ctx = Some (BOid aliceId) ∧ reqUser ctx ∈ users db') ∧
  (5000 / 1000 + 604800000 / 1000 <= 7000 / 1000 ->
   authenticate env0 7000 db' req = Rejected invalidToken).
Proof.
  intros login req.
  apply (login_token_passes_guard env0 5000 7000 604800000 dbTwoUsers login req
           (tokenOf 5000 aliceId) "s3cret" aliceId (Some (BStr "alice@example.com")) ledger);
    [vm_compute; reflexivity | reflexivity | discriminate | vm_compute; reflexivity
    | vm_compute; reflexivity | vm_compute; reflexivity | vm_compute; reflexivity
    | vm_compute; reflexivity].
Defined.

(** The indexes hold on the empty store, and so after the history. *)
Lemma indexes_hold_throughout_witness :
  (List.length (users (serveAll env0 history emptyDB)),
   List.length (categories (serveAll env0 history emptyDB))) = (2%nat, 17%nat) ∧
  indexesHold (serveAll env0 history emptyDB).
Proof.
  split; [vm_compute; reflexivity |].
  apply (indexes_hold_throughout env0 history emptyDB).
  unfold indexesHold, uniqueOn. cbn. repeat split; apply NoDup_nil_2.
Defined.

Lemma login_ignores_letter_case_witness :
  let req1 := request None "" [("email", Some (JStr "Alice@Example.com"));
                               ("password", Some (JStr "wonderland"))] in
  let req2 := request None "" [("email", Some (JStr "ALICE@EXAMPLE.COM"));
                               ("password", Some (JStr "wonderland"))] in
  status (fst (serve env0 PostLogin 5000 dbTwoUsers req1)) = 200 ∧
  serve env0 PostLogin 5000 dbTwoUsers req1 = serve env0 PostLogin 5000 dbTwoUsers req2.
Proof.
  intros req1 req2. split; [vm_compute; reflexivity |].
  apply (login_ignores_letter_case env0 5000 dbTwoUsers req1 req2
           "Alice@Example.com" "ALICE@EXAMPLE.COM");
    vm_compute; reflexivity.
Defined.

(** An email given as the number 5. *)
Lemma non_string_email_is_server_error_witness :
  let req := request None "" [("email", Some (JNum 5)); ("password", Some (JStr "wonderland"))] in
  serve env0 PostRegister 7000 dbLedger req = (serverError, dbLedger) ∧
  serve env0 PostLogin 7000 dbLedger req = (serverError, dbLedger).
Proof.
  intros req.
  apply (non_string_email_is_server_error env0 7000 dbLedger req (JNum 5));
    [vm_compute; reflexivity | reflexivity | discriminate | vm_compute; reflexivity
    | vm_compute; reflexivity].
Defined.

(** Carol has not registered. *)
Lemma unknown_email_is_unauthorized_witness :
  let req := request None "" [("email", Some (JStr "Carol@example.com"));
                              ("password", Some (JStr "wonderland"))] in
  serve env0 PostLogin 7000 dbLedger req = (failure 401 "Email atau password salah", dbLedger).
Proof.
  intros req.
  apply (unknown_email_is_unauthorized env0 7000 dbLedger req "Carol@example.com");
    [vm_compute; reflexivity | discriminate | vm_compute; reflexivity |].
  apply (proj1 (Forall_forall
                  (fun u : Doc => u !! "email" ≠ Some (BStr (toLowerCase "Carol@example.com")))
                  (users dbLedger))).
  by_evaluation.
Defined.
